(** * The Anaconda repository client ([binstar_client.Binstar])

    A shallow embedding of [src/binstar_client/__init__.py]: the session
    object, the response classifier [_check_response], the REST operations
    built on it, the three-phase [upload] and the redirect-aware [download].

    Python values are modelled as they flow through the code: strings as
    [string], status codes as [Z], decoded JSON as [json], exceptions as
    [pyexn], and the methods themselves in a state-and-exception monad over
    the session, the logger and the network. *)

From Stdlib Require Import String Ascii List ZArith Bool Lia DecimalString.
Import ListNotations.
Local Open Scope list_scope.
Local Open Scope string_scope.
#[local] Set Warnings "-register-all".

(** ** Python string methods used by the client *)

Module PyStr.

(** [s.startswith(p)] *)
Definition startswith (s p : string) : bool := String.prefix p s.

(** [s.endswith(suf)] *)
Fixpoint endswith (s suf : string) : bool :=
  (s =? suf) ||
  match s with
  | EmptyString => false
  | String _ s' => endswith s' suf
  end.

(** [s[:-1]]: everything but the last character; [''[:-1]] is ['']. *)
Fixpoint drop_last (s : string) : string :=
  match s with
  | EmptyString => EmptyString
  | String _ EmptyString => EmptyString
  | String c s' => String c (drop_last s')
  end.

(** [s.startswith((p1, p2, ...))] with a tuple of prefixes *)
Definition startswith_any (s : string) (ps : list string) : bool :=
  existsb (startswith s) ps.

(** The last character of a string, if any. *)
Fixpoint last_char (s : string) : option ascii :=
  match s with
  | EmptyString => None
  | String c EmptyString => Some c
  | String _ s' => last_char s'
  end.

(** [s.lower()] on ASCII letters *)
Definition lower_ascii (c : ascii) : ascii :=
  let n := nat_of_ascii c in
  if (65 <=? n)%nat && (n <=? 90)%nat then ascii_of_nat (n + 32) else c.

Fixpoint lower (s : string) : string :=
  match s with
  | EmptyString => EmptyString
  | String c s' => String (lower_ascii c) (lower s')
  end.

(** [str(n)] for an integer *)
Definition str_of_Z (n : Z) : string := NilZero.string_of_int (Z.to_int n).

(** [s.find(sub)] as a split: the text before and after the first
    occurrence of [sub]. *)
Fixpoint partition (s sep : string) : option (string * string) :=
  if String.prefix sep s
  then Some (EmptyString, substring (String.length sep) (String.length s - String.length sep) s)
  else match s with
       | EmptyString => None
       | String c s' =>
           match partition s' sep with
           | Some (a, b) => Some (String c a, b)
           | None => None
           end
       end.

(** The longest prefix of [s] made of characters satisfying [keep]. *)
Fixpoint take_while (keep : ascii -> bool) (s : string) : string :=
  match s with
  | EmptyString => EmptyString
  | String c s' => if keep c then String c (take_while keep s') else EmptyString
  end.

End PyStr.
Import PyStr.

(** ** Values

    Decoded JSON, as [Response.json()] and the request payloads carry it.
    A [JDict] keeps its items in insertion order, as a Python dict does. *)

Inductive json : Type :=
| JNull
| JBool (b : bool)
| JNum (n : Z)
| JStr (s : string)
| JList (l : list json)
| JDict (items : list (string * json)).

(** A Python dict with string keys: [d.get(k)], [d[k] = v], [k in d]. *)
Section Dict.
Context {V : Type}.

Fixpoint dict_get (d : list (string * V)) (k : string) : option V :=
  match d with
  | [] => None
  | (k', v) :: d' => if k' =? k then Some v else dict_get d' k
  end.

Fixpoint dict_set (d : list (string * V)) (k : string) (v : V) : list (string * V) :=
  match d with
  | [] => [(k, v)]
  | (k', v') :: d' => if k' =? k then (k, v) :: d' else (k', v') :: dict_set d' k v
  end.

Definition dict_update (d upd : list (string * V)) : list (string * V) :=
  fold_left (fun acc kv => dict_set acc (fst kv) (snd kv)) upd d.

End Dict.

(** HTTP headers are a case-insensitive dict ([requests]'
    [CaseInsensitiveDict]): names are compared after lower-casing. *)
Definition headers := list (string * string).

Fixpoint header_get (h : headers) (name : string) : option string :=
  match h with
  | [] => None
  | (k, v) :: h' => if lower k =? lower name then Some v else header_get h' name
  end.

Definition header_in (name : string) (h : headers) : bool :=
  match header_get h name with Some _ => true | None => false end.

(** An XML element as [xml.etree.ElementTree] presents it. *)
Inductive element : Type :=
| Element (tag : string) (text : option string) (children : list element).

Definition element_tag (e : element) : string :=
  match e with Element t _ _ => t end.

Definition element_text (e : element) : option string :=
  match e with Element _ t _ => t end.

(** [e.find(tag)]: the first direct child with that tag, or [None]. *)
Definition element_find (e : element) (tag : string) : option element :=
  match e with
  | Element _ _ cs => find (fun c => element_tag c =? tag) cs
  end.

(** [str(v)] and [repr(v)] of a decoded JSON value, as the ['%s'] format
    renders it. *)
Fixpoint py_repr (v : json) : string :=
  match v with
  | JNull => "None"
  | JBool true => "True"
  | JBool false => "False"
  | JNum n => str_of_Z n
  | JStr s => "'" ++ s ++ "'"
  | JList l =>
      "[" ++ (fix items (l : list json) : string :=
                match l with
                | [] => ""
                | [x] => py_repr x
                | x :: l' => py_repr x ++ ", " ++ items l'
                end) l ++ "]"
  | JDict d =>
      "{" ++ (fix items (d : list (string * json)) : string :=
                match d with
                | [] => ""
                | [(k, x)] => "'" ++ k ++ "': " ++ py_repr x
                | (k, x) :: d' => "'" ++ k ++ "': " ++ py_repr x ++ ", " ++ items d'
                end) d ++ "}"
  end.

Definition py_str (v : json) : string :=
  match v with
  | JStr s => s
  | _ => py_repr v
  end.

(** ['%s' % x] for an optional string argument: [None] prints as ["None"]. *)
Definition pct_s (o : option string) : string :=
  match o with Some s => s | None => "None" end.

(** Truth value of an optional string ([if login:], [if md5:]). *)
Definition truthy (o : option string) : bool :=
  match o with
  | Some s => negb (s =? "")
  | None => false
  end.

Definition json_of_option (o : option string) : json :=
  match o with Some s => JStr s | None => JNull end.

(** ** Exceptions

    Modelled from the spec: the [errors] module is not part of the source
    under study.  An API error is "a typed value carrying a short code, a
    human-readable message, and the originating HTTP status code", with the
    variants Unauthorized, NotFound, Conflict, ServerError and the generic
    error [BinstarError] that all of them derive from. *)

Inductive ErrCls : Type :=
| BinstarError
| Unauthorized
| Conflict
| NotFound
| ServerError.

Definition ErrCls_eqb (a b : ErrCls) : bool :=
  match a, b with
  | BinstarError, BinstarError | Unauthorized, Unauthorized
  | Conflict, Conflict | NotFound, NotFound | ServerError, ServerError => true
  | _, _ => false
  end.

(** The exceptions raised in the methods of the client.  [ApiError cls
    msg status] is [cls(msg, status)] ([status] is absent in
    [errors.ServerError(msg)] and in [BinstarError(msg)]); [ImportError name]
    is what importing a module that is not installed raises; [RaisedFrom e
    cause] is what [raise_from(e, cause)] raises: [e] with [cause] chained to
    it. *)
Inductive pyexn : Type :=
| ApiError (cls : ErrCls) (msg : json) (status : option Z)
| AttributeError (what : string)
| KeyError (key : string)
| TypeError (what : string)
| ValueError (what : string)
| UnboundLocalError (name : string)
| ImportError (name : string)
| ParseError
| TransportError (what : string)
| RaisedFrom (e cause : pyexn).

(** The API error class of an exception, if it is one: chaining a cause
    does not change the class of the exception raised. *)
Fixpoint api_class (e : pyexn) : option ErrCls :=
  match e with
  | ApiError cls _ _ => Some cls
  | RaisedFrom e' _ => api_class e'
  | _ => None
  end.

(** [isinstance(e, BinstarError)]: every variant derives from it. *)
Definition is_BinstarError (e : pyexn) : bool :=
  match api_class e with Some _ => true | None => false end.

(** [isinstance(e, errors.NotFound)] *)
Definition is_NotFound (e : pyexn) : bool :=
  match api_class e with Some NotFound => true | _ => false end.

(** [isinstance(e, ImportError)] *)
Definition is_ImportError (e : pyexn) : bool :=
  match e with ImportError _ => true | _ => false end.

(** The status code an API error carries. *)
Fixpoint api_status (e : pyexn) : option Z :=
  match e with
  | ApiError _ _ st => st
  | RaisedFrom e' _ => api_status e'
  | _ => None
  end.

Inductive result (A : Type) : Type :=
| Ok (a : A)
| Raise (e : pyexn).
Arguments Ok {A} a.
Arguments Raise {A} e.

Definition is_ok {A : Type} (r : result A) : bool :=
  match r with Ok _ => true | Raise _ => false end.

(** ** HTTP messages *)

(** What the body of a response decodes to: [res.json()] succeeds exactly
    on [AsJson], [ET.fromstring(res.text)] exactly on [AsXml]. *)
Inductive decoded : Type :=
| AsJson (j : json)
| AsXml (x : element)
| Undecodable.

Record response : Type := mkResponse {
  status_code : Z;
  res_headers : headers;
  text : string;
  body : decoded;
  request_method : string;   (* res.request.method *)
  request_url : string       (* res.request.url *)
}.

Inductive auth_kind : Type :=
| BasicAuth (username password : string)
| HTTPKerberosAuth.

(** The [data=] argument of a request. *)
Inductive req_data : Type :=
| Encoded (payload : json)               (* the JSON text of a payload *)
| Fields (d : list (string * json)).     (* a dict of form fields *)

Record request : Type := mkRequest {
  via_session : bool;       (* [self.session.m(...)] or [requests.m(...)] *)
  method : string;
  url : string;
  req_headers : headers;    (* [headers=] *)
  params : list (string * json);
  data : option req_data;
  files : option (string * list Byte.byte);   (* [files={'file': (name, fd)}] *)
  auth : option auth_kind;
  allow_redirects : bool;
  stream : bool;
  verify : option bool;
  timeout : option Z
}.

Definition new_request (via : bool) (m u : string) : request :=
  mkRequest via m u [] [] None None None true false None None.

Definition with_headers (h : headers) (q : request) : request :=
  mkRequest (via_session q) (method q) (url q) h (params q) (data q) (files q)
            (auth q) (allow_redirects q) (stream q) (verify q) (timeout q).

Definition with_params (p : list (string * json)) (q : request) : request :=
  mkRequest (via_session q) (method q) (url q) (req_headers q) p (data q) (files q)
            (auth q) (allow_redirects q) (stream q) (verify q) (timeout q).

Definition with_data (d : req_data) (q : request) : request :=
  mkRequest (via_session q) (method q) (url q) (req_headers q) (params q) (Some d)
            (files q) (auth q) (allow_redirects q) (stream q) (verify q) (timeout q).

Definition with_files (name : string) (f : list Byte.byte) (q : request) : request :=
  mkRequest (via_session q) (method q) (url q) (req_headers q) (params q) (data q)
            (Some (name, f)) (auth q) (allow_redirects q) (stream q) (verify q) (timeout q).

Definition with_auth (a : auth_kind) (q : request) : request :=
  mkRequest (via_session q) (method q) (url q) (req_headers q) (params q) (data q)
            (files q) (Some a) (allow_redirects q) (stream q) (verify q) (timeout q).

Definition with_allow_redirects (b : bool) (q : request) : request :=
  mkRequest (via_session q) (method q) (url q) (req_headers q) (params q) (data q)
            (files q) (auth q) b (stream q) (verify q) (timeout q).

Definition with_stream (b : bool) (q : request) : request :=
  mkRequest (via_session q) (method q) (url q) (req_headers q) (params q) (data q)
            (files q) (auth q) (allow_redirects q) b (verify q) (timeout q).

Definition with_verify (b : bool) (q : request) : request :=
  mkRequest (via_session q) (method q) (url q) (req_headers q) (params q) (data q)
            (files q) (auth q) (allow_redirects q) (stream q) (Some b) (timeout q).

Definition with_timeout (t : Z) (q : request) : request :=
  mkRequest (via_session q) (method q) (url q) (req_headers q) (params q) (data q)
            (files q) (auth q) (allow_redirects q) (stream q) (verify q) (Some t).

(** A round trip either fails in the transport or yields a response. *)
Inductive outcome : Type :=
| Failed (what : string)
| Response (r : response).

(** ** The client object and the world around it *)

(** The fields of a [Binstar] instance; [session_headers] and
    [session_verify] are [self.session.headers] and [self.session.verify]. *)
Record Binstar : Type := mkBinstar {
  session_headers : headers;
  session_verify : bool;
  token : option string;
  _token_warning_sent : bool;
  domain : string
}.

(** The file object handed to [upload]: its bytes and its read offset. *)
Record file : Type := mkFile {
  content : list Byte.byte;
  pos : nat
}.

Record world : Type := mkWorld {
  self : Binstar;
  fd : file;
  clock : nat          (* round trips made so far *)
}.

(** What a method does that its caller can observe besides its result:
    the requests it sends (with the headers that go on the wire and what came
    back), the records it logs, and the exceptions raised along the way. *)
Inductive event : Type :=
| Sent (q : request) (wire : headers) (o : outcome)
| Warning (msg : string)
| Info (msg : string)
| Raised (e : pyexn).

Inductive hash_algorithm : Type := md5_alg | sha256_alg.

(** What the module imports from outside this source file. *)
Record externals : Type := mkExternals {
  __version__ : string;                          (* [.__about__.__version__] *)
  pv_gt : string -> string -> bool;              (* [pv(a) > pv(b)] *)
  STATUS_CODES : Z -> option (string * string);  (* [utils.http_codes] *)
  hexdigest : hash_algorithm -> list Byte.byte -> string;
  b64digest : hash_algorithm -> list Byte.byte -> string;
  has_requests_kerberos : bool;                  (* the import succeeds *)
  node : string                                  (* [platform.node()] *)
}.

(** The network: what the [n]-th round trip returns for a request. *)
Definition network : Type := nat -> request -> outcome.

(** ** The monad of methods: state, events, exceptions *)

Definition M (A : Type) : Type := world -> result A * world * list event.

Definition ret {A : Type} (a : A) : M A := fun w => (Ok a, w, []).

Definition bind {A B : Type} (m : M A) (f : A -> M B) : M B :=
  fun w =>
    match m w with
    | (Ok a, w1, ev1) =>
        match f a w1 with
        | (r, w2, ev2) => (r, w2, (ev1 ++ ev2)%list)
        end
    | (Raise e, w1, ev1) => (Raise e, w1, ev1)
    end.

(** [raise e] *)
Definition raise {A : Type} (e : pyexn) : M A := fun w => (Raise e, w, [Raised e]).

(** [try: m  except C as e: h e], where [h e] is [None] when [e] is not an
    instance of [C]. *)
Definition try_except {A : Type} (m : M A) (h : pyexn -> option (M A)) : M A :=
  fun w =>
    match m w with
    | (Ok a, w1, ev1) => (Ok a, w1, ev1)
    | (Raise e, w1, ev1) =>
        match h e with
        | Some k =>
            match k w1 with
            | (r, w2, ev2) => (r, w2, (ev1 ++ ev2)%list)
            end
        | None => (Raise e, w1, ev1)
        end
    end.

Definition emit (ev : event) : M unit := fun w => (Ok tt, w, [ev]).

Definition get_self : M Binstar := fun w => (Ok (self w), w, []).

Definition set_self (b : Binstar) : M unit :=
  fun w => (Ok tt, mkWorld b (fd w) (clock w), []).

Definition get_fd : M file := fun w => (Ok (fd w), w, []).

Definition set_fd (f : file) : M unit :=
  fun w => (Ok tt, mkWorld (self w) f (clock w), []).

Definition when (b : bool) (m : M unit) : M unit := if b then m else ret tt.

Declare Scope py_scope.
Delimit Scope py_scope with py.
Notation "x <- m ;; k" := (bind m (fun x => k))
  (at level 61, m at next level, right associativity) : py_scope.
Notation "' pat <- m ;; k" := (bind m (fun x => match x with pat => k end))
  (at level 61, pat pattern, m at next level, right associativity) : py_scope.
Notation "m ;; k" := (bind m (fun _ => k))
  (at level 61, right associativity) : py_scope.
Local Open Scope py_scope.

(** The logger *)
Definition logger_warning (msg : string) : M unit := emit (Warning msg).
Definition logger_info (msg : string) : M unit := emit (Info msg).

(** The headers a request carries on the wire: a request made through the
    session carries the session's headers, updated with the per-call ones; a
    request made through the [requests] module carries the per-call ones
    only.  (The defaults [requests] itself adds are left out.) *)
Fixpoint header_set (h : headers) (k v : string) : headers :=
  match h with
  | [] => [(k, v)]
  | (k', v') :: h' =>
      if lower k' =? lower k then (k, v) :: h' else (k', v') :: header_set h' k v
  end.

Definition headers_update (h upd : headers) : headers :=
  fold_left (fun acc kv => header_set acc (fst kv) (snd kv)) upd h.

Definition wire_headers (b : Binstar) (q : request) : headers :=
  if via_session q then headers_update (session_headers b) (req_headers q)
  else req_headers q.

(** File object methods *)
Definition fd_tell : M Z := f <- get_fd ;; ret (Z.of_nat (pos f)).

Definition fd_seek (offset : Z) : M unit :=
  f <- get_fd ;; set_fd (mkFile (content f) (Z.to_nat offset)).

(** [fd.seek(0, os.SEEK_END)] *)
Definition fd_seek_end : M unit :=
  f <- get_fd ;; set_fd (mkFile (content f) (List.length (content f))).

(** Reading the file to its end, as the multipart encoder does. *)
Definition fd_read_all : M (list Byte.byte) :=
  f <- get_fd ;;
  set_fd (mkFile (content f) (Nat.max (pos f) (List.length (content f)))) ;;
  ret (skipn (pos f) (content f)).

(** [res.json()] *)
Definition res_json (res : response) : M json :=
  match body res with
  | AsJson j => ret j
  | _ => raise (ValueError "No JSON object could be decoded")
  end.

(** [ET.fromstring(res.text)] *)
Definition ET_fromstring (res : response) : M element :=
  match body res with
  | AsXml x => ret x
  | _ => raise ParseError
  end.

(** [obj[key]] on a decoded JSON value *)
Definition subscript (obj : json) (key : string) : M json :=
  match obj with
  | JDict d =>
      match dict_get d key with
      | Some v => ret v
      | None => raise (KeyError key)
      end
  | _ => raise (TypeError "object is not subscriptable by a string")
  end.

(** [obj[key] = v] on a decoded JSON value *)
Definition setitem (obj : json) (key : string) (v : json) : M json :=
  match obj with
  | JDict d => ret (JDict (dict_set d key v))
  | _ => raise (TypeError "object does not support item assignment by a string")
  end.

(** [data.get(key, default)] on a decoded JSON value: only a dict has
    [get]. *)
Definition dot_get (data : json) (key : string) (default : json) : M json :=
  match data with
  | JDict d =>
      match dict_get d key with
      | Some v => ret v
      | None => ret default
      end
  | _ => raise (AttributeError "get")
  end.

(** [res.headers[name]] *)
Definition header_item (h : headers) (name : string) : M string :=
  match header_get h name with
  | Some v => ret v
  | None => raise (KeyError (lower name))
  end.

(** Reading a local variable that is bound only on some paths. *)
Definition local {A : Type} (name : string) (v : option A) : M A :=
  match v with
  | Some a => ret a
  | None => raise (UnboundLocalError name)
  end.

(** [urllib.parse.quote(s)]: every byte outside letters, digits and
    ["_.-~/"] is percent-encoded. *)
Definition hex_digit (n : nat) : ascii :=
  if (n <? 10)%nat then ascii_of_nat (48 + n) else ascii_of_nat (55 + n).

Definition quote_safe (c : ascii) : bool :=
  let n := nat_of_ascii c in
  ((48 <=? n) && (n <=? 57) || (65 <=? n) && (n <=? 90) || (97 <=? n) && (n <=? 122)
   || (n =? 95) || (n =? 46) || (n =? 45) || (n =? 126) || (n =? 47))%nat.

Fixpoint quote (s : string) : string :=
  match s with
  | EmptyString => EmptyString
  | String c s' =>
      if quote_safe c then String c (quote s')
      else let n := nat_of_ascii c in
           String "%" (String (hex_digit (n / 16)) (String (hex_digit (n mod 16)) (quote s')))
  end.

(** Modelled from the spec: [utils.jencode] is not part of the source under
    study; it serialises the payload to a JSON body and names its content
    type. *)
Definition jencode (payload : json) : req_data * headers :=
  (Encoded payload, [("Content-Type", "application/json")]).

Definition nl : string := String (ascii_of_nat 10) EmptyString.

Definition session_ (m u : string) : request := new_request true m u.
Definition requests_ (m u : string) : request := new_request false m u.

(** ** The class [Binstar] *)

Section Client.

Variable ext : externals.
Variable net : network.

(** One round trip.  A transport failure is raised by the [requests]
    library at the call, as one of its own exceptions. *)
Definition send (q : request) : M response :=
  fun w =>
    let h := wire_headers (self w) q in
    let w' := mkWorld (self w) (fd w) (S (clock w)) in
    match net (clock w) q with
    | Response r => (Ok r, w', [Sent q h (Response r)])
    | Failed what =>
        (Raise (TransportError what), w', [Sent q h (Failed what); Raised (TransportError what)])
    end.

(** Modelled from the spec: [utils.compute_hash] is not part of the source
    under study.  §4.2: it reads the stream from its current position to the
    end, returns the hex digest, the base64 digest and the byte count (the
    number of bytes read when no size is given), and leaves the read position
    where it was. *)
Definition compute_hash (size : option Z) (alg : hash_algorithm) : M (string * string * Z) :=
  f <- get_fd ;;
  let bytes := skipn (pos f) (content f) in
  ret (hexdigest ext alg bytes, b64digest ext alg bytes,
       match size with
       | Some n => n
       | None => Z.of_nat (List.length bytes)
       end).

Definition __init__ (token : option string) (domain : string) (verify : bool) : Binstar :=
  let h := header_set [] "x-binstar-api-version" (__version__ ext) in
  let user_agent := "Anaconda-Client/" ++ __version__ ext ++ " (+https://anaconda.org)" in
  let h := headers_update h [("User-Agent", user_agent);
                             ("Content-Type", "application/json");
                             ("Accept", "application/json")] in
  let h := if truthy token
           then headers_update h [("Authorization", "token " ++ pct_s token)]
           else h in
  let domain := if endswith domain "/" then drop_last domain else domain in
  let domain := if negb (startswith_any domain ["http://"; "https://"])
                then "https://" ++ domain else domain in
  mkBinstar h verify token false domain.

Definition set_token_warning_sent (b : bool) : M unit :=
  s <- get_self ;;
  set_self (mkBinstar (session_headers s) (session_verify s) (token s) b (domain s)).

Definition session_headers_update (upd : headers) : M unit :=
  s <- get_self ;;
  set_self (mkBinstar (headers_update (session_headers s) upd) (session_verify s)
                      (token s) (_token_warning_sent s) (domain s)).

(** The error class chosen from the status code alone. *)
Definition select_ErrCls (status : Z) : ErrCls :=
  if (status =? 401)%Z then Unauthorized
  else if (status =? 404)%Z then NotFound
  else if (status =? 409)%Z then Conflict
  else if (status >=? 500)%Z then ServerError
  else BinstarError.

Definition default_message (res : response) : string :=
  let '(short, long) :=
    match STATUS_CODES ext (status_code res) with
    | Some p => p
    | None => ("?", "Undefined error")
    end in
  short ++ ": " ++ long ++ " ([" ++ request_method res ++ "] " ++ request_url res
        ++ " -> " ++ str_of_Z (status_code res) ++ ")".

Definition _check_response (res : response) (allowed : list Z) : M unit :=
  let api_version :=
    match header_get (res_headers res) "x-binstar-api-version" with
    | Some v => v
    | None => "0.2.1"
    end in
  when (pv_gt ext api_version (__version__ ext))
       (logger_warning ("The api server is running the binstar-api version " ++ api_version
                        ++ ". you are using " ++ __version__ ext ++ nl
                        ++ "Please update your client with pip install -U binstar or conda update binstar")) ;;
  s <- get_self ;;
  when (negb (_token_warning_sent s) && header_in "Conda-Token-Warning" (res_headers res))
       (v <- header_item (res_headers res) "Conda-Token-Warning" ;;
        logger_warning ("Token warning: " ++ v) ;;
        set_token_warning_sent true) ;;
  when (header_in "X-Anaconda-Lockdown" (res_headers res))
       (logger_warning "Anaconda repository is currently in LOCKDOWN mode.") ;;
  when (header_in "X-Anaconda-Read-Only" (res_headers res))
       (logger_warning "Anaconda repository is currently in READ ONLY mode.") ;;
  if negb (existsb (Z.eqb (status_code res)) allowed) then
    let msg := JStr (default_message res) in
    data <- try_except (data <- res_json res ;; ret (Some data))   (* try: data = res.json() *)
                       (fun _ => Some (ret None)) ;;                 (* except: pass *)
    msg <- match data with
           | Some data => dot_get data "error" msg                  (* else: *)
           | None => ret msg
           end ;;
    raise (ApiError (select_ErrCls (status_code res)) msg (Some (status_code res)))
  else ret tt.

Definition server_not_found : string :=
  "API server not found. Please check your API url configuration.".

Definition check_server : M unit :=
  s <- get_self ;;
  response <- try_except
                (send (with_allow_redirects false (session_ "HEAD" (domain s))))
                (fun e => Some (raise (RaisedFrom (ApiError ServerError (JStr server_not_found) None) e))) ;;
  try_except
    (_check_response response [200%Z])
    (fun e => if is_NotFound e
              then Some (raise (RaisedFrom (ApiError ServerError (JStr server_not_found) None) e))
              else None).

Definition authentication_type : M json :=
  s <- get_self ;;
  let url := domain s ++ "/authentication-type" in
  res <- send (session_ "GET" url) ;;
  try_except
    (_check_response res [200%Z] ;;
     res <- res_json res ;;
     subscript res "authentication_type")
    (fun e => if is_BinstarError e then Some (ret (JStr "password")) else None).

(** The keyword arguments of [_authenticate]. *)
Record auth_args : Type := mkAuthArgs {
  application : json;
  application_url : json;
  for_user : json;
  scopes : json;
  created_with : json;
  max_age : json;
  strength : json;
  fail_if_already_exists : bool;
  hostname : option json       (* defaults to [platform.node()] *)
}.

Definition _authenticate (auth : auth_kind) (a : auth_args) : M json :=
  s <- get_self ;;
  let url := domain s ++ "/authentications" in
  let payload := JDict [("scopes", scopes a); ("note", application a);
                        ("note_url", application_url a);
                        ("hostname", match hostname a with
                                     | Some h => h
                                     | None => JStr (node ext)
                                     end);
                        ("user", for_user a);
                        ("max-age", max_age a);
                        ("created_with", JNull);
                        ("strength", strength a);
                        ("fail-if-exists", JBool (fail_if_already_exists a))] in
  let '(data, headers) := jencode payload in
  res <- send (with_headers headers (with_data data (with_auth auth (session_ "POST" url)))) ;;
  _check_response res [200%Z] ;;
  res <- res_json res ;;
  token <- subscript res "token" ;;
  session_headers_update [("Authorization", "token " ++ py_str token)] ;;
  ret token.

Definition kerberos_required : string :=
  "Kerberos authentication requires the requests-kerberos "
  ++ "package to be installed:" ++ nl
  ++ "    conda install requests-kerberos" ++ nl
  ++ "or: " ++ nl
  ++ "    pip install requests-kerberos".

(** The import and the call are both under the [try]; the handler takes an
    [ImportError] from either and raises the generic API error in its
    place. *)
Definition krb_authenticate (a : auth_args) : M json :=
  try_except
    ((if has_requests_kerberos ext        (* from requests_kerberos import HTTPKerberosAuth *)
      then ret tt
      else raise (ImportError "requests_kerberos")) ;;
     _authenticate HTTPKerberosAuth a)
    (fun e => if is_ImportError e
              then Some (raise (ApiError BinstarError (JStr kerberos_required) None))
              else None).

Definition authenticate (username password : string) (a : auth_args) : M json :=
  _authenticate (BasicAuth username password) a.

Definition list_scopes : M json :=
  s <- get_self ;;
  let url := domain s ++ "/scopes" in
  res <- send (requests_ "GET" url) ;;
  _check_response res [200%Z] ;;
  res_json res.

Definition authentication : M json :=
  s <- get_self ;;
  let url := domain s ++ "/authentication" in
  res <- send (session_ "GET" url) ;;
  _check_response res [200%Z] ;;
  res_json res.

Definition authentications : M json :=
  s <- get_self ;;
  let url := domain s ++ "/authentications" in
  res <- send (session_ "GET" url) ;;
  _check_response res [200%Z] ;;
  res_json res.

Definition remove_authentication (auth_name organization : option string) : M unit :=
  s <- get_self ;;
  let url :=
    if truthy auth_name then
      if truthy organization
      then domain s ++ "/authentications/org/" ++ pct_s organization ++ "/name/" ++ pct_s auth_name
      else domain s ++ "/authentications/name/" ++ pct_s auth_name
    else domain s ++ "/authentications" in
  res <- send (session_ "DELETE" url) ;;
  _check_response res [201%Z].

Definition user (login : option string) : M json :=
  s <- get_self ;;
  let url := if truthy login then domain s ++ "/user/" ++ pct_s login
             else domain s ++ "/user" in
  res <- send (with_verify (session_verify s) (session_ "GET" url)) ;;
  _check_response res [200%Z] ;;
  res_json res.

Definition user_packages (login platform package_type type_ access : option string) : M json :=
  s <- get_self ;;
  let url := if truthy login then domain s ++ "/packages/" ++ pct_s login
             else domain s ++ "/packages" in
  let arguments : list (string * json) := [] in
  let arguments := if truthy platform
                   then dict_set arguments "platform" (JStr (pct_s platform)) else arguments in
  let arguments := if truthy package_type
                   then dict_set arguments "package_type" (JStr (pct_s package_type)) else arguments in
  let arguments := if truthy type_
                   then dict_set arguments "type" (JStr (pct_s type_)) else arguments in
  let arguments := if truthy access
                   then dict_set arguments "access" (JStr (pct_s access)) else arguments in
  res <- send (with_params arguments (session_ "GET" url)) ;;
  _check_response res [200%Z] ;;
  res_json res.

Definition package (login package_name : string) : M json :=
  s <- get_self ;;
  let url := domain s ++ "/package/" ++ login ++ "/" ++ package_name in
  res <- send (session_ "GET" url) ;;
  _check_response res [200%Z] ;;
  res_json res.

Definition package_add_collaborator (owner package_name collaborator : string) : M unit :=
  s <- get_self ;;
  let url := domain s ++ "/packages/" ++ owner ++ "/" ++ package_name
                      ++ "/collaborators/" ++ collaborator in
  res <- send (session_ "PUT" url) ;;
  _check_response res [201%Z] ;;
  ret tt.

Definition package_remove_collaborator (owner package_name collaborator : string) : M unit :=
  s <- get_self ;;
  let url := domain s ++ "/packages/" ++ owner ++ "/" ++ package_name
                      ++ "/collaborators/" ++ collaborator in
  res <- send (session_ "DELETE" url) ;;
  _check_response res [201%Z] ;;
  ret tt.

Definition package_collaborators (owner package_name : string) : M json :=
  s <- get_self ;;
  let url := domain s ++ "/packages/" ++ owner ++ "/" ++ package_name ++ "/collaborators" in
  res <- send (session_ "GET" url) ;;
  _check_response res [200%Z] ;;
  res_json res.

Definition all_packages (modified_after : option string) : M json :=
  s <- get_self ;;
  let url := domain s ++ "/package_listing" in
  let data := [("modified_after",
                JStr (if truthy modified_after then pct_s modified_after else ""))] in
  res <- send (with_data (Fields data) (session_ "GET" url)) ;;
  _check_response res [200%Z] ;;
  res_json res.

(** Truth value of a decoded JSON value ([attrs or {}]). *)
Definition json_truthy (v : json) : bool :=
  match v with
  | JNull => false
  | JBool b => b
  | JNum n => negb (n =? 0)%Z
  | JStr s => negb (s =? "")
  | JList l => match l with [] => false | _ => true end
  | JDict d => match d with [] => false | _ => true end
  end.

Definition add_package (login package_name : string) (summary license : json)
           (public : bool) (license_url license_family : json) (attrs : json)
           (package_type : option string) : M json :=
  s <- get_self ;;
  let url := domain s ++ "/package/" ++ login ++ "/" ++ package_name in
  let attrs := if json_truthy attrs then attrs else JDict [] in
  attrs <- setitem attrs "summary" summary ;;
  attrs <- setitem attrs "package_types" (JList [json_of_option package_type]) ;;
  attrs <- setitem attrs "license" (JDict [("name", license); ("url", license_url);
                                           ("family", license_family)]) ;;
  let payload := JDict [("public", JBool public); ("publish", JBool false);
                        ("public_attrs", if json_truthy attrs then attrs else JDict [])] in
  let '(data, headers) := jencode payload in
  res <- send (with_headers headers (with_data data (session_ "POST" url))) ;;
  _check_response res [200%Z] ;;
  res_json res.

Definition update_package (login package_name : string) (attrs : list (string * json)) : M json :=
  s <- get_self ;;
  let url := domain s ++ "/package/" ++ login ++ "/" ++ package_name in
  let payload := JDict [("public_attrs", JDict attrs)] in
  let '(data, headers) := jencode payload in
  res <- send (with_headers headers (with_data data (session_ "PATCH" url))) ;;
  _check_response res [200%Z] ;;
  res_json res.

Definition update_release (login package_name version : string)
           (attrs : list (string * json)) : M json :=
  s <- get_self ;;
  let url := domain s ++ "/release/" ++ login ++ "/" ++ package_name ++ "/" ++ version in
  let payload := JDict [("public_attrs", JDict attrs)] in
  let '(data, headers) := jencode payload in
  res <- send (with_headers headers (with_data data (session_ "PATCH" url))) ;;
  _check_response res [200%Z] ;;
  res_json res.

Definition remove_package (username package_name : string) : M unit :=
  s <- get_self ;;
  let url := domain s ++ "/package/" ++ username ++ "/" ++ package_name in
  res <- send (session_ "DELETE" url) ;;
  _check_response res [201%Z] ;;
  ret tt.

Definition release (login package_name version : string) : M json :=
  s <- get_self ;;
  let url := domain s ++ "/release/" ++ login ++ "/" ++ package_name ++ "/" ++ version in
  res <- send (session_ "GET" url) ;;
  _check_response res [200%Z] ;;
  res_json res.

Definition remove_release (username package_name version : string) : M unit :=
  s <- get_self ;;
  let url := domain s ++ "/release/" ++ username ++ "/" ++ package_name ++ "/" ++ version in
  res <- send (session_ "DELETE" url) ;;
  _check_response res [201%Z] ;;
  ret tt.

Definition add_release (login package_name version : string) (requirements announce : json)
           (release_attrs : list (string * json)) : M json :=
  s <- get_self ;;
  let url := domain s ++ "/release/" ++ login ++ "/" ++ package_name ++ "/" ++ version in
  let payload := [("requirements", requirements); ("announce", announce);
                  ("description", JNull)] in
  let payload := dict_update payload release_attrs in
  let '(data, headers) := jencode (JDict payload) in
  res <- send (with_headers headers (with_data data (session_ "POST" url))) ;;
  _check_response res [200%Z] ;;
  res_json res.

Definition distribution (login package_name release : string) (basename : option string) : M json :=
  s <- get_self ;;
  let url := domain s ++ "/dist/" ++ login ++ "/" ++ package_name ++ "/" ++ release
                      ++ "/" ++ pct_s basename in
  res <- send (session_ "GET" url) ;;
  _check_response res [200%Z] ;;
  res_json res.

Definition remove_dist (login package_name release : string) (basename _id : option string) : M json :=
  s <- get_self ;;
  url <- (if truthy basename then
            ret (domain s ++ "/dist/" ++ login ++ "/" ++ package_name ++ "/" ++ release
                          ++ "/" ++ pct_s basename)
          else if truthy _id then
            ret (domain s ++ "/dist/" ++ login ++ "/" ++ package_name ++ "/" ++ release
                          ++ "/-/" ++ pct_s _id)
          else raise (TypeError "method remove_dist expects either 'basename' or '_id' arguments")) ;;
  res <- send (session_ "DELETE" url) ;;
  _check_response res [200%Z] ;;
  res_json res.

Definition download_url (s : Binstar) (login package_name release basename : string) : string :=
  domain s ++ "/download/" ++ login ++ "/" ++ package_name ++ "/" ++ release ++ "/" ++ basename.

(** [download] returns a response (a file-like object) or [None]. *)
Definition download (login package_name release basename : string) (md5 : option string)
  : M (option response) :=
  s <- get_self ;;
  let url := download_url s login package_name release basename in
  let headers := if truthy md5 then [("ETag", pct_s md5)] else [] in
  res <- send (with_allow_redirects false (with_headers headers (session_ "GET" url))) ;;
  _check_response res [200%Z; 302%Z; 304%Z] ;;
  if (status_code res =? 200)%Z then
    ret (Some res)
  else if (status_code res =? 304)%Z then
    ret None
  else if (status_code res =? 302)%Z then
    location <- header_item (res_headers res) "location" ;;
    res2 <- send (with_stream true (requests_ "GET" location)) ;;
    ret (Some res2)
  else ret None.

(** The arguments of [upload]; the file object [fd] is the one of the
    world. *)
Record upload_args : Type := mkUploadArgs {
  up_login : string;
  up_package_name : string;
  up_release : string;
  up_basename : string;
  up_distribution_type : string;
  up_description : string;
  up_md5 : option string;
  up_sha256 : option string;
  up_size : option Z;
  up_dependencies : json;
  up_attrs : option json;
  up_channels : json
}.

Definition stage_url (s : Binstar) (a : upload_args) : string :=
  domain s ++ "/stage/" ++ up_login a ++ "/" ++ up_package_name a ++ "/" ++ up_release a
           ++ "/" ++ quote (up_basename a).

Definition commit_url (s : Binstar) (a : upload_args) : string :=
  domain s ++ "/commit/" ++ up_login a ++ "/" ++ up_package_name a ++ "/" ++ up_release a
           ++ "/" ++ quote (up_basename a).

(** [s3url.startswith(self.domain)]: only a string has the method. *)
Definition json_startswith (v : json) (p : string) : M bool :=
  match v with
  | JStr s => ret (startswith s p)
  | _ => raise (AttributeError "startswith")
  end.

Definition json_as_url (v : json) : string := py_str v.

Definition json_as_fields (v : json) : list (string * json) :=
  match v with
  | JDict d => d
  | _ => []
  end.

Definition upload (a : upload_args) : M json :=
  s <- get_self ;;
  let url := stage_url s a in
  let attrs := match up_attrs a with Some v => v | None => JDict [] end in
  match attrs with
  | JDict _ => ret tt
  | _ => raise (TypeError "argument attrs must be a dictionary")
  end ;;
  sha256 <- match up_sha256 a with
            | Some h => ret h
            | None => h <- compute_hash (up_size a) sha256_alg ;; ret (fst (fst h))
            end ;;
  let payload := JDict [("distribution_type", JStr (up_distribution_type a));
                        ("description", JStr (up_description a));
                        ("attrs", attrs);
                        ("dependencies", up_dependencies a);
                        ("channels", up_channels a);
                        ("sha256", JStr sha256)] in
  let '(data, headers) := jencode payload in
  res <- send (with_headers headers (with_data data (session_ "POST" url))) ;;
  _check_response res [200%Z] ;;
  obj <- res_json res ;;
  s3url <- subscript obj "post_url" ;;
  s3data <- subscript obj "form_data" ;;
  (* the locals [b64md5] and [size] after the [if md5 is None / elif] *)
  '(b64md5, size) <-
     match up_md5 a with
     | None =>
         h <- compute_hash (up_size a) md5_alg ;;
         ret (Some (snd (fst h)), JNum (snd h))
     | Some _ =>
         match up_size a with
         | None =>
             spos <- fd_tell ;;
             fd_seek_end ;;
             e <- fd_tell ;;
             fd_seek spos ;;
             ret (@None string, JNum (e - spos))
         | Some n => ret (@None string, JNum n)
         end
     end ;;
  s3data <- setitem s3data "Content-Length" size ;;
  b64md5 <- local "b64md5" b64md5 ;;
  s3data <- setitem s3data "Content-MD5" (JStr b64md5) ;;
  same <- json_startswith s3url (domain s) ;;
  let request_method := if same then session_ else requests_ in
  wrapped_file <- fd_read_all ;;
  s3res <- send (with_timeout (10 * 60 * 60)
                   (with_verify (session_verify s)
                      (with_files (up_basename a) wrapped_file
                         (with_data (Fields (json_as_fields s3data))
                            (request_method "POST" (json_as_url s3url)))))) ;;
  (if negb (status_code s3res =? 201)%Z then
     logger_info (text s3res) ;;
     xml_error <- ET_fromstring s3res ;;
     code <- match element_find xml_error "Code" with
             | Some c => ret c
             | None => raise (AttributeError "text")
             end ;;
     let msg_tail := match element_text code with
                     | Some "InvalidDigest" => " The Content-MD5 or checksum value is not valid."
                     | _ => ""
                     end in
     raise (ApiError BinstarError (JStr ("Error uploading package!" ++ msg_tail))
                     (Some (status_code s3res)))
   else ret tt) ;;
  let url := commit_url s a in
  dist_id <- subscript obj "dist_id" ;;
  let '(data, headers) := jencode (JDict [("dist_id", dist_id)]) in
  res <- send (with_headers headers (with_data data (session_ "POST" url))) ;;
  _check_response res [200%Z] ;;
  res_json res.

Definition search (query : string) (package_type platform : option string) : M json :=
  s <- get_self ;;
  let url := domain s ++ "/search" in
  res <- send (with_params [("name", JStr query); ("type", json_of_option package_type);
                            ("platform", json_of_option platform)]
                 (session_ "GET" url)) ;;
  _check_response res [200%Z] ;;
  res_json res.

Definition user_licenses : M json :=
  s <- get_self ;;
  let url := domain s ++ "/license" in
  res <- send (session_ "GET" url) ;;
  _check_response res [200%Z] ;;
  res_json res.

End Client.

(** ** Calls

    Every method of the class as a value, so that statements can range over
    "every operation" and over sequences of operations on one session. *)

Inductive retval : Type :=
| RNone
| RJson (j : json)
| RResponse (r : response).

Inductive call : Type :=
| Call_check_server
| Call_authentication_type
| Call_krb_authenticate (a : auth_args)
| Call_authenticate (username password : string) (a : auth_args)
| Call__authenticate (auth : auth_kind) (a : auth_args)
| Call_list_scopes
| Call_authentication
| Call_authentications
| Call_remove_authentication (auth_name organization : option string)
| Call_user (login : option string)
| Call_user_packages (login platform package_type type_ access : option string)
| Call_package (login package_name : string)
| Call_package_add_collaborator (owner package_name collaborator : string)
| Call_package_remove_collaborator (owner package_name collaborator : string)
| Call_package_collaborators (owner package_name : string)
| Call_all_packages (modified_after : option string)
| Call_add_package (login package_name : string) (summary license : json) (public : bool)
                   (license_url license_family attrs : json) (package_type : option string)
| Call_update_package (login package_name : string) (attrs : list (string * json))
| Call_update_release (login package_name version : string) (attrs : list (string * json))
| Call_remove_package (username package_name : string)
| Call_release (login package_name version : string)
| Call_remove_release (username package_name version : string)
| Call_add_release (login package_name version : string) (requirements announce : json)
                   (release_attrs : list (string * json))
| Call_distribution (login package_name release : string) (basename : option string)
| Call_remove_dist (login package_name release : string) (basename _id : option string)
| Call_download (login package_name release basename : string) (md5 : option string)
| Call_upload (a : upload_args)
| Call_search (query : string) (package_type platform : option string)
| Call_user_licenses.

Definition returning {A : Type} (f : A -> retval) (m : M A) : M retval :=
  x <- m ;; ret (f x).

Definition r_none (_ : unit) : retval := RNone.

Definition r_stream (o : option response) : retval :=
  match o with Some r => RResponse r | None => RNone end.

Definition run_call (ext : externals) (net : network) (c : call) : M retval :=
  match c with
  | Call_check_server => returning r_none (check_server ext net)
  | Call_authentication_type => returning RJson (authentication_type ext net)
  | Call_krb_authenticate a => returning RJson (krb_authenticate ext net a)
  | Call_authenticate u p a => returning RJson (authenticate ext net u p a)
  | Call__authenticate k a => returning RJson (_authenticate ext net k a)
  | Call_list_scopes => returning RJson (list_scopes ext net)
  | Call_authentication => returning RJson (authentication ext net)
  | Call_authentications => returning RJson (authentications ext net)
  | Call_remove_authentication n o => returning r_none (remove_authentication ext net n o)
  | Call_user l => returning RJson (user ext net l)
  | Call_user_packages l p pt t acc => returning RJson (user_packages ext net l p pt t acc)
  | Call_package l p => returning RJson (package ext net l p)
  | Call_package_add_collaborator o p c' => returning r_none (package_add_collaborator ext net o p c')
  | Call_package_remove_collaborator o p c' =>
      returning r_none (package_remove_collaborator ext net o p c')
  | Call_package_collaborators o p => returning RJson (package_collaborators ext net o p)
  | Call_all_packages m => returning RJson (all_packages ext net m)
  | Call_add_package l p su li pu lu lf at' pt =>
      returning RJson (add_package ext net l p su li pu lu lf at' pt)
  | Call_update_package l p at' => returning RJson (update_package ext net l p at')
  | Call_update_release l p v at' => returning RJson (update_release ext net l p v at')
  | Call_remove_package u p => returning r_none (remove_package ext net u p)
  | Call_release l p v => returning RJson (release ext net l p v)
  | Call_remove_release u p v => returning r_none (remove_release ext net u p v)
  | Call_add_release l p v rq an ra => returning RJson (add_release ext net l p v rq an ra)
  | Call_distribution l p r b => returning RJson (distribution ext net l p r b)
  | Call_remove_dist l p r b i => returning RJson (remove_dist ext net l p r b i)
  | Call_download l p r b m => returning r_stream (download ext net l p r b m)
  | Call_upload a => returning RJson (upload ext net a)
  | Call_search q pt pl => returning RJson (search ext net q pt pl)
  | Call_user_licenses => returning RJson (user_licenses ext net)
  end.

(** A caller working through a list of calls on one session; an exception
    ends the call that raised it, not the session. *)
Fixpoint perform (ext : externals) (net : network) (cs : list call) (w : world)
  : list (result retval) * world * list event :=
  match cs with
  | [] => ([], w, [])
  | c :: cs' =>
      match run_call ext net c w with
      | (r, w1, ev1) =>
          match perform ext net cs' w1 with
          | (rs, w2, ev2) => (r :: rs, w2, (ev1 ++ ev2)%list)
          end
      end
  end.

(** The classifier applied to a series of responses on one session. *)
Fixpoint classify_all (ext : externals) (rs : list (response * list Z)) (w : world)
  : world * list event :=
  match rs with
  | [] => (w, [])
  | (res, allowed) :: rs' =>
      match _check_response ext res allowed w with
      | (_, w1, ev1) =>
          match classify_all ext rs' w1 with
          | (w2, ev2) => (w2, (ev1 ++ ev2)%list)
          end
      end
  end.

(** ** Reading event lists *)

(** The round trips among the events, in order. *)
Fixpoint sends (evs : list event) : list (request * headers * outcome) :=
  match evs with
  | [] => []
  | Sent q h o :: evs' => (q, h, o) :: sends evs'
  | _ :: evs' => sends evs'
  end.

(** The exceptions raised among the events, in order. *)
Fixpoint raises (evs : list event) : list pyexn :=
  match evs with
  | [] => []
  | Raised e :: evs' => e :: raises evs'
  | _ :: evs' => raises evs'
  end.

Definition is_token_warning (ev : event) : bool :=
  match ev with
  | Warning msg => startswith msg "Token warning: "
  | _ => false
  end.

(** How many token warnings were logged. *)
Definition token_warnings (evs : list event) : nat :=
  List.length (filter is_token_warning evs).

Definition carries_token_warning (res : response) : bool :=
  header_in "Conda-Token-Warning" (res_headers res).

Definition flag (w : world) : bool := _token_warning_sent (self w).

Definition b2n (b : bool) : nat := if b then 1 else 0.

(** ** What the classifier does, as plain functions

    [_check_response] written out as three functions of the session and the
    response: the warnings it logs, the session it leaves, and how it ends. *)

Definition check_warnings (ext : externals) (s : Binstar) (res : response) : list event :=
  let api_version :=
    match header_get (res_headers res) "x-binstar-api-version" with
    | Some v => v
    | None => "0.2.1"
    end in
  ((if pv_gt ext api_version (__version__ ext)
    then [Warning ("The api server is running the binstar-api version " ++ api_version
                   ++ ". you are using " ++ __version__ ext ++ nl
                   ++ "Please update your client with pip install -U binstar or conda update binstar")]
    else [])
   ++ (if negb (_token_warning_sent s) && carries_token_warning res
       then match header_get (res_headers res) "Conda-Token-Warning" with
            | Some v => [Warning ("Token warning: " ++ v)]
            | None => []
            end
       else [])
   ++ (if header_in "X-Anaconda-Lockdown" (res_headers res)
       then [Warning "Anaconda repository is currently in LOCKDOWN mode."] else [])
   ++ (if header_in "X-Anaconda-Read-Only" (res_headers res)
       then [Warning "Anaconda repository is currently in READ ONLY mode."] else []))%list.

Definition mark_warned (s : Binstar) (res : response) : Binstar :=
  if negb (_token_warning_sent s) && carries_token_warning res
  then mkBinstar (session_headers s) (session_verify s) (token s) true (domain s)
  else s.

Definition status_allowed (res : response) (allowed : list Z) : bool :=
  existsb (Z.eqb (status_code res)) allowed.

(** The exception the classifier ends with, if any. *)
Definition check_exn (ext : externals) (res : response) (allowed : list Z) : option pyexn :=
  if status_allowed res allowed then None
  else
    let cls := select_ErrCls (status_code res) in
    let st := Some (status_code res) in
    let msg := JStr (default_message ext res) in
    match body res with
    | AsJson (JDict d) =>
        Some (ApiError cls (match dict_get d "error" with Some v => v | None => msg end) st)
    | AsJson _ => Some (AttributeError "get")
    | _ => Some (ApiError cls msg st)
    end.

(** What [res.json()] raises on a body that is not JSON. *)
Definition decode_failure : pyexn := ValueError "No JSON object could be decoded".

(** The exception the classifier raises and drops on the way: on a status
    that is not allowed it tries to decode the body, and a failure to do so is
    caught by its bare [except: pass]. *)
Definition check_swallowed (res : response) (allowed : list Z) : list event :=
  if status_allowed res allowed then []
  else match body res with
       | AsJson _ => []
       | _ => [Raised decode_failure]
       end.

(** The bodies on which [data.get] exists or is never reached. *)
Definition body_has_get (res : response) : bool :=
  match body res with
  | AsJson (JDict _) => true
  | AsJson _ => false
  | _ => true
  end.

(** ** Outcomes of a run *)

Definition exn_of {A : Type} (r : result A) : option pyexn :=
  match r with Ok _ => None | Raise e => Some e end.


(** The events that follow the first exception raised. *)
Fixpoint after_raise (evs : list event) : list event :=
  match evs with
  | [] => []
  | Raised _ :: evs' => evs'
  | _ :: evs' => after_raise evs'
  end.

(** What the classifier may have raised and dropped before it raises [e]:
    nothing, or the decoding failure of an error body that is not JSON, and
    then [e] is a typed API error. *)
Definition dropped_before (pre : list pyexn) (e : pyexn) : Prop :=
  pre = [] \/ (pre = [decode_failure] /\ is_BinstarError e = true).

(** A run in which no [except] clause of a method took part: nothing is
    sent once an exception was raised, and the exception the run ends with
    is the last one raised, and the only one but for what the classifier
    dropped just before it. *)
Definition surfaced (x : option pyexn) (evs : list event) : Prop :=
  sends (after_raise evs) = []
  /\ match x with
     | None => raises evs = []
     | Some e => exists pre, dropped_before pre e /\ raises evs = (pre ++ [e])%list
     end.

(** ** Origins

    The origin of a URL in the words of the specification: scheme, host and
    port, the port defaulting to the scheme's. *)

Definition default_port (scheme : string) : string :=
  if scheme =? "https" then "443" else if scheme =? "http" then "80" else "".

Definition authority_char (c : ascii) : bool :=
  negb (Ascii.eqb c "/" || Ascii.eqb c "?" || Ascii.eqb c "#")%char.

Definition url_origin (u : string) : option (string * string * string) :=
  match partition u "://" with
  | None => None
  | Some (scheme, rest) =>
      let authority := take_while authority_char rest in
      let hostport := match partition authority "@" with
                      | Some (_, hp) => hp
                      | None => authority
                      end in
      match partition hostport ":" with
      | Some (host, port) =>
          Some (lower scheme, lower host,
                if port =? "" then default_port (lower scheme) else port)
      | None => Some (lower scheme, lower hostport, default_port (lower scheme))
      end
  end.

Definition same_origin (a b : string) : bool :=
  match url_origin a, url_origin b with
  | Some (s1, h1, p1), Some (s2, h2, p2) => (s1 =? s2) && (h1 =? h2) && (p1 =? p2)
  | _, _ => false
  end.

(** The storage-transfer request of an upload is the one that carries the
    file. *)
Definition is_transfer (q : request) : bool :=
  match files q with Some _ => true | None => false end.

Definition response_of (o : outcome) : option response :=
  match o with Response r => Some r | Failed _ => None end.

(** ** A concrete setting for examples

    Version 1.12.0 of the client talking to [https://api.anaconda.org] with
    a token; the file to upload holds the three bytes of ["abc"]. *)

Module Sample.

Definition abc : list Byte.byte := [Byte.x61; Byte.x62; Byte.x63].

Definition is_abc (l : list Byte.byte) : bool :=
  match l with
  | [a; b; c] => Byte.eqb a Byte.x61 && Byte.eqb b Byte.x62 && Byte.eqb c Byte.x63
  | _ => false
  end.

(** The digests of ["abc"]; no other byte string is hashed below. *)
Definition hexdigest_abc (alg : hash_algorithm) (l : list Byte.byte) : string :=
  if is_abc l then
    match alg with
    | md5_alg => "900150983cd24fb0d6963f7d28e17f72"
    | sha256_alg => "ba7816bf8f01cfea414140de5dae2223b00361a396177a9cb410ff61f20015ad"
    end
  else "".

Definition b64digest_abc (alg : hash_algorithm) (l : list Byte.byte) : string :=
  if is_abc l then
    match alg with
    | md5_alg => "kAFQmDzST7DWlj99KOF/cg=="
    | sha256_alg => "ungWv48Bz+pBQUDeXa4iI7ADYaOWF3qctBD/YfIAFa0="
    end
  else "".

Definition status_codes (st : Z) : option (string * string) :=
  if (st =? 200)%Z then Some ("OK", "Request fulfilled, document follows")
  else if (st =? 201)%Z then Some ("Created", "Document created, URL follows")
  else if (st =? 401)%Z then Some ("Unauthorized", "No permission -- see authorization schemes")
  else if (st =? 403)%Z then Some ("Forbidden", "Request forbidden -- authorization will not help")
  else if (st =? 404)%Z then Some ("Not Found", "Nothing matches the given URI")
  else if (st =? 409)%Z then Some ("Conflict", "Request conflict.")
  else if (st =? 500)%Z then Some ("Internal Server Error", "Server got itself in trouble")
  else None.

(** No server in the examples advertises an API version, so the version
    comparison is never asked about anything but the default ["0.2.1"]. *)
Definition ext : externals :=
  mkExternals "1.12.0" (fun _ _ => false) status_codes hexdigest_abc b64digest_abc
              false "localhost".

Definition api : string := "https://api.anaconda.org".

Definition session : Binstar := __init__ ext (Some "s3cr3t") api true.

Definition w0 : world := mkWorld session (mkFile abc 0) 0.

Definition respond (st : Z) (h : headers) (b : decoded) : response :=
  mkResponse st h "" b "GET" api.

(** A network that answers every request with the same response. *)
Definition always (r : response) : network := fun _ _ => Response r.

(** A network that answers the round trips in turn from a script, and
    fails once the script is exhausted. *)
Definition scripted (rs : list response) : network :=
  fun n _ => match nth_error rs n with
             | Some r => Response r
             | None => Failed "connection refused"
             end.

Definition unreachable : network := fun _ _ => Failed "connection refused".

Definition args (md5 : option string) : upload_args :=
  mkUploadArgs "alice" "pkg" "1.0" "pkg-1.0.tar.bz2" "conda" "" md5 None None
               (JList []) None (JList [JStr "main"]).

(** A stage response naming a storage URL, a form-field map and a
    distribution id. *)
Definition staged (post_url : string) : response :=
  respond 200 []
    (AsJson (JDict [("post_url", JStr post_url);
                    ("form_data", JDict [("key", JStr "alice/pkg/1.0/pkg-1.0.tar.bz2")]);
                    ("dist_id", JStr "5f3c")])).

Definition s3 : string := "https://binstar-cio-packages-prod.s3.amazonaws.com/".

(** A host that is not the API server, though its URL begins like it. *)
Definition lookalike : string := "https://api.anaconda.org.evil.example/upload".

Definition committed : json := JDict [("basename", JStr "pkg-1.0.tar.bz2")].

Definition invalid_digest : element :=
  Element "Error" None [Element "Code" (Some "InvalidDigest") [];
                        Element "Message" (Some "The Content-MD5 you specified was invalid.") []].

End Sample.

(** ** Vocabulary of the statements *)

Definition result_of_exn (x : option pyexn) : result unit :=
  match x with None => Ok tt | Some e => Raise e end.

Definition raised_of_exn (x : option pyexn) : list event :=
  match x with None => [] | Some e => [Raised e] end.

(** A relation between the world before a method, the world after it, the
    events in between and the exception the method ended with, that holds of
    every run of the method. *)
Definition sat {A : Type} (Q : option pyexn -> world -> world -> list event -> Prop)
           (m : M A) : Prop :=
  forall w, match m w with (r, w', evs) => Q (exn_of r) w w' evs end.

(** Two of the relations used below: the endpoint is left alone; an
    exception surfaces. *)
Definition keeps_domain (_ : option pyexn) (w w' : world) (_ : list event) : Prop :=
  domain (self w') = domain (self w).


(** ** The answers the classifier sees

    Every answer is handed to [_check_response] but two: the storage's
    answer to the transfer of [upload] (the request that carries the file)
    and the answer to the redirect that [download] follows (the streaming
    request).  Their headers are never looked at. *)
Definition classified (q : request) : bool := negb (is_transfer q) && negb (stream q).

(** A round trip whose answer is classified and carries the token
    warning. *)
Definition warns (x : request * headers * outcome) : bool :=
  match x with
  | (q, _, Response r) => classified q && carries_token_warning r
  | (_, _, Failed _) => false
  end.

(** A round trip whose answer carries the token warning, classified or
    not. *)
Definition answer_carries (x : request * headers * outcome) : bool :=
  match x with
  | (_, _, Response r) => carries_token_warning r
  | (_, _, Failed _) => false
  end.

(** No token warning among the events. *)
Definition quiet (evs : list event) : bool :=
  forallb (fun ev => negb (is_token_warning ev)) evs.

(** The token warning with text [v] is logged before anything else is
    sent, and it is the only one. *)
Fixpoint await (v : string) (evs : list event) : bool :=
  match evs with
  | [] => false
  | Sent _ _ _ :: _ => false
  | Warning msg :: evs' =>
      if is_token_warning (Warning msg)
      then (msg =? "Token warning: " ++ v) && quiet evs'
      else await v evs'
  | _ :: evs' => await v evs'
  end.

(** The events of a session whose flag is [f], checked against the rule
    of the token warning: no token warning is logged until an answer that
    [warns] arrives on a session that has not warned; that answer's
    warning is then logged before the next request; and none after it. *)
Fixpoint audit (f : bool) (evs : list event) : bool :=
  match evs with
  | [] => true
  | Sent q h o :: evs' =>
      if negb f && warns (q, h, o)
      then match o with
           | Response r =>
               match header_get (res_headers r) "Conda-Token-Warning" with
               | Some v => await v evs'
               | None => false
               end
           | Failed _ => false
           end
      else audit f evs'
  | ev :: evs' => negb (is_token_warning ev) && audit f evs'
  end.

(** How the token warning relates to the answers of a run. *)
Definition warned_by_answers (_ : option pyexn) (w w' : world) (evs : list event) : Prop :=
  flag w' = flag w || existsb warns (sends evs)
  /\ audit (flag w) evs = true.

(** The answers in the events of a run are the network's: the [i]-th
    request sent got what the network answers on the [i]-th round trip from
    the start of the run. *)
Definition answered (net : network) (_ : option pyexn) (w w' : world) (evs : list event)
  : Prop :=
  clock w' = clock w + List.length (sends evs)
  /\ forall i q h o, nth_error (sends evs) i = Some (q, h, o) -> o = net (clock w + i) q.

(** The calls that get as far as their first request: the arguments pass
    the checks made before it, and the import of [krb_authenticate]
    succeeds. *)
Definition reaches_server (ext : externals) (c : call) : bool :=
  match c with
  | Call_krb_authenticate _ => has_requests_kerberos ext
  | Call_add_package _ _ _ _ _ _ _ attrs _ =>
      match (if json_truthy attrs then attrs else JDict []) with
      | JDict _ => true
      | _ => false
      end
  | Call_remove_dist _ _ _ basename _id => truthy basename || truthy _id
  | Call_upload a =>
      match up_attrs a with
      | Some (JDict _) | None => true
      | Some _ => false
      end
  | _ => true
  end.

(** ** How failures reach the caller *)



Definition events_of {A : Type} (run : A * world * list event) : list event := snd run.
Definition world_of {A : Type} (run : A * world * list event) : world := snd (fst run).
Definition result_in {A : Type} (run : A * world * list event) : A := fst (fst run).

(** A method whose first request is [q], answered by the network. *)
Definition opens {A : Type} (net : network) (m : M A) (w : world) (q : request) : Prop :=
  exists rest,
    sends (events_of (m w)) = (q, wire_headers (self w) q, net (clock w) q) :: rest.

(** ** The upload protocol, phase by phase

    The requests [upload] sends and the way it ends, written as functions
    of its arguments and of what came back; [upload_shape] says that a run
    sent such requests, in this order, and ended this way. *)

Definition remaining (w : world) : list Byte.byte := skipn (pos (fd w)) (content (fd w)).

Definition stage_request (ext : externals) (a : upload_args) (w : world) : request :=
  let sha256 := match up_sha256 a with
                | Some h => h
                | None => hexdigest ext sha256_alg (remaining w)
                end in
  with_headers [("Content-Type", "application/json")]
    (with_data
       (Encoded (JDict [("distribution_type", JStr (up_distribution_type a));
                        ("description", JStr (up_description a));
                        ("attrs", match up_attrs a with Some v => v | None => JDict [] end);
                        ("dependencies", up_dependencies a);
                        ("channels", up_channels a);
                        ("sha256", JStr sha256)]))
       (session_ "POST" (stage_url (self w) a))).

(** What a successful stage response names: the storage URL, the form
    fields and, when present, the distribution id. *)
Definition staged_fields (r1 : response)
  : option (string * list (string * json) * option json) :=
  match body r1 with
  | AsJson (JDict d) =>
      match dict_get d "post_url", dict_get d "form_data" with
      | Some (JStr u), Some (JDict f) => Some (u, f, dict_get d "dist_id")
      | _, _ => None
      end
  | _ => None
  end.

Definition transfer_fields (ext : externals) (a : upload_args) (w : world)
           (f : list (string * json)) : list (string * json) :=
  let size := match up_size a with
              | Some n => n
              | None => Z.of_nat (List.length (remaining w))
              end in
  dict_set (dict_set f "Content-Length" (JNum size))
           "Content-MD5" (JStr (b64digest ext md5_alg (remaining w))).

Definition transfer_request (ext : externals) (a : upload_args) (w : world)
           (u : string) (f : list (string * json)) : request :=
  with_timeout (10 * 60 * 60)
    (with_verify (session_verify (self w))
       (with_files (up_basename a) (remaining w)
          (with_data (Fields (transfer_fields ext a w f))
             ((if startswith u (domain (self w)) then session_ else requests_) "POST" u)))).

Definition commit_request (a : upload_args) (w : world) (dist_id : json) : request :=
  with_headers [("Content-Type", "application/json")]
    (with_data (Encoded (JDict [("dist_id", dist_id)]))
       (session_ "POST" (commit_url (self w) a))).

Definition msg_tail_of (code : element) : string :=
  match element_text code with
  | Some "InvalidDigest" => " The Content-MD5 or checksum value is not valid."
  | _ => ""
  end.

(** How [upload] ends on a storage answer other than 201. *)
Definition transfer_error (r2 : response) : pyexn :=
  match body r2 with
  | AsXml x =>
      match element_find x "Code" with
      | Some code =>
          ApiError BinstarError (JStr ("Error uploading package!" ++ msg_tail_of code))
                   (Some (status_code r2))
      | None => AttributeError "text"
      end
  | _ => ParseError
  end.

(** How [upload] ends once the commit request is out. *)
Definition commit_result (ext : externals) (o3 : outcome) : result json :=
  match o3 with
  | Failed what => Raise (TransportError what)
  | Response r3 =>
      match check_exn ext r3 [200%Z] with
      | Some e => Raise e
      | None =>
          match body r3 with
          | AsJson j => Ok j
          | _ => Raise (ValueError "No JSON object could be decoded")
          end
      end
  end.

Definition upload_shape (ext : externals) (a : upload_args) (w : world)
           (r : result json) (ss : list (request * headers * outcome)) : Prop :=
  match ss with
  | [] => is_ok r = false
  | [(q1, h1, o1)] =>
      q1 = stage_request ext a w /\ h1 = wire_headers (self w) q1 /\ is_ok r = false
  | [(q1, h1, o1); (q2, h2, o2)] =>
      q1 = stage_request ext a w /\ h1 = wire_headers (self w) q1 /\
      up_md5 a = None /\
      match o1 with
      | Response r1 =>
          match staged_fields r1 with
          | Some (u, f, dist_id) =>
              q2 = transfer_request ext a w u f /\ h2 = wire_headers (self w) q2 /\
              match o2 with
              | Failed what => r = Raise (TransportError what)
              | Response r2 =>
                  if (status_code r2 =? 201)%Z
                  then dist_id = None /\ r = Raise (KeyError "dist_id")
                  else r = Raise (transfer_error r2)
              end
          | None => False
          end
      | Failed _ => False
      end
  | [(q1, h1, o1); (q2, h2, o2); (q3, h3, o3)] =>
      q1 = stage_request ext a w /\ h1 = wire_headers (self w) q1 /\
      up_md5 a = None /\
      match o1, o2 with
      | Response r1, Response r2 =>
          match staged_fields r1 with
          | Some (u, f, Some dist_id) =>
              q2 = transfer_request ext a w u f /\ h2 = wire_headers (self w) q2 /\
              status_code r2 = 201%Z /\
              q3 = commit_request a w dist_id /\ h3 = wire_headers (self w) q3 /\
              r = commit_result ext o3
          | _ => False
          end
      | _, _ => False
      end
  | _ => False
  end.

Definition shape_of (ext : externals) (a : upload_args) (w : world)
           (run : result json * world * list event) : Prop :=
  upload_shape ext a w (result_in run) (sends (events_of run)).

(** ** The download, request by request *)

Definition download_request (s : Binstar) (login package_name release basename : string)
           (md5 : option string) : request :=
  with_allow_redirects false
    (with_headers (if truthy md5 then [("ETag", pct_s md5)] else [])
       (session_ "GET" (download_url s login package_name release basename))).

(** The request that follows a redirect: a streaming GET made through the
    [requests] module, outside the session. *)
Definition redirect_request (location : string) : request :=
  with_stream true (requests_ "GET" location).

Definition download_set : list Z := [200%Z; 302%Z; 304%Z].

Definition download_shape (ext : externals) (w : world)
           (login package_name release basename : string) (md5 : option string)
           (r : result (option response)) (ss : list (request * headers * outcome)) : Prop :=
  match ss with
  | [(q1, h1, o1)] =>
      q1 = download_request (self w) login package_name release basename md5 /\
      h1 = wire_headers (self w) q1 /\
      match o1 with
      | Failed what => r = Raise (TransportError what)
      | Response r1 =>
          match check_exn ext r1 download_set with
          | Some e => r = Raise e
          | None =>
              if (status_code r1 =? 200)%Z then r = Ok (Some r1)
              else if (status_code r1 =? 304)%Z then r = Ok None
              else status_code r1 = 302%Z /\
                   header_get (res_headers r1) "location" = None /\
                   r = Raise (KeyError "location")
          end
      end
  | [(q1, h1, o1); (q2, h2, o2)] =>
      q1 = download_request (self w) login package_name release basename md5 /\
      h1 = wire_headers (self w) q1 /\
      match o1 with
      | Failed _ => False
      | Response r1 =>
          check_exn ext r1 download_set = None /\
          status_code r1 = 302%Z /\
          match header_get (res_headers r1) "location" with
          | Some location =>
              q2 = redirect_request location /\ h2 = [] /\
              r = match o2 with
                  | Failed what => Raise (TransportError what)
                  | Response r2 => Ok (Some r2)
                  end
          | None => False
          end
      end
  | _ => False
  end.

Definition download_shape_of (ext : externals) (w : world)
           (login package_name release basename : string) (md5 : option string)
           (run : result (option response) * world * list event) : Prop :=
  download_shape ext w login package_name release basename md5
                 (result_in run) (sends (events_of run)).

(** ** Methods that accept 201 only

    A method that makes one request through the session and hands the answer
    to the classifier with [[201]] as the allowed set. *)
Definition only_201 (ext : externals) (net : network) (m : M unit) : Prop :=
  forall w, exists q,
    via_session q = true /\
    sends (events_of (m w)) = [(q, wire_headers (self w) q, net (clock w) q)] /\
    result_in (m w) =
    match net (clock w) q with
    | Failed what => Raise (TransportError what)
    | Response res => result_of_exn (check_exn ext res [201%Z])
    end.

(** The five removal and collaborator-management methods. *)
Inductive removal : Type :=
| Remove_authentication (auth_name organization : option string)
| Package_add_collaborator (owner package_name collaborator : string)
| Package_remove_collaborator (owner package_name collaborator : string)
| Remove_package (username package_name : string)
| Remove_release (username package_name version : string).

Definition run_removal (ext : externals) (net : network) (c : removal) : M unit :=
  match c with
  | Remove_authentication n o => remove_authentication ext net n o
  | Package_add_collaborator o p c' => package_add_collaborator ext net o p c'
  | Package_remove_collaborator o p c' => package_remove_collaborator ext net o p c'
  | Remove_package u p => remove_package ext net u p
  | Remove_release u p v => remove_release ext net u p v
  end.

(** ** Vocabulary of the further properties *)

(** How many requests a call may send. *)
Definition max_requests (c : call) : nat :=
  match c with
  | Call_upload _ => 3
  | Call_download _ _ _ _ _ => 2
  | _ => 1
  end.

(** A round trip that keeps the session to the endpoint: sent through the
    session only to a URL that starts with the base endpoint, and otherwise
    sent with no header at all. *)
Definition confined (w : world) (x : request * headers * outcome) : Prop :=
  match x with
  | (q, h, _) =>
      if via_session q then startswith (url q) (domain (self w)) = true else h = []
  end.

Definition is_authenticate (c : call) : bool :=
  match c with
  | Call_krb_authenticate _ | Call_authenticate _ _ _ | Call__authenticate _ _ => true
  | _ => false
  end.

(** The session a call leaves behind: the authenticate methods put the new
    token into the headers when they return; nothing else is assigned. *)
Definition session_after (c : call) (s : Binstar)
           (run : result retval * world * list event) : Prop :=
  session_verify (self (world_of run)) = session_verify s
  /\ token (self (world_of run)) = token s
  /\ session_headers (self (world_of run))
     = match result_in run with
       | Ok (RJson tok) =>
           if is_authenticate c
           then headers_update (session_headers s) [("Authorization", "token " ++ py_str tok)]
           else session_headers s
       | _ => session_headers s
       end.

Definition call_profile (c : call) (w : world)
           (run : result retval * world * list event) : Prop :=
  List.length (sends (events_of run)) <= max_requests c
  /\ Forall (confined w) (sends (events_of run))
  /\ session_after c (self w) run.

(** Two more relations on runs: the clock counts the round trips; the
    session changes in its warning flag at most. *)
Definition ticks (_ : option pyexn) (w w' : world) (evs : list event) : Prop :=
  clock w' = clock w + List.length (sends evs).

Definition keeps_session (_ : option pyexn) (w w' : world) (_ : list event) : Prop :=
  session_headers (self w') = session_headers (self w)
  /\ session_verify (self w') = session_verify (self w)
  /\ token (self w') = token (self w).

(** How a method that returns [res.json()] ends, from what came back. *)
Definition json_reply (ext : externals) (allowed : list Z) (o : outcome) : result json :=
  match o with
  | Failed what => Raise (TransportError what)
  | Response res =>
      match check_exn ext res allowed with
      | Some e => Raise e
      | None =>
          match body res with
          | AsJson j => Ok j
          | _ => Raise (ValueError "No JSON object could be decoded")
          end
      end
  end.

(** The methods that make one request and return the decoded answer. *)
Definition returns_json (c : call) : bool :=
  match c with
  | Call_list_scopes | Call_authentication | Call_authentications | Call_user _
  | Call_user_packages _ _ _ _ _ | Call_package _ _ | Call_package_collaborators _ _
  | Call_all_packages _ | Call_update_package _ _ _ | Call_update_release _ _ _ _
  | Call_release _ _ _ | Call_add_release _ _ _ _ _ _ | Call_distribution _ _ _ _
  | Call_search _ _ _ | Call_user_licenses => true
  | _ => false
  end.

(** A query parameter that is sent only when its argument is given. *)
Definition given (name : string) (o : option string) : list (string * json) :=
  if truthy o then [(name, JStr (pct_s o))] else [].

Definition is_warning (text : string) (ev : event) : bool :=
  match ev with
  | Warning msg => msg =? text
  | _ => false
  end.

(** How often a given warning was logged. *)
Definition warnings (text : string) (evs : list event) : nat :=
  List.length (filter (is_warning text) evs).

Definition lockdown_text : string := "Anaconda repository is currently in LOCKDOWN mode.".
Definition read_only_text : string := "Anaconda repository is currently in READ ONLY mode.".
(** * Properties *)

(** ** Strings *)

Lemma last_char_cons (c : ascii) (s : string) :
  last_char (String c s) = match last_char s with Some d => Some d | None => Some c end.
Proof.
  assert (H : forall t a, exists d, last_char (String a t) = Some d).
  { induction t as [|b t IH]; intros a; [exists a; reflexivity|].
    destruct (IH b) as [d Hd]. exists d. exact Hd. }
  destruct s as [|a s]; [reflexivity|].
  destruct (H s a) as [d Hd].
  change (last_char (String c (String a s))) with (last_char (String a s)).
  rewrite Hd. reflexivity.
Qed.

Lemma last_char_append (a b : string) :
  last_char (a ++ b) = match last_char b with Some c => Some c | None => last_char a end.
Proof.
  induction a as [|c a IH].
  - simpl. destruct (last_char b); reflexivity.
  - change (String c a ++ b) with (String c (a ++ b)).
    rewrite !last_char_cons, IH. destruct (last_char b); reflexivity.
Qed.

Lemma last_char_none (s : string) : last_char s = None <-> s = "".
Proof.
  split; [|intros ->; reflexivity].
  destruct s as [|c s]; [reflexivity|].
  rewrite last_char_cons. destruct (last_char s); discriminate.
Qed.

Lemma endswith_char (s : string) (c : ascii) :
  endswith s (String c "") = true <-> last_char s = Some c.
Proof.
  induction s as [|d s IH].
  - simpl. split; discriminate.
  - rewrite last_char_cons. cbn [endswith].
    rewrite orb_true_iff, IH, String.eqb_eq.
    split.
    + intros [H | H]; [inversion H; reflexivity | rewrite H; reflexivity].
    + destruct s as [|e s].
      * simpl. intros H; inversion H; left; reflexivity.
      * rewrite last_char_cons. destruct (last_char s); intros H; right; exact H.
Qed.

Lemma last_char_drop_last (s : string) (c : ascii) :
  last_char s = Some c -> s = drop_last s ++ String c "".
Proof.
  induction s as [|d s IH]; [discriminate|].
  destruct s as [|e s].
  - simpl. intros H; inversion H; reflexivity.
  - rewrite last_char_cons. intros H.
    change (drop_last (String d (String e s))) with (String d (drop_last (String e s))).
    change (String d (drop_last (String e s)) ++ String c "")
      with (String d (drop_last (String e s) ++ String c "")).
    f_equal. apply IH.
    destruct (last_char (String e s)) eqn:E; [exact H|].
    apply last_char_none in E. discriminate.
Qed.

Lemma endswith_two (s : string) (c : ascii) :
  endswith s (String c (String c "")) = true <->
  last_char s = Some c /\ last_char (drop_last s) = Some c.
Proof.
  induction s as [|d s IH].
  - simpl. split; [discriminate | intros [H _]; discriminate].
  - cbn [endswith]. rewrite orb_true_iff, IH, String.eqb_eq.
    destruct s as [|e s].
    + simpl. split; [intros [H | [H _]]; discriminate | intros [_ H]; discriminate].
    + change (drop_last (String d (String e s))) with (String d (drop_last (String e s))).
      rewrite (last_char_cons d (String e s)), (last_char_cons d (drop_last (String e s))).
      split.
      * intros [H | [H1 H2]].
        -- inversion H; subst. split; reflexivity.
        -- rewrite H1, H2. split; reflexivity.
      * intros [H1 H2].
        destruct (last_char (String e s)) as [x|] eqn:E1;
          [|apply last_char_none in E1; discriminate].
        inversion H1; subst x.
        destruct (last_char (drop_last (String e s))) as [y|] eqn:E2.
        -- right. split; [reflexivity | exact H2].
        -- left. apply last_char_none in E2. inversion H2; subst d.
           destruct s; [simpl in E1; inversion E1; reflexivity | discriminate].
Qed.

Lemma startswith_any_append (p s : string) (ps : list string) :
  In p ps -> startswith_any (p ++ s) ps = true.
Proof.
  intros H. unfold startswith_any. apply existsb_exists. exists p. split; [exact H|].
  unfold startswith. clear H. induction p as [|c p IH]; simpl.
  - destruct s; reflexivity.
  - destruct (ascii_dec c c) as [_|N]; [exact IH | exfalso; apply N; reflexivity].
Qed.

(** The endpoint stored by the constructor, as a function of the argument. *)
Lemma init_domain (ext : externals) (tok : option string) (d : string) (v : bool) :
  domain (__init__ ext tok d v) =
  let d1 := if endswith d "/" then drop_last d else d in
  if startswith_any d1 ["http://"; "https://"] then d1 else "https://" ++ d1.
Proof.
  unfold __init__. cbn [domain].
  destruct (startswith_any _ _); reflexivity.
Qed.

Lemma init_scheme (ext : externals) (tok : option string) (d : string) (v : bool) :
  startswith_any (domain (__init__ ext tok d v)) ["http://"; "https://"] = true.
Proof.
  rewrite init_domain. cbv zeta.
  destruct (startswith_any (if endswith d "/" then drop_last d else d) _) eqn:E.
  - exact E.
  - apply startswith_any_append. right; left; reflexivity.
Qed.

Lemma bool_eq_iff (a b : bool) : (a = true <-> b = true) -> a = b.
Proof. destruct a, b; intros [H1 H2]; try reflexivity; [symmetry; auto | auto]. Qed.

Lemma init_trailing (ext : externals) (tok : option string) (d : string) (v : bool) :
  endswith (domain (__init__ ext tok d v)) "/" =
  (d =? "") || (d =? "/") || endswith d "//".
Proof.
  apply bool_eq_iff.
  rewrite init_domain. cbv zeta.
  rewrite !orb_true_iff, !String.eqb_eq, (endswith_two d "/"), endswith_char.
  set (d1 := if endswith d "/" then drop_last d else d).
  assert (Hd1 : last_char d1 = Some "/"%char \/ d1 = "" <->
                (d = "" \/ d = "/") \/ last_char d = Some "/"%char /\ last_char (drop_last d) = Some "/"%char).
  { unfold d1. destruct (endswith d "/") eqn:E.
    - apply endswith_char in E. split.
      + intros [H | H].
        * right. split; assumption.
        * left. right. rewrite (last_char_drop_last d _ E), H. reflexivity.
      + intros [[H | H] | [_ H]].
        * subst d. discriminate.
        * subst d. right. reflexivity.
        * left. exact H.
    - assert (N : last_char d <> Some "/"%char).
      { intros H. apply endswith_char in H. congruence. }
      split.
      + intros [H | H]; [contradiction | left; left; exact H].
      + intros [[H | H] | [H _]].
        * right; exact H.
        * subst d. discriminate.
        * contradiction. }
  rewrite <- Hd1.
  destruct (startswith_any d1 _) eqn:E.
  - split; [intros H; left; exact H|].
    intros [H | H]; [exact H | subst d1; rewrite H in E; discriminate].
  - rewrite last_char_append. split.
    + destruct (last_char d1) eqn:L; [intros H; left; exact H|].
      intros _. right. apply last_char_none. exact L.
    + intros [H | H]; [rewrite H; reflexivity | rewrite H; reflexivity].
Qed.

(** ** The classifier *)

(** [_check_response] does what its three summaries say. *)
Lemma check_response_run (ext : externals) (res : response) (allowed : list Z) (w : world) :
  _check_response ext res allowed w =
  (result_of_exn (check_exn ext res allowed),
   mkWorld (mark_warned (self w) res) (fd w) (clock w),
   (check_warnings ext (self w) res ++ check_swallowed res allowed
    ++ raised_of_exn (check_exn ext res allowed))%list).
Proof.
  destruct w as [[sh sv tk fl dm] f c].
  unfold _check_response, check_exn, check_warnings, check_swallowed, decode_failure,
    mark_warned, carries_token_warning,
    status_allowed, header_in, header_item, when, logger_warning, emit,
    set_token_warning_sent, get_self, set_self, dot_get, res_json, try_except,
    raise, ret, bind.
  cbn [self fd clock _token_warning_sent session_headers session_verify token domain].
  destruct (pv_gt ext _ _);
    destruct (header_get (res_headers res) "Conda-Token-Warning");
    destruct fl;
    destruct (header_get (res_headers res) "X-Anaconda-Lockdown");
    destruct (header_get (res_headers res) "X-Anaconda-Read-Only");
    destruct (existsb (Z.eqb (status_code res)) allowed);
    cbn [negb andb result_of_exn raised_of_exn app];
    try reflexivity;
    destruct (body res) as [[| | | | |d]| |]; cbn [result_of_exn raised_of_exn app];
    try reflexivity;
    destruct (dict_get d "error"); reflexivity.
Qed.

(** ** Reading event lists *)

Lemma sends_app (e1 e2 : list event) : sends (e1 ++ e2) = (sends e1 ++ sends e2)%list.
Proof.
  induction e1 as [|ev e1 IH]; [reflexivity|].
  destruct ev; simpl; rewrite IH; reflexivity.
Qed.


Lemma token_warnings_app (e1 e2 : list event) :
  token_warnings (e1 ++ e2) = token_warnings e1 + token_warnings e2.
Proof. unfold token_warnings. rewrite filter_app, length_app. reflexivity. Qed.

Lemma startswith_append (p s : string) : startswith (p ++ s) p = true.
Proof.
  unfold startswith. induction p as [|c p IH]; simpl.
  - destruct s; reflexivity.
  - destruct (ascii_dec c c) as [_|N]; [exact IH | exfalso; apply N; reflexivity].
Qed.

Lemma sends_check_warnings (ext : externals) (s : Binstar) (res : response) :
  sends (check_warnings ext s res) = [].
Proof.
  unfold check_warnings.
  repeat match goal with
         | |- context [if ?b then _ else _] => destruct b
         | |- context [match ?x with Some _ => _ | None => _ end] => destruct x
         end; reflexivity.
Qed.


Lemma token_warnings_token (v : string) :
  token_warnings [Warning ("Token warning: " ++ v)] = 1.
Proof.
  unfold token_warnings. cbn [filter is_token_warning].
  rewrite startswith_append. reflexivity.
Qed.

(** The classifier logs the token warning exactly when the session has not
    warned yet and the response carries the header. *)
Lemma token_warnings_check_warnings (ext : externals) (s : Binstar) (res : response) :
  token_warnings (check_warnings ext s res) =
  b2n (negb (_token_warning_sent s) && carries_token_warning res).
Proof.
  unfold check_warnings, carries_token_warning, header_in.
  rewrite !token_warnings_app.
  assert (H1 : forall (b : bool) (m : string),
             startswith m "Token warning: " = false ->
             token_warnings (if b then [Warning m] else []) = 0).
  { intros b m H. destruct b; [|reflexivity].
    unfold token_warnings. cbn [filter is_token_warning]. rewrite H. reflexivity. }
  rewrite !H1 by reflexivity.
  destruct (_token_warning_sent s);
    destruct (header_get (res_headers res) "Conda-Token-Warning");
    cbn [negb andb]; rewrite ?token_warnings_token; reflexivity.
Qed.

Lemma sends_raised_of_exn (x : option pyexn) : sends (raised_of_exn x) = [].
Proof. destruct x; reflexivity. Qed.

Lemma sends_check_swallowed (res : response) (allowed : list Z) :
  sends (check_swallowed res allowed) = [].
Proof.
  unfold check_swallowed. destruct (status_allowed res allowed); [reflexivity|].
  destruct (body res); reflexivity.
Qed.

Lemma token_warnings_check_swallowed (res : response) (allowed : list Z) :
  token_warnings (check_swallowed res allowed) = 0.
Proof.
  unfold check_swallowed. destruct (status_allowed res allowed); [reflexivity|].
  destruct (body res); reflexivity.
Qed.



Lemma token_warnings_raised_of_exn (x : option pyexn) : token_warnings (raised_of_exn x) = 0.
Proof. destruct x; reflexivity. Qed.


Lemma mark_warned_fields (s : Binstar) (res : response) :
  domain (mark_warned s res) = domain s /\
  session_headers (mark_warned s res) = session_headers s /\
  session_verify (mark_warned s res) = session_verify s /\
  _token_warning_sent (mark_warned s res) = _token_warning_sent s || carries_token_warning res.
Proof.
  unfold mark_warned.
  destruct (_token_warning_sent s) eqn:F; destruct (carries_token_warning res);
    cbn; rewrite ?F; repeat split; reflexivity.
Qed.

(** ** Invariants of every method

    A relation that holds of the building blocks of the methods, and
    composes along sequencing, holds of every method built from them. *)

Section Invariant.

Variable ext : externals.
Variable net : network.
Variable Q : option pyexn -> world -> world -> list event -> Prop.

Hypothesis Q_nil : forall w, Q None w w [].
Hypothesis Q_seq : forall x w w1 w2 e1 e2,
    Q None w w1 e1 -> Q x w1 w2 e2 -> Q x w w2 (e1 ++ e2)%list.
Hypothesis Q_raise : forall e w, Q (Some e) w w [Raised e].
Hypothesis Q_send : forall q, sat Q (send net q).
Hypothesis Q_info : forall msg w, Q None w w [Info msg].
Hypothesis Q_fd : forall w f, Q None w (mkWorld (self w) f (clock w)) [].
Hypothesis Q_headers : forall upd, sat Q (session_headers_update upd).
Hypothesis Q_check : forall res allowed, sat Q (_check_response ext res allowed).

Lemma sat_ret {A : Type} (a : A) : sat Q (ret a).
Proof. intros w. apply Q_nil. Qed.

Lemma sat_raise {A : Type} (e : pyexn) : sat Q (@raise A e).
Proof. intros w. apply Q_raise. Qed.

Lemma sat_bind {A B : Type} (m : M A) (f : A -> M B) :
  sat Q m -> (forall a, sat Q (f a)) -> sat Q (bind m f).
Proof.
  intros Hm Hf w. unfold bind. specialize (Hm w).
  destruct (m w) as [[[a|e] w1] e1]; [|exact Hm].
  specialize (Hf a w1). destruct (f a w1) as [[r w2] e2].
  eapply Q_seq; eassumption.
Qed.

Lemma sat_get_self : sat Q get_self.
Proof. intros w. apply Q_nil. Qed.

Lemma sat_get_fd : sat Q get_fd.
Proof. intros w. apply Q_nil. Qed.

Lemma sat_set_fd (f : file) : sat Q (set_fd f).
Proof. intros w. apply Q_fd. Qed.

Lemma sat_logger_info (msg : string) : sat Q (logger_info msg).
Proof. intros w. apply Q_info. Qed.

Ltac sat_step :=
  first [ apply sat_ret | apply sat_raise | apply sat_get_self | apply sat_get_fd
        | apply sat_set_fd | apply sat_logger_info | apply Q_send | apply Q_headers
        | apply Q_check
        | apply sat_bind; [|intros]
        | match goal with
          | |- sat _ (match ?x with _ => _ end) => destruct x
          end ].

Ltac sat_auto := repeat sat_step.

Lemma sat_fd_tell : sat Q fd_tell.
Proof. unfold fd_tell. sat_auto. Qed.

Lemma sat_fd_seek (n : Z) : sat Q (fd_seek n).
Proof. unfold fd_seek. sat_auto. Qed.

Lemma sat_fd_seek_end : sat Q fd_seek_end.
Proof. unfold fd_seek_end. sat_auto. Qed.

Lemma sat_fd_read_all : sat Q fd_read_all.
Proof. unfold fd_read_all. sat_auto. Qed.

Lemma sat_compute_hash (size : option Z) (alg : hash_algorithm) :
  sat Q (compute_hash ext size alg).
Proof. unfold compute_hash. sat_auto. Qed.

Lemma sat_res_json (res : response) : sat Q (res_json res).
Proof. unfold res_json. sat_auto. Qed.

Lemma sat_ET_fromstring (res : response) : sat Q (ET_fromstring res).
Proof. unfold ET_fromstring. sat_auto. Qed.

Lemma sat_subscript (obj : json) (k : string) : sat Q (subscript obj k).
Proof. unfold subscript. sat_auto. Qed.

Lemma sat_setitem (obj : json) (k : string) (v : json) : sat Q (setitem obj k v).
Proof. unfold setitem. sat_auto. Qed.

Lemma sat_header_item (h : headers) (k : string) : sat Q (header_item h k).
Proof. unfold header_item. sat_auto. Qed.

Lemma sat_local {A : Type} (name : string) (v : option A) : sat Q (local name v).
Proof. unfold local. sat_auto. Qed.

Lemma sat_json_startswith (v : json) (p : string) : sat Q (json_startswith v p).
Proof. unfold json_startswith. sat_auto. Qed.

Ltac sat_more :=
  first [ apply sat_fd_tell | apply sat_fd_seek | apply sat_fd_seek_end
        | apply sat_fd_read_all | apply sat_compute_hash | apply sat_res_json
        | apply sat_ET_fromstring | apply sat_subscript | apply sat_setitem
        | apply sat_header_item | apply sat_local | apply sat_json_startswith
        | sat_step ].

Ltac sat_method := repeat sat_more.

Lemma sat__authenticate (k : auth_kind) (a : auth_args) : sat Q (_authenticate ext net k a).
Proof. unfold _authenticate. sat_method. Qed.

Lemma sat_download (l p r b : string) (m : option string) : sat Q (download ext net l p r b m).
Proof. unfold download. sat_method. Qed.

Lemma sat_upload (a : upload_args) : sat Q (upload ext net a).
Proof. unfold upload. sat_method. Qed.

(** What [authentication_type] does under its [try]. *)
Lemma sat_checked_field (res : response) (k : string) :
  sat Q (_check_response ext res [200%Z] ;; res <- res_json res ;; subscript res k).
Proof. sat_method. Qed.

(** What [krb_authenticate] does under its [try]. *)
Lemma sat_import_authenticate (a : auth_args) :
  sat Q ((if has_requests_kerberos ext then ret tt
          else raise (ImportError "requests_kerberos")) ;;
         _authenticate ext net HTTPKerberosAuth a).
Proof.
  apply sat_bind; [|intros; apply sat__authenticate].
  destruct (has_requests_kerberos ext); [apply sat_ret | apply sat_raise].
Qed.

(** Every method that has no [try] statement. *)
Lemma sat_unguarded (c : call) :
  match c with
  | Call_check_server | Call_authentication_type | Call_krb_authenticate _ => True
  | _ => sat Q (run_call ext net c)
  end.
Proof.
  destruct c; try exact I; unfold run_call, returning; apply sat_bind;
    try (intros; apply sat_ret).
  - apply sat__authenticate.
  - apply sat__authenticate.
  - unfold list_scopes. sat_method.
  - unfold authentication. sat_method.
  - unfold authentications. sat_method.
  - unfold remove_authentication. sat_method.
  - unfold user. sat_method.
  - unfold user_packages. sat_method.
  - unfold package. sat_method.
  - unfold package_add_collaborator. sat_method.
  - unfold package_remove_collaborator. sat_method.
  - unfold package_collaborators. sat_method.
  - unfold all_packages. sat_method.
  - unfold add_package. sat_method.
  - unfold update_package. sat_method.
  - unfold update_release. sat_method.
  - unfold remove_package. sat_method.
  - unfold release. sat_method.
  - unfold remove_release. sat_method.
  - unfold add_release. sat_method.
  - unfold distribution. sat_method.
  - unfold remove_dist. sat_method.
  - apply sat_download.
  - apply sat_upload.
  - unfold search. sat_method.
  - unfold user_licenses. sat_method.
Qed.

(** With a relation that also composes across a handler, the three
    methods that catch are covered as well. *)
Hypothesis Q_catch : forall e x w w1 w2 e1 e2,
    Q (Some e) w w1 e1 -> Q x w1 w2 e2 -> Q x w w2 (e1 ++ e2)%list.

Lemma sat_try_except {A : Type} (m : M A) (h : pyexn -> option (M A)) :
  sat Q m -> (forall e k, h e = Some k -> sat Q k) -> sat Q (try_except m h).
Proof.
  intros Hm Hh w. unfold try_except. specialize (Hm w).
  destruct (m w) as [[[a|e] w1] e1]; [exact Hm|].
  destruct (h e) as [k|] eqn:E; [|exact Hm].
  specialize (Hh e k E w1). destruct (k w1) as [[r w2] e2].
  eapply Q_catch; eassumption.
Qed.

Lemma sat_check_server : sat Q (check_server ext net).
Proof.
  unfold check_server. apply sat_bind; [apply sat_get_self|intros s].
  apply sat_bind; [|intros res].
  - apply sat_try_except; [apply Q_send|].
    intros e k H. inversion H. apply sat_raise.
  - apply sat_try_except; [apply Q_check|].
    intros e k H. destruct (is_NotFound e); inversion H. apply sat_raise.
Qed.

Lemma sat_authentication_type : sat Q (authentication_type ext net).
Proof.
  unfold authentication_type. apply sat_bind; [apply sat_get_self|intros s].
  apply sat_bind; [apply Q_send|intros res].
  apply sat_try_except; [apply sat_checked_field|].
  intros e k H. destruct (is_BinstarError e); inversion H. apply sat_ret.
Qed.

Lemma sat_krb_authenticate (a : auth_args) : sat Q (krb_authenticate ext net a).
Proof.
  unfold krb_authenticate. apply sat_try_except; [apply sat_import_authenticate|].
  intros e k H. destruct (is_ImportError e); inversion H. apply sat_raise.
Qed.

Lemma sat_run_call (c : call) : sat Q (run_call ext net c).
Proof.
  pose proof (sat_unguarded c) as H.
  destruct c; try exact H; unfold run_call, returning; apply sat_bind;
    try (intros; apply sat_ret).
  - apply sat_check_server.
  - apply sat_authentication_type.
  - apply sat_krb_authenticate.
Qed.

End Invariant.

(** ** The relations hold of the methods *)




Lemma send_run (net : network) (q : request) (w : world) :
  exists r evs, send net q w = (r, mkWorld (self w) (fd w) (S (clock w)), evs) /\
                token_warnings evs = 0 /\ surfaced (exn_of r) evs.
Proof.
  unfold send. destruct (net (clock w) q) as [what|res]; eexists; eexists;
    (split; [reflexivity|]); split; try reflexivity.
  - split; [reflexivity|]. exists []. split; [left; reflexivity | reflexivity].
  - split; reflexivity.
Qed.



Lemma check_response_keeps_domain (ext : externals) (res : response) (allowed : list Z) :
  sat keeps_domain (_check_response ext res allowed).
Proof.
  intros w. rewrite check_response_run. unfold keeps_domain. cbn [self].
  apply mark_warned_fields.
Qed.

(** No method assigns [self.domain]. *)
Lemma run_call_keeps_domain (ext : externals) (net : network) (c : call) :
  sat keeps_domain (run_call ext net c).
Proof.
  apply sat_run_call; unfold keeps_domain.
  - reflexivity.
  - intros x w w1 w2 e1 e2 H1 H2. congruence.
  - reflexivity.
  - intros q w. destruct (send_run net q w) as (r & evs & -> & _). reflexivity.
  - reflexivity.
  - reflexivity.
  - intros upd w. reflexivity.
  - apply check_response_keeps_domain.
  - intros e x w w1 w2 e1 e2 H1 H2. congruence.
Qed.




Lemma perform_keeps_domain (ext : externals) (net : network) (cs : list call) (w : world) :
  domain (self (world_of (perform ext net cs w))) = domain (self w).
Proof.
  revert w. induction cs as [|c cs IH]; intros w; [reflexivity|].
  cbn [perform]. pose proof (run_call_keeps_domain ext net c w) as H.
  destruct (run_call ext net c w) as [[r w1] e1]. specialize (IH w1).
  destruct (perform ext net cs w1) as [[rs w2] e2].
  unfold keeps_domain, world_of in *. cbn [fst snd] in *. congruence.
Qed.

(** ** The three methods that catch *)

Lemma returning_run {A : Type} (f : A -> retval) (m : M A) (w : world) :
  returning f m w =
  match m w with
  | (Ok a, w', evs) => (Ok (f a), w', evs)
  | (Raise e, w', evs) => (Raise e, w', evs)
  end.
Proof.
  unfold returning, bind, ret. destruct (m w) as [[[a|e] w'] evs]; [|reflexivity].
  rewrite app_nil_r. reflexivity.
Qed.








Lemma bind_unfold {A B : Type} (m : M A) (f : A -> M B) (w : world) :
  bind m f w =
  match m w with
  | (Ok a, w1, ev1) => match f a w1 with (r, w2, ev2) => (r, w2, (ev1 ++ ev2)%list) end
  | (Raise e, w1, ev1) => (Raise e, w1, ev1)
  end.
Proof. reflexivity. Qed.



(** ** The upload protocol *)

Lemma wire_headers_mark (s : Binstar) (res : response) (q : request) :
  wire_headers (mark_warned s res) q = wire_headers s q.
Proof.
  unfold wire_headers. destruct (mark_warned_fields s res) as (_ & -> & _). reflexivity.
Qed.

Ltac head_scrutinee t :=
  lazymatch t with
  | match ?x with _ => _ end => head_scrutinee x
  | (match ?x with _ => _ end) _ => head_scrutinee x
  | _ => t
  end.

(** Running a method symbolically: reduce, then split on whatever the run
    is waiting for; the classifier is replaced by its summary. *)
Ltac exec_cbn :=
  cbn [bind ret raise get_self set_self get_fd set_fd send local subscript setitem
       res_json ET_fromstring json_startswith fd_tell fd_seek fd_seek_end fd_read_all
       compute_hash logger_info emit jencode result_of_exn header_item
       self fd clock fst snd app negb].

Ltac exec_step :=
  exec_cbn;
  lazymatch goal with
  | |- _ (_, _, _) => fail
  | |- _ ?run =>
      let h := head_scrutinee run in
      lazymatch h with
      | _check_response _ _ _ _ => rewrite check_response_run
      | bind ?m ?f ?w => rewrite (bind_unfold m f w)
      | result_of_exn ?x => destruct x eqn:?
      | negb ?b => destruct b eqn:?
      | _ => destruct h eqn:?
      end
  end.

Ltac use_equations :=
  repeat match goal with
         | H : _ = _ |- _ => progress rewrite H
         end.

Ltac read_sends :=
  repeat (progress cbn [sends app raised_of_exn events_of result_in fst snd]
          || rewrite sends_app || rewrite sends_check_warnings
          || rewrite sends_check_swallowed).

(** Every run of [upload] has the shape of the protocol. *)
Lemma upload_run (ext : externals) (net : network) (a : upload_args) (w : world) :
  shape_of ext a w (upload ext net a w).
Proof.
  unfold upload, send, res_json, subscript, setitem, json_startswith, ET_fromstring,
    local, compute_hash, fd_tell, fd_seek, fd_seek_end, fd_read_all, logger_info, emit.
  repeat exec_step.
  all: exec_cbn.
  all: unfold shape_of; read_sends; unfold upload_shape; cbn [is_ok].
  all: unfold stage_request, transfer_request, transfer_fields, commit_request,
         staged_fields, commit_result, transfer_error, msg_tail_of, remaining,
         json_as_fields, json_as_url, py_str.
  all: rewrite ?wire_headers_mark.
  all: use_equations.
  all: cbn [result_of_exn].
  all: repeat split.
  all: try reflexivity.
  all: apply Z.eqb_eq; assumption.
Qed.

(** ** The download *)

Lemma check_exn_none (ext : externals) (res : response) (allowed : list Z) :
  check_exn ext res allowed = None <-> status_allowed res allowed = true.
Proof.
  unfold check_exn. destruct (status_allowed res allowed).
  - split; reflexivity.
  - destruct (body res) as [[| | | | |d]| |]; split; discriminate.
Qed.

(** Every run of [download] has the shape of the resolver. *)
Lemma download_run (ext : externals) (net : network)
      (l p r b : string) (m : option string) (w : world) :
  download_shape_of ext w l p r b m (download ext net l p r b m w).
Proof.
  unfold download, send, header_item.
  repeat exec_step.
  all: exec_cbn.
  all: unfold download_shape_of; read_sends; unfold download_shape, download_request,
         redirect_request.
  all: rewrite ?wire_headers_mark.
  all: fold download_set in *.
  all: use_equations.
  all: repeat split; try reflexivity; try (apply Z.eqb_eq; assumption).
  all: match goal with
       | H : check_exn _ _ download_set = None |- _ =>
           apply check_exn_none in H; unfold status_allowed, download_set in H;
           cbn [existsb] in H
       end.
  all: repeat match goal with
              | E : (?x =? ?y)%Z = false, H : context [(?x =? ?y)%Z] |- _ =>
                  rewrite E in H
              end.
  all: discriminate.
Qed.

(** ** Methods that accept 201 only *)

Lemma one_request_201 (ext : externals) (net : network) (q : Binstar -> request) :
  (forall s, via_session (q s) = true) ->
  only_201 ext net (s <- get_self ;; res <- send net (q s) ;; _check_response ext res [201%Z])
  /\ only_201 ext net (s <- get_self ;; res <- send net (q s) ;;
                       _check_response ext res [201%Z] ;; ret tt).
Proof.
  intros Hq. split; intros w; exists (q (self w)); (split; [apply Hq|]);
    unfold bind, send, get_self, ret; cbn [self fd clock];
    destruct (net (clock w) (q (self w))) as [what|res];
    try (split; reflexivity);
    rewrite check_response_run;
    destruct (check_exn ext res [201%Z]) as [e|];
    unfold events_of, result_in;
    cbn [fst snd result_of_exn raised_of_exn app sends self];
    rewrite ?sends_app, ?sends_check_warnings, ?sends_check_swallowed; split; reflexivity.
Qed.

Lemma removal_only_201 (ext : externals) (net : network) (c : removal) :
  only_201 ext net (run_removal ext net c).
Proof.
  destruct c; cbn [run_removal].
  - apply (one_request_201 ext net
             (fun s => session_ "DELETE"
                (if truthy auth_name then
                   if truthy organization
                   then domain s ++ "/authentications/org/" ++ pct_s organization
                                 ++ "/name/" ++ pct_s auth_name
                   else domain s ++ "/authentications/name/" ++ pct_s auth_name
                 else domain s ++ "/authentications"))); reflexivity.
  - apply (one_request_201 ext net
             (fun s => session_ "PUT" (domain s ++ "/packages/" ++ owner ++ "/" ++ package_name
                                                ++ "/collaborators/" ++ collaborator)));
      reflexivity.
  - apply (one_request_201 ext net
             (fun s => session_ "DELETE" (domain s ++ "/packages/" ++ owner ++ "/"
                                                   ++ package_name ++ "/collaborators/"
                                                   ++ collaborator)));
      reflexivity.
  - apply (one_request_201 ext net
             (fun s => session_ "DELETE" (domain s ++ "/package/" ++ username ++ "/"
                                                   ++ package_name)));
      reflexivity.
  - apply (one_request_201 ext net
             (fun s => session_ "DELETE" (domain s ++ "/release/" ++ username ++ "/"
                                                   ++ package_name ++ "/" ++ version)));
      reflexivity.
Qed.

(** ** The classifier, claim by claim *)

Lemma check_response_result (ext : externals) (res : response) (allowed : list Z) (w : world) :
  result_in (_check_response ext res allowed w) = result_of_exn (check_exn ext res allowed).
Proof. rewrite check_response_run. reflexivity. Qed.

(** The classifier returns exactly on the allowed statuses. *)
Lemma check_response_ok_iff (ext : externals) (res : response) (allowed : list Z) (w : world) :
  is_ok (result_in (_check_response ext res allowed w)) = status_allowed res allowed.
Proof.
  rewrite check_response_result. unfold check_exn.
  destruct (status_allowed res allowed); [reflexivity|].
  destruct (body res) as [[| | | | |d]| |]; reflexivity.
Qed.

(** On a disallowed status, and a body that is not JSON or is a JSON
    object, the classifier raises the error class of the status, with the
    status attached. *)
Lemma check_response_typed (ext : externals) (res : response) (allowed : list Z) (w : world) :
  status_allowed res allowed = false ->
  body_has_get res = true ->
  exists msg,
    result_in (_check_response ext res allowed w)
    = Raise (ApiError (select_ErrCls (status_code res)) msg (Some (status_code res))).
Proof.
  intros Ha Hb. rewrite check_response_result. unfold check_exn. rewrite Ha.
  unfold body_has_get in Hb.
  destruct (body res) as [[| | | | |d]| |]; try discriminate; eexists; reflexivity.
Qed.

(** On a disallowed status and a JSON body that is not an object, the
    classifier ends in [AttributeError]. *)
Lemma check_response_untyped (ext : externals) (res : response) (allowed : list Z) (w : world) :
  status_allowed res allowed = false ->
  body_has_get res = false ->
  result_in (_check_response ext res allowed w) = Raise (AttributeError "get").
Proof.
  intros Ha Hb. rewrite check_response_result. unfold check_exn. rewrite Ha.
  unfold body_has_get in Hb.
  destruct (body res) as [[| | | | |d]| |]; try discriminate; reflexivity.
Qed.

Lemma select_ErrCls_spec (st : Z) :
  select_ErrCls st =
  if (st =? 401)%Z then Unauthorized
  else if (st =? 404)%Z then NotFound
  else if (st =? 409)%Z then Conflict
  else if (500 <=? st)%Z then ServerError
  else BinstarError.
Proof.
  unfold select_ErrCls. rewrite Z.geb_leb. reflexivity.
Qed.

(** ** The token warning, call by call *)

(** *** Reading a trace against the rule *)

Lemma quiet_app (e1 e2 : list event) : quiet (e1 ++ e2) = quiet e1 && quiet e2.
Proof. unfold quiet. apply forallb_app. Qed.

Lemma quiet_count (evs : list event) : quiet evs = true <-> token_warnings evs = 0.
Proof.
  unfold quiet, token_warnings. induction evs as [|ev evs IH]; [split; reflexivity|].
  cbn [forallb filter]. destruct (is_token_warning ev); cbn [negb andb Datatypes.length].
  - split; discriminate.
  - exact IH.
Qed.

Lemma audit_true (evs : list event) : audit true evs = quiet evs.
Proof.
  induction evs as [|ev evs IH]; [reflexivity|].
  destruct ev; cbn [audit negb andb]; unfold quiet in *; cbn [forallb]; rewrite IH; reflexivity.
Qed.

Lemma audit_quiet (f : bool) (evs : list event) :
  sends evs = [] -> quiet evs = true -> audit f evs = true.
Proof.
  induction evs as [|ev evs IH]; [reflexivity|].
  unfold quiet in *. destruct ev; cbn [sends audit forallb]; try discriminate;
    intros S H; apply andb_true_iff in H as [H1 H2]; rewrite H1; apply IH; assumption.
Qed.

Lemma is_token_warning_token (v : string) :
  is_token_warning (Warning ("Token warning: " ++ v)) = true.
Proof. unfold is_token_warning. apply startswith_append. Qed.

Lemma await_skip (v : string) (pre rest : list event) :
  sends pre = [] -> quiet pre = true -> await v (pre ++ rest) = await v rest.
Proof.
  induction pre as [|ev pre IH]; [reflexivity|].
  unfold quiet in *. destruct ev as [q h o|msg|msg|e]; cbn [sends app await forallb];
    try discriminate; intros S H; apply andb_true_iff in H as [H1 H2].
  - apply negb_true_iff in H1. rewrite H1. apply IH; assumption.
  - apply IH; assumption.
  - apply IH; assumption.
Qed.

Lemma await_here (v : string) (rest : list event) :
  await v (Warning ("Token warning: " ++ v) :: rest) = quiet rest.
Proof.
  cbn [await]. rewrite is_token_warning_token, String.eqb_refl. reflexivity.
Qed.

Lemma await_app (v : string) (e1 e2 : list event) :
  await v e1 = true -> await v (e1 ++ e2) = quiet e2.
Proof.
  induction e1 as [|ev e1 IH]; [discriminate|].
  destruct ev as [q h o|msg|msg|e]; cbn [app await]; try discriminate; try exact IH.
  destruct (is_token_warning (Warning msg)); [|exact IH].
  intros H. apply andb_true_iff in H as [H1 H2].
  rewrite H1, quiet_app, H2. reflexivity.
Qed.

(** The events of a session are checked piece by piece. *)
Lemma audit_app (f : bool) (e1 e2 : list event) :
  audit f e1 = true ->
  audit f (e1 ++ e2) = audit (f || existsb warns (sends e1)) e2.
Proof.
  induction e1 as [|ev e1 IH]; intros H.
  - cbn. rewrite orb_false_r. reflexivity.
  - destruct ev as [q h o|msg|msg|e]; cbn [app audit sends existsb] in *.
    + destruct (negb f && warns (q, h, o)) eqn:C.
      * destruct o as [what|r]; [discriminate|].
        destruct (header_get (res_headers r) "Conda-Token-Warning") as [v|]; [|discriminate].
        rewrite (await_app v e1 e2 H). apply andb_true_iff in C as [Cf Cw].
        rewrite Cw, orb_true_l, orb_true_r, audit_true. reflexivity.
      * rewrite IH by exact H. f_equal.
        destruct f; [reflexivity|]. cbn [negb andb] in C. rewrite C. reflexivity.
    + apply andb_true_iff in H as [H1 H2]. rewrite H1. apply IH. exact H2.
    + apply andb_true_iff in H as [H1 H2]. rewrite H1. apply IH. exact H2.
    + apply andb_true_iff in H as [H1 H2]. rewrite H1. apply IH. exact H2.
Qed.

Lemma await_count (v : string) (evs : list event) :
  await v evs = true -> token_warnings evs = 1.
Proof.
  induction evs as [|ev evs IH]; [discriminate|].
  destruct ev as [q h o|msg|msg|e]; cbn [await]; try discriminate; try exact IH.
  unfold token_warnings in *. cbn [filter].
  destruct (is_token_warning (Warning msg)); [|exact IH].
  intros H. apply andb_true_iff in H as [_ H]. apply quiet_count in H.
  unfold token_warnings in H. cbn [Datatypes.length]. rewrite H. reflexivity.
Qed.

(** A trace that passes logs the warning once if an answer [warns] on a
    session that has not warned, and not at all otherwise. *)
Lemma audit_count (f : bool) (evs : list event) :
  audit f evs = true ->
  token_warnings evs = b2n (negb f && existsb warns (sends evs)).
Proof.
  induction evs as [|ev evs IH]; intros H.
  - cbn. rewrite andb_false_r. reflexivity.
  - destruct ev as [q h o|msg|msg|e]; cbn [audit sends existsb] in *.
    + change (token_warnings (Sent q h o :: evs)) with (token_warnings evs).
      destruct (negb f && warns (q, h, o)) eqn:C.
      * destruct o as [what|r]; [discriminate|].
        destruct (header_get (res_headers r) "Conda-Token-Warning") as [v|]; [|discriminate].
        apply andb_true_iff in C as [Cf Cw]. rewrite Cf, Cw. apply (await_count v). exact H.
      * rewrite (IH H). destruct f; [reflexivity|]. cbn [negb andb] in C. rewrite C. reflexivity.
    + apply andb_true_iff in H as [H1 H2]. apply negb_true_iff in H1.
      unfold token_warnings. cbn [filter]. rewrite H1. apply IH. exact H2.
    + apply andb_true_iff in H as [_ H2]. apply IH. exact H2.
    + apply andb_true_iff in H as [_ H2]. apply IH. exact H2.
Qed.

Lemma await_spec (v : string) (evs : list event) :
  await v evs = true ->
  exists mid post,
    evs = (mid ++ Warning ("Token warning: " ++ v) :: post)%list
    /\ sends mid = [] /\ token_warnings mid = 0 /\ token_warnings post = 0.
Proof.
  induction evs as [|ev evs IH]; [discriminate|].
  destruct ev as [q h o|msg|msg|e]; cbn [await]; try discriminate.
  - destruct (is_token_warning (Warning msg)) eqn:T.
    + intros H. apply andb_true_iff in H as [H1 H2]. apply String.eqb_eq in H1. subst msg.
      exists [], evs. repeat split; try reflexivity. apply quiet_count. exact H2.
    + intros H. destruct (IH H) as (mid & post & -> & S & M & P).
      exists (Warning msg :: mid), post. repeat split; try assumption.
      unfold token_warnings in *. cbn [filter]. rewrite T. exact M.
  - intros H. destruct (IH H) as (mid & post & -> & S & M & P).
    exists (Info msg :: mid), post. repeat split; assumption.
  - intros H. destruct (IH H) as (mid & post & -> & S & M & P).
    exists (Raised e :: mid), post. repeat split; assumption.
Qed.

(** In a trace that passes, nothing is logged before the first answer that
    [warns]. *)
Lemma audit_before (evs1 evs2 : list event) :
  existsb warns (sends evs1) = false ->
  audit false (evs1 ++ evs2) = true ->
  token_warnings evs1 = 0 /\ audit false evs2 = true.
Proof.
  induction evs1 as [|ev evs1 IH]; intros E H; [split; [reflexivity | exact H]|].
  destruct ev as [q h o|msg|msg|e]; cbn [app audit sends existsb] in *.
  - apply orb_false_iff in E as [E1 E2]. rewrite E1 in H. cbn [negb andb] in H.
    apply (IH E2 H).
  - apply andb_true_iff in H as [H1 H2]. apply negb_true_iff in H1.
    destruct (IH E H2) as [N A]. split; [|exact A].
    unfold token_warnings in *. cbn [filter]. rewrite H1. exact N.
  - apply andb_true_iff in H as [_ H2]. apply (IH E H2).
  - apply andb_true_iff in H as [_ H2]. apply (IH E H2).
Qed.

(** *** Round trips and their classification

    A relation that holds of a round trip taken together with the
    classification of its answer, and of the round trips whose answer is
    not classified, holds of every method. *)

Section Rounds.

Variable ext : externals.
Variable net : network.
Variable Q : option pyexn -> world -> world -> list event -> Prop.

Hypothesis Q_nil : forall w, Q None w w [].
Hypothesis Q_seq : forall x w w1 w2 e1 e2,
    Q None w w1 e1 -> Q x w1 w2 e2 -> Q x w w2 (e1 ++ e2)%list.
Hypothesis Q_raise : forall e w, Q (Some e) w w [Raised e].
Hypothesis Q_info : forall msg w, Q None w w [Info msg].
Hypothesis Q_fd : forall w f, Q None w (mkWorld (self w) f (clock w)) [].
Hypothesis Q_headers : forall upd, sat Q (session_headers_update upd).
Hypothesis Q_catch : forall e x w w1 w2 e1 e2,
    Q (Some e) w w1 e1 -> Q x w1 w2 e2 -> Q x w w2 (e1 ++ e2)%list.
Hypothesis Q_round : forall q allowed,
    classified q = true -> sat Q (res <- send net q ;; _check_response ext res allowed).
Hypothesis Q_aside : forall q, classified q = false -> sat Q (send net q).

Lemma round_then {A : Type} (q : request) (allowed : list Z) (k : response -> unit -> M A) :
  classified q = true ->
  (forall res u, sat Q (k res u)) ->
  sat Q (bind (send net q) (fun res => bind (_check_response ext res allowed) (k res))).
Proof.
  intros Hc Hk w. pose proof (Q_round q allowed Hc w) as R.
  unfold bind in *. destruct (send net q w) as [[[res|e] w1] e1]; [|exact R].
  destruct (_check_response ext res allowed w1) as [[[u|e] w2] e2]; [|exact R].
  specialize (Hk res u w2). destruct (k res u w2) as [[r w3] e3].
  rewrite app_assoc. eapply Q_seq; eassumption.
Qed.

(** A [try] around the rest of a method, after a call that is outside
    it. *)
Lemma bind_try {A B : Type} (m : M A) (f : A -> M B) (h : pyexn -> option (M B)) :
  sat Q (bind m f) ->
  (forall e k, h e = Some k -> sat Q k) ->
  sat Q (bind m (fun a => try_except (f a) h)).
Proof.
  intros Hm Hh w. specialize (Hm w). unfold bind, try_except in *.
  destruct (m w) as [[[a|e] w1] e1]; [|exact Hm].
  destruct (f a w1) as [[[b|e] w2] e2]; [exact Hm|].
  destruct (h e) as [k|] eqn:E; [|exact Hm].
  specialize (Hh e k E w2). destruct (k w2) as [[r w3] e3].
  rewrite app_assoc. eapply Q_catch; eassumption.
Qed.

(** A [try] around the first call of a method, with a handler that
    raises. *)
Lemma try_raise_bind {A B : Type} (m : M A) (g : A -> M B) (h : pyexn -> option (M A)) :
  sat Q (bind m g) ->
  (forall e k, h e = Some k -> exists e', k = raise e') ->
  sat Q (bind (try_except m h) g).
Proof.
  intros Hm Hh w. specialize (Hm w). unfold bind, try_except in *.
  destruct (m w) as [[[a|e] w1] e1]; [exact Hm|].
  destruct (h e) as [k|] eqn:E; [|exact Hm].
  destruct (Hh e k E) as [e' ->]. unfold raise.
  eapply Q_catch; [exact Hm | apply Q_raise].
Qed.

Ltac rounds_step :=
  cbv beta iota zeta delta [jencode];
  first [ apply (sat_ret Q Q_nil) | apply (sat_raise Q Q_raise) | apply (sat_get_self Q Q_nil)
        | apply (sat_logger_info Q Q_info) | apply Q_headers
        | apply (sat_fd_tell Q Q_nil) | apply (sat_fd_seek Q Q_nil Q_seq Q_fd)
        | apply (sat_fd_seek_end Q Q_nil Q_seq Q_fd)
        | apply (sat_fd_read_all Q Q_nil Q_seq Q_fd) | apply (sat_compute_hash ext Q Q_nil)
        | apply (sat_res_json Q Q_nil Q_raise) | apply (sat_ET_fromstring Q Q_nil Q_raise)
        | apply (sat_subscript Q Q_nil Q_raise) | apply (sat_setitem Q Q_nil Q_raise)
        | apply (sat_header_item Q Q_nil Q_raise) | apply (sat_local Q Q_nil Q_raise)
        | apply (sat_json_startswith Q Q_nil Q_raise)
        | match goal with
          | |- sat _ (bind (send _ ?q) (fun res => bind (_check_response _ res ?al) (@?k res))) =>
              apply (round_then q al k); [reflexivity | intros]
          | |- sat _ (bind (send _ ?q) (fun res => _check_response _ res ?al)) =>
              apply (Q_round q al); reflexivity
          | |- sat _ (bind (send _ ?q) _) =>
              apply (sat_bind Q Q_seq); [apply Q_aside; reflexivity | intros]
          end
        | apply (sat_bind Q Q_seq); [|intros]
        | match goal with
          | |- sat _ (match ?x with _ => _ end) => destruct x
          end ].

Ltac rounds := repeat rounds_step.

Lemma rounds__authenticate (k : auth_kind) (a : auth_args) : sat Q (_authenticate ext net k a).
Proof. unfold _authenticate. rounds. Qed.

Lemma rounds_check_server : sat Q (check_server ext net).
Proof.
  unfold check_server. apply (sat_bind Q Q_seq); [apply (sat_get_self Q Q_nil) | intros s].
  apply try_raise_bind.
  - apply bind_try; [apply Q_round; reflexivity|].
    intros e k H. destruct (is_NotFound e); inversion H. apply (sat_raise Q Q_raise).
  - intros e k H. inversion H. eexists. reflexivity.
Qed.

Lemma rounds_authentication_type : sat Q (authentication_type ext net).
Proof.
  unfold authentication_type.
  apply (sat_bind Q Q_seq); [apply (sat_get_self Q Q_nil) | intros s].
  cbv beta zeta. apply bind_try.
  - rounds.
  - intros e k H. destruct (is_BinstarError e); inversion H. apply (sat_ret Q Q_nil).
Qed.

Lemma rounds_krb_authenticate (a : auth_args) : sat Q (krb_authenticate ext net a).
Proof.
  unfold krb_authenticate. apply (sat_try_except Q Q_catch).
  - apply (sat_bind Q Q_seq); [|intros; apply rounds__authenticate].
    destruct (has_requests_kerberos ext); [apply (sat_ret Q Q_nil) | apply (sat_raise Q Q_raise)].
  - intros e k H. destruct (is_ImportError e); inversion H. apply (sat_raise Q Q_raise).
Qed.

Lemma rounds_run_call (c : call) : sat Q (run_call ext net c).
Proof.
  destruct c; unfold run_call, returning;
    (apply (sat_bind Q Q_seq); [|intros; apply (sat_ret Q Q_nil)]).
  - apply rounds_check_server.
  - apply rounds_authentication_type.
  - apply rounds_krb_authenticate.
  - apply rounds__authenticate.
  - apply rounds__authenticate.
  - unfold list_scopes. rounds.
  - unfold authentication. rounds.
  - unfold authentications. rounds.
  - unfold remove_authentication. rounds.
  - unfold user. rounds.
  - unfold user_packages. rounds.
  - unfold package. rounds.
  - unfold package_add_collaborator. rounds.
  - unfold package_remove_collaborator. rounds.
  - unfold package_collaborators. rounds.
  - unfold all_packages. rounds.
  - unfold add_package. rounds.
  - unfold update_package. rounds.
  - unfold update_release. rounds.
  - unfold remove_package. rounds.
  - unfold release. rounds.
  - unfold remove_release. rounds.
  - unfold add_release. rounds.
  - unfold distribution. rounds.
  - unfold remove_dist. rounds.
  - unfold download. rounds.
  - unfold upload. rounds.
  - unfold search. rounds.
  - unfold user_licenses. rounds.
Qed.

End Rounds.

(** *** The token warning against the answers *)

Lemma quiet_check_swallowed (res : response) (allowed : list Z) :
  quiet (check_swallowed res allowed) = true.
Proof. apply quiet_count. apply token_warnings_check_swallowed. Qed.

Lemma quiet_raised_of_exn (x : option pyexn) : quiet (raised_of_exn x) = true.
Proof. destruct x; reflexivity. Qed.

(** The warnings the classifier logs on a session that has not warned,
    for an answer that carries the token warning. *)
Lemma check_warnings_token (ext : externals) (s : Binstar) (res : response) (v : string) :
  _token_warning_sent s = false ->
  header_get (res_headers res) "Conda-Token-Warning" = Some v ->
  exists A B,
    check_warnings ext s res = (A ++ Warning ("Token warning: " ++ v) :: B)%list
    /\ sends A = [] /\ quiet A = true /\ sends B = [] /\ quiet B = true.
Proof.
  intros Hf Hv. unfold check_warnings, carries_token_warning, header_in. rewrite Hf, Hv.
  cbn [negb andb].
  eexists. eexists. split; [reflexivity|].
  destruct (pv_gt ext _ _);
    destruct (match header_get (res_headers res) "X-Anaconda-Lockdown" with
              | Some _ => true | None => false end);
    destruct (match header_get (res_headers res) "X-Anaconda-Read-Only" with
              | Some _ => true | None => false end);
    repeat split; reflexivity.
Qed.

Lemma round_warned (ext : externals) (net : network) (q : request) (allowed : list Z) :
  classified q = true ->
  sat warned_by_answers (res <- send net q ;; _check_response ext res allowed).
Proof.
  intros Hc w. unfold bind, send. destruct (net (clock w) q) as [what|r].
  - unfold warned_by_answers, flag. cbn [self sends existsb audit].
    unfold warns. rewrite andb_false_r, orb_false_r. split; reflexivity.
  - rewrite check_response_run. unfold warned_by_answers, flag.
    cbn [self app sends existsb audit].
    rewrite !sends_app, sends_check_warnings, sends_check_swallowed, sends_raised_of_exn.
    cbn [app existsb].
    destruct (mark_warned_fields (self w) r) as (_ & _ & _ & ->).
    unfold warns. rewrite Hc. cbn [andb]. rewrite orb_false_r. split; [reflexivity|].
    destruct (negb (_token_warning_sent (self w)) && carries_token_warning r) eqn:C.
    + apply andb_true_iff in C as [Cf Cc]. apply negb_true_iff in Cf.
      unfold carries_token_warning, header_in in Cc.
      destruct (header_get (res_headers r) "Conda-Token-Warning") as [v|] eqn:Hv;
        [|discriminate].
      destruct (check_warnings_token ext (self w) r v Cf Hv) as (A & B & -> & SA & QA & SB & QB).
      rewrite <- app_assoc. rewrite await_skip by assumption.
      cbn [app]. rewrite await_here, !quiet_app, QB, quiet_check_swallowed, quiet_raised_of_exn.
      reflexivity.
    + apply audit_quiet.
      * rewrite !sends_app, sends_check_warnings, sends_check_swallowed, sends_raised_of_exn.
        reflexivity.
      * rewrite !quiet_app, quiet_check_swallowed, quiet_raised_of_exn, !andb_true_r.
        apply quiet_count. rewrite token_warnings_check_warnings, C. reflexivity.
Qed.

Lemma warned_seq (x y : option pyexn) (w w1 w2 : world) (e1 e2 : list event) :
  warned_by_answers x w w1 e1 -> warned_by_answers y w1 w2 e2 ->
  warned_by_answers y w w2 (e1 ++ e2).
Proof.
  unfold warned_by_answers. intros [F1 A1] [F2 A2]. split.
  - rewrite sends_app, existsb_app, orb_assoc, <- F1. exact F2.
  - rewrite audit_app by exact A1. rewrite <- F1. exact A2.
Qed.

(** Every call logs the token warning by the rule, and sets the flag
    exactly when an answer [warns]. *)
Lemma run_call_warned (ext : externals) (net : network) (c : call) :
  sat warned_by_answers (run_call ext net c).
Proof.
  apply rounds_run_call.
  - intros w. split; [cbn; rewrite orb_false_r|]; reflexivity.
  - intros x w w1 w2 e1 e2. apply warned_seq.
  - intros e w. split; [cbn; rewrite orb_false_r|]; reflexivity.
  - intros msg w. split; [cbn; rewrite orb_false_r|]; reflexivity.
  - intros w f. split; [cbn; rewrite orb_false_r|]; reflexivity.
  - intros upd w. split; [cbn; rewrite orb_false_r|]; reflexivity.
  - intros e x w w1 w2 e1 e2. apply warned_seq.
  - apply round_warned.
  - intros q Hc w. unfold send.
    destruct (net (clock w) q) as [what|r]; unfold warned_by_answers, flag;
      cbn [self sends existsb audit]; unfold warns; rewrite ?Hc;
      cbn [andb negb]; rewrite ?andb_false_r, ?orb_false_r; split; reflexivity.
Qed.

Lemma perform_warned (ext : externals) (net : network) (cs : list call) (w : world) :
  warned_by_answers None w (world_of (perform ext net cs w)) (events_of (perform ext net cs w)).
Proof.
  revert w. induction cs as [|c cs IH]; intros w.
  - split; [cbn; rewrite orb_false_r|]; reflexivity.
  - cbn [perform]. pose proof (run_call_warned ext net c w) as H.
    destruct (run_call ext net c w) as [[r w1] e1]. specialize (IH w1).
    destruct (perform ext net cs w1) as [[rs w2] e2].
    unfold world_of, events_of in *. cbn [fst snd] in *.
    eapply warned_seq; eassumption.
Qed.

(** *** The answers are the network's *)

Lemma answered_seq (net : network) (x y : option pyexn) (w w1 w2 : world)
      (e1 e2 : list event) :
  answered net x w w1 e1 -> answered net y w1 w2 e2 -> answered net y w w2 (e1 ++ e2).
Proof.
  unfold answered. intros [C1 A1] [C2 A2]. rewrite sends_app, length_app. split; [lia|].
  intros i q h o H.
  destruct (Nat.lt_ge_cases i (List.length (sends e1))) as [L|L].
  - rewrite nth_error_app1 in H by exact L. apply (A1 _ _ _ _ H).
  - rewrite nth_error_app2 in H by exact L.
    rewrite (A2 _ _ _ _ H), C1. f_equal. lia.
Qed.

Lemma answered_quiet (net : network) (x : option pyexn) (w w' : world) (evs : list event) :
  clock w' = clock w -> sends evs = [] -> answered net x w w' evs.
Proof.
  intros C S. unfold answered. rewrite S. split; [cbn; lia|].
  intros i q h o H. destruct i; discriminate.
Qed.

Lemma run_call_answered (ext : externals) (net : network) (c : call) :
  sat (answered net) (run_call ext net c).
Proof.
  apply sat_run_call.
  - intros w. apply answered_quiet; reflexivity.
  - intros x w w1 w2 e1 e2. apply answered_seq.
  - intros e w. apply answered_quiet; reflexivity.
  - intros q w. unfold send, answered.
    destruct (net (clock w) q) as [what|r] eqn:E; cbn [clock sends Datatypes.length];
      (split; [lia|]); intros i q' h o H; destruct i as [|[|i]]; try discriminate;
      inversion H; subst; rewrite Nat.add_0_r; symmetry; exact E.
  - intros msg w. apply answered_quiet; reflexivity.
  - intros w f. apply answered_quiet; reflexivity.
  - intros upd w. apply answered_quiet; reflexivity.
  - intros res allowed w. rewrite check_response_run. apply answered_quiet; [reflexivity|].
    rewrite !sends_app, sends_check_warnings, sends_check_swallowed, sends_raised_of_exn.
    reflexivity.
  - intros e x w w1 w2 e1 e2. apply answered_seq.
Qed.

Lemma perform_answered (ext : externals) (net : network) (cs : list call) (w : world) :
  answered net None w (world_of (perform ext net cs w)) (events_of (perform ext net cs w)).
Proof.
  revert w. induction cs as [|c cs IH]; intros w.
  - apply answered_quiet; reflexivity.
  - cbn [perform]. pose proof (run_call_answered ext net c w) as H.
    destruct (run_call ext net c w) as [[r w1] e1]. specialize (IH w1).
    destruct (perform ext net cs w1) as [[rs w2] e2].
    unfold world_of, events_of in *. cbn [fst snd] in *.
    eapply answered_seq; eassumption.
Qed.

(** *** The first request of a call *)

Lemma opens_send (net : network) (q : request) (w : world) : opens net (send net q) w q.
Proof.
  unfold opens, send. destruct (net (clock w) q); eexists; reflexivity.
Qed.

Lemma opens_bind {A B : Type} (net : network) (m : M A) (f : A -> M B) (w : world)
      (q : request) :
  opens net m w q -> opens net (bind m f) w q.
Proof.
  unfold opens, bind, events_of. intros [rest H].
  destruct (m w) as [[[a|e] w1] e1]; cbn [snd] in *.
  - destruct (f a w1) as [[r w2] e2]. cbn [snd]. rewrite sends_app, H. eexists. reflexivity.
  - exists rest. exact H.
Qed.

Lemma opens_try {A : Type} (net : network) (m : M A) (h : pyexn -> option (M A))
      (w : world) (q : request) :
  opens net m w q -> opens net (try_except m h) w q.
Proof.
  unfold opens, try_except, events_of. intros [rest H].
  destruct (m w) as [[[a|e] w1] e1]; cbn [snd] in *.
  - exists rest. exact H.
  - destruct (h e) as [k|]; [|exists rest; exact H].
    destruct (k w1) as [[r w2] e2]. cbn [snd]. rewrite sends_app, H. eexists. reflexivity.
Qed.

(** A step that neither sends nor changes the world. *)
Lemma opens_after {A B : Type} (net : network) (m : M A) (f : A -> M B) (w : world)
      (q : request) (a : A) :
  m w = (Ok a, w, []) -> opens net (f a) w q -> opens net (bind m f) w q.
Proof.
  unfold opens, bind, events_of. intros -> [rest H].
  destruct (f a w) as [[r w2] e2]. cbn [snd app] in *. exists rest. exact H.
Qed.

Ltac opens_step :=
  cbv beta iota zeta delta [jencode];
  first [ apply opens_send
        | apply opens_bind; first [ apply opens_send | apply opens_try; apply opens_send ]
        | apply opens_try
        | eapply opens_after; [reflexivity|] ].

(** A call that gets as far as its first request sends it to the network,
    and the answer is one the classifier sees. *)
Lemma first_request (ext : externals) (net : network) (c : call) (w : world) :
  reaches_server ext c = true ->
  exists q, classified q = true /\ opens net (run_call ext net c) w q.
Proof.
  intros R.
  assert (G : forall (A : Type) (f : A -> retval) (m : M A) q,
             classified q = true -> opens net m w q ->
             exists q, classified q = true /\ opens net (returning f m) w q).
  { intros A f m q Hc Ho. exists q. split; [exact Hc | apply opens_bind; exact Ho]. }
  unfold run_call, check_server, authentication_type, krb_authenticate, authenticate,
    _authenticate, list_scopes, authentication, authentications, remove_authentication, user,
    user_packages, package, package_add_collaborator, package_remove_collaborator,
    package_collaborators, all_packages, add_package, update_package, update_release,
    remove_package, release, remove_release, add_release, distribution, remove_dist,
    download, upload, search, user_licenses.
  destruct c; cbn [reaches_server] in R; rewrite ?R.
  all: try (eapply G; [|repeat opens_step]; reflexivity).
  - cbv zeta.
    match goal with
    | |- context [setitem (if json_truthy ?x then ?x else JDict [])] =>
        destruct (if json_truthy x then x else JDict []) as [| | | | |d]; try discriminate
    end.
    eapply G; [|repeat opens_step]; reflexivity.
  - match goal with
    | H : truthy ?b || truthy ?i = true |- _ =>
        destruct (truthy b); [|destruct (truthy i); [|discriminate]]
    end; (eapply G; [|repeat opens_step]; reflexivity).
  - match goal with
    | H : match up_attrs ?a with _ => _ end = true |- _ =>
        destruct (up_attrs a) as [[| | | | |d]|]; try discriminate; destruct (up_sha256 a)
    end; (eapply G; [|repeat opens_step]; reflexivity).
Qed.

Lemma perform_warns (ext : externals) (net : network) (c : call) (cs : list call) (w : world) :
  (forall w', existsb warns (sends (events_of (run_call ext net c w'))) = true) ->
  In c cs ->
  existsb warns (sends (events_of (perform ext net cs w))) = true.
Proof.
  intros Hc. revert w. induction cs as [|c' cs IH]; intros w Hin; [contradiction|].
  cbn [perform]. specialize (Hc w) as Hw.
  destruct Hin as [->|Hin].
  - destruct (run_call ext net c w) as [[r w1] e1].
    destruct (perform ext net cs w1) as [[rs w2] e2].
    unfold events_of in *. cbn [snd] in *. rewrite sends_app, existsb_app, Hw. reflexivity.
  - specialize (IH (world_of (run_call ext net c' w)) Hin).
    destruct (run_call ext net c' w) as [[r w1] e1]. unfold world_of in IH. cbn [fst snd] in IH.
    destruct (perform ext net cs w1) as [[rs w2] e2].
    unfold events_of in *. cbn [snd] in *. rewrite sends_app, existsb_app, IH.
    apply orb_true_r.
Qed.


(** ** How a call ends when its first request fails *)











(** * The claims *)

(** ** C9: the endpoint stored by the constructor *)

(** C9, as claimed, fails: the constructor removes one trailing separator
    only, so a domain written with two of them keeps one. *)
Lemma init_keeps_second_separator :
  domain (__init__ Sample.ext None "example.com//" true) = "https://example.com/"
  /\ endswith (domain (__init__ Sample.ext None "example.com//" true)) "/" = true.
Proof. split; reflexivity. Qed.

(** C9, amended: for every domain string the stored endpoint starts with
    ["http://"] or ["https://"]; exactly one trailing ["/"] is removed, so the
    endpoint ends with ["/"] precisely when the domain is empty, is ["/"]
    alone, or ends with two separators; and no sequence of calls on the
    client changes the endpoint afterwards. *)
Theorem init_endpoint (ext : externals) (net : network) (tok : option string) (d : string)
        (v : bool) (f : file) (n : nat) (cs : list call) :
  let s := __init__ ext tok d v in
  startswith_any (domain s) ["http://"; "https://"] = true
  /\ endswith (domain s) "/" = (d =? "") || (d =? "/") || endswith d "//"
  /\ domain (self (world_of (perform ext net cs (mkWorld s f n)))) = domain s.
Proof.
  cbv zeta. split; [apply init_scheme|]. split; [apply init_trailing|].
  rewrite perform_keeps_domain. reflexivity.
Qed.

Lemma init_endpoint_witness :
  startswith_any (domain Sample.session) ["http://"; "https://"] = true
  /\ endswith (domain Sample.session) "/" = false
  /\ domain (self (world_of (perform Sample.ext Sample.unreachable
                               [Call_authentication; Call_user None] Sample.w0)))
     = domain Sample.session.
Proof.
  exact (init_endpoint Sample.ext Sample.unreachable (Some "s3cr3t") Sample.api true
                       (mkFile Sample.abc 0) 0 [Call_authentication; Call_user None]).
Defined.

(** ** C1: the classifier *)

(** C1: the claim holds of the code except on one kind of response.  Where
    the status is not allowed and the body decodes to JSON that is not an
    object (here the array [[]] under a 404), [data.get] does not exist and
    the classifier ends in [AttributeError] instead of [NotFound]. *)
Theorem check_response_json_array_body :
  status_allowed (Sample.respond 404 [] (AsJson (JList []))) [200%Z] = false
  /\ select_ErrCls 404 = NotFound
  /\ result_in (_check_response Sample.ext (Sample.respond 404 [] (AsJson (JList [])))
                                [200%Z] Sample.w0)
     = Raise (AttributeError "get").
Proof. repeat split; reflexivity. Qed.

(** What the classifier does on every other response: it returns exactly on
    an allowed status, and otherwise raises the class of the status
    ([Unauthorized] for 401, [NotFound] for 404, [Conflict] for 409,
    [ServerError] from 500 on, [BinstarError] for the rest) with the status
    attached. *)
Lemma check_response_classifies (ext : externals) (res : response) (allowed : list Z)
      (w : world) :
  is_ok (result_in (_check_response ext res allowed w)) = status_allowed res allowed
  /\ (status_allowed res allowed = false -> body_has_get res = true ->
      exists msg,
        result_in (_check_response ext res allowed w)
        = Raise (ApiError (if (status_code res =? 401)%Z then Unauthorized
                           else if (status_code res =? 404)%Z then NotFound
                           else if (status_code res =? 409)%Z then Conflict
                           else if (500 <=? status_code res)%Z then ServerError
                           else BinstarError)
                          msg (Some (status_code res)))).
Proof.
  split; [apply check_response_ok_iff|].
  intros Ha Hb. rewrite <- select_ErrCls_spec. apply check_response_typed; assumption.
Qed.

(** ** C6: the token warning *)

(** C6, as claimed, fails: two kinds of answer are never classified, and a
    token warning they carry is not logged.  A download that is redirected
    gets the header on the answer it follows the redirect to; an upload gets
    it on the storage's answer to the transfer: in both runs an answer
    carries the header, nothing is logged, and the flag stays unset. *)
Lemma token_warning_unclassified_answers :
  (let run := perform Sample.ext
                (Sample.scripted
                   [Sample.respond 302 [("location", Sample.s3)] Undecodable;
                    Sample.respond 200 [("Conda-Token-Warning", "expires soon")] Undecodable])
                [Call_download "alice" "pkg" "1.0" "pkg-1.0.tar.bz2" None] Sample.w0 in
   map answer_carries (sends (events_of run)) = [false; true]
   /\ token_warnings (events_of run) = 0
   /\ flag (world_of run) = false)
  /\ (let run := perform Sample.ext
                   (Sample.scripted
                      [Sample.staged Sample.s3;
                       Sample.respond 201 [("Conda-Token-Warning", "expires soon")] Undecodable;
                       Sample.respond 200 [] (AsJson Sample.committed)])
                   [Call_upload (Sample.args None)] Sample.w0 in
      map answer_carries (sends (events_of run)) = [false; true; false]
      /\ token_warnings (events_of run) = 0
      /\ flag (world_of run) = false).
Proof. cbv zeta. repeat split; reflexivity. Qed.

(** C6, amended.  On a session that has not warned, over any sequence of
    calls: the answers in the run are the network's; the token warning is
    logged once if some answer that is classified carries the header, and not
    at all otherwise; the flag is set exactly then; the warning is logged for
    the first such answer, with its text, before any further request, and
    nothing is logged before it or after it; once the flag is set, no later
    calls on the session log it; every call that gets as far as its first
    request has that request answered by the network and the answer
    classified; so that, on a network whose answers all carry the header, any
    sequence of calls one of which reaches the server logs the warning
    exactly once. *)
Theorem token_warning_logged_once (ext : externals) (net : network) (cs cs' : list call)
        (w : world) :
  flag w = false ->
  let run := perform ext net cs w in
  (forall i q h o,
      nth_error (sends (events_of run)) i = Some (q, h, o) -> o = net (clock w + i) q)
  /\ token_warnings (events_of run) = b2n (existsb warns (sends (events_of run)))
  /\ flag (world_of run) = existsb warns (sends (events_of run))
  /\ (forall evs1 q h r evs2,
         events_of run = (evs1 ++ Sent q h (Response r) :: evs2)%list ->
         existsb warns (sends evs1) = false ->
         warns (q, h, Response r) = true ->
         token_warnings evs1 = 0
         /\ exists v mid evs3,
              header_get (res_headers r) "Conda-Token-Warning" = Some v
              /\ evs2 = (mid ++ Warning ("Token warning: " ++ v) :: evs3)%list
              /\ sends mid = [] /\ token_warnings mid = 0 /\ token_warnings evs3 = 0)
  /\ (flag (world_of run) = true ->
      token_warnings (events_of (perform ext net cs' (world_of run))) = 0)
  /\ (forall c, reaches_server ext c = true ->
                exists q, classified q = true /\ opens net (run_call ext net c) w q)
  /\ ((forall n q, exists r, net n q = Response r /\ carries_token_warning r = true) ->
      existsb (reaches_server ext) cs = true ->
      token_warnings (events_of run) = 1).
Proof.
  intros Hf run.
  destruct (perform_warned ext net cs w) as [F A]. fold run in F, A. rewrite Hf in F, A.
  cbn [orb] in F.
  assert (N : token_warnings (events_of run) = b2n (existsb warns (sends (events_of run)))).
  { rewrite (audit_count false _ A). reflexivity. }
  split; [apply (perform_answered ext net cs w)|].
  split; [exact N|]. split; [exact F|]. split; [|split; [|split]].
  - intros evs1 q h r evs2 E Hpre Hw. rewrite E in A.
    destruct (audit_before evs1 _ Hpre A) as [N1 A2]. split; [exact N1|].
    cbn [audit] in A2. rewrite Hw in A2. cbn [negb andb] in A2.
    destruct (header_get (res_headers r) "Conda-Token-Warning") as [v|]; [|discriminate].
    destruct (await_spec v evs2 A2) as (mid & post & E2 & S & M & P).
    exists v, mid, post. repeat split; assumption.
  - intros Ht.
    destruct (perform_warned ext net cs' (world_of run)) as [_ A']. rewrite Ht in A'.
    rewrite (audit_count true _ A'). reflexivity.
  - intros c Hc. apply first_request. exact Hc.
  - intros Hnet Hcs. rewrite N. unfold run.
    apply existsb_exists in Hcs as (c & Hin & Hc).
    rewrite (perform_warns ext net c cs w); [reflexivity | | exact Hin].
    intros w'. destruct (first_request ext net c w' Hc) as (q & Hq & rest & Hs).
    rewrite Hs. cbn [existsb]. destruct (Hnet (clock w') q) as (r & -> & Hr).
    unfold warns. rewrite Hq, Hr. reflexivity.
Qed.

Lemma token_warning_logged_once_witness :
  flag Sample.w0 = false
  /\ token_warnings
       (events_of (perform Sample.ext
                     (Sample.always
                        (Sample.respond 200 [("Conda-Token-Warning", "expires soon")]
                                        (AsJson (JDict []))))
                     [Call_authentication; Call_user None; Call_user_licenses]
                     Sample.w0)) = 1.
Proof.
  split; [reflexivity|].
  refine (proj2 (proj2 (proj2 (proj2 (proj2 (proj2
           (token_warning_logged_once
              Sample.ext
              (Sample.always
                 (Sample.respond 200 [("Conda-Token-Warning", "expires soon")]
                                 (AsJson (JDict []))))
              [Call_authentication; Call_user None; Call_user_licenses] []
              Sample.w0 eq_refl)))))) _ eq_refl).
  intros n q. eexists. split; reflexivity.
Defined.

(** ** C8: how failures reach the caller *)




(** ** C10: the methods that accept 201 only *)

(** C10: the claim holds of the code except where the defect of C1 shows
    through.  A 200 answer to [remove_package] whose body is the JSON array
    [[]] ends in [AttributeError], not in the generic API error. *)
Theorem remove_package_200_json_array :
  result_in (run_removal Sample.ext
               (Sample.always (Sample.respond 200 [] (AsJson (JList []))))
               (Remove_package "alice" "pkg") Sample.w0)
  = Raise (AttributeError "get").
Proof. reflexivity. Qed.

(** What the five methods do on every answer: they make one request
    through the session, return exactly on a 201, and on a 200 whose body is
    not JSON or is a JSON object raise the generic API error carrying 200. *)
Lemma removal_accepts_201_only (ext : externals) (net : network) (c : removal) (w : world) :
  exists q,
    via_session q = true
    /\ sends (events_of (run_removal ext net c w))
       = [(q, wire_headers (self w) q, net (clock w) q)]
    /\ forall res,
        net (clock w) q = Response res ->
        is_ok (result_in (run_removal ext net c w)) = (status_code res =? 201)%Z
        /\ (status_code res = 200%Z -> body_has_get res = true ->
            exists msg, result_in (run_removal ext net c w)
                        = Raise (ApiError BinstarError msg (Some 200%Z))).
Proof.
  destruct (removal_only_201 ext net c w) as (q & Hv & Hs & Hr).
  exists q. split; [exact Hv|]. split; [exact Hs|].
  intros res Hres. rewrite Hr, Hres. split.
  - pose proof (check_response_ok_iff ext res [201%Z] w) as H.
    rewrite check_response_result in H. rewrite H.
    unfold status_allowed. cbn [existsb]. apply orb_false_r.
  - intros H200 Hb.
    assert (Ha : status_allowed res [201%Z] = false).
    { unfold status_allowed. cbn [existsb]. rewrite H200. reflexivity. }
    destruct (check_response_typed ext res [201%Z] w Ha Hb) as [msg Hm].
    rewrite check_response_result, H200 in Hm. exists msg. exact Hm.
Qed.

(** ** C2, C3, C4, C7: the upload *)

Lemma dict_get_set_same {V : Type} (d : list (string * V)) (k : string) (v : V) :
  dict_get (dict_set d k v) k = Some v.
Proof.
  induction d as [|[k' v'] d IH]; cbn.
  - rewrite String.eqb_refl. reflexivity.
  - destruct (k' =? k) eqn:E; cbn.
    + rewrite String.eqb_refl. reflexivity.
    + rewrite E. exact IH.
Qed.

Lemma dict_get_set_other {V : Type} (d : list (string * V)) (k k' : string) (v : V) :
  (k =? k') = false -> dict_get (dict_set d k v) k' = dict_get d k'.
Proof.
  intros N. induction d as [|[k0 v0] d IH]; cbn.
  - rewrite N. reflexivity.
  - destruct (k0 =? k) eqn:E; cbn.
    + apply String.eqb_eq in E. subst k0. rewrite N. reflexivity.
    + destruct (k0 =? k'); [reflexivity | exact IH].
Qed.

Lemma transfer_request_fields (ext : externals) (a : upload_args) (w : world)
      (u : string) (f : list (string * json)) :
  is_transfer (transfer_request ext a w u f) = true
  /\ url (transfer_request ext a w u f) = u
  /\ via_session (transfer_request ext a w u f) = startswith u (domain (self w))
  /\ req_headers (transfer_request ext a w u f) = []
  /\ data (transfer_request ext a w u f) = Some (Fields (transfer_fields ext a w f))
  /\ files (transfer_request ext a w u f) = Some (up_basename a, remaining w).
Proof.
  unfold transfer_request. destruct (startswith u (domain (self w))); repeat split; reflexivity.
Qed.

Lemma wire_headers_transfer (ext : externals) (a : upload_args) (w : world)
      (u : string) (f : list (string * json)) :
  wire_headers (self w) (transfer_request ext a w u f)
  = if startswith u (domain (self w)) then session_headers (self w) else [].
Proof.
  unfold wire_headers.
  destruct (transfer_request_fields ext a w u f) as (_ & _ & -> & -> & _).
  destruct (startswith u (domain (self w))); reflexivity.
Qed.

(** Running a method along the answers that are given: as [exec_step],
    but an equation among the hypotheses decides a test where there is
    one. *)
Ltac directed_step :=
  exec_cbn;
  lazymatch goal with
  | |- _ (_, _, _) => fail
  | |- _ ?run =>
      let h := head_scrutinee run in
      lazymatch h with
      | _check_response _ _ _ _ => rewrite check_response_run
      | bind ?m ?f ?w => rewrite (bind_unfold m f w)
      | result_of_exn ?x =>
          first [ match goal with H : x = _ |- _ => rewrite H end | destruct x eqn:? ]
      | negb ?b =>
          first [ match goal with H : b = _ |- _ => rewrite H end | destruct b eqn:? ]
      | _ =>
          first [ match goal with H : h = _ |- _ => rewrite H end | destruct h eqn:? ]
      end
  end.

(** What the claim says, for every upload that is given no MD5 and whose
    [attrs] pass the check, on every network: if the stage request is
    answered with a 200 that names a storage URL and form fields, and the
    transfer to that URL is answered, then with a 201 from the storage, a
    distribution id in the stage answer and a 200 with a JSON body for the
    commit, the upload returns that body, having sent the three requests in
    this order; and with any other status from the storage the upload fails,
    having sent the stage request and the transfer and nothing else. *)
Lemma upload_phases (ext : externals) (net : network) (a : upload_args) (w : world)
      (r1 : response) (u : string) (f : list (string * json)) (d : option json) :
  up_md5 a = None ->
  reaches_server ext (Call_upload a) = true ->
  net (clock w) (stage_request ext a w) = Response r1 ->
  status_code r1 = 200%Z ->
  staged_fields r1 = Some (u, f, d) ->
  forall r2,
    net (S (clock w)) (transfer_request ext a w u f) = Response r2 ->
    (status_code r2 = 201%Z ->
     forall id r3 j,
       d = Some id ->
       net (S (S (clock w))) (commit_request a w id) = Response r3 ->
       status_code r3 = 200%Z ->
       body r3 = AsJson j ->
       result_in (upload ext net a w) = Ok j
       /\ map (fun x => (fst (fst x), snd x)) (sends (events_of (upload ext net a w)))
          = [(stage_request ext a w, Response r1);
             (transfer_request ext a w u f, Response r2);
             (commit_request a w id, Response r3)])
    /\ (status_code r2 <> 201%Z ->
        is_ok (result_in (upload ext net a w)) = false
        /\ map (fun x => (fst (fst x), snd x)) (sends (events_of (upload ext net a w)))
           = [(stage_request ext a w, Response r1);
              (transfer_request ext a w u f, Response r2)]).
Proof.
  intros Hm Hr H1 S1 Hst r2 H2.
  cbn [reaches_server] in Hr.
  assert (C1 : check_exn ext r1 [200%Z] = None).
  { apply check_exn_none. unfold status_allowed. cbn [existsb]. rewrite S1. reflexivity. }
  unfold staged_fields in Hst.
  destruct (body r1) as [[| | | | |dd]| |] eqn:B1; try discriminate.
  destruct (dict_get dd "post_url") as [[| | |u'| |]|] eqn:Pu; try discriminate.
  destruct (dict_get dd "form_data") as [[| | | | |f']|] eqn:Fd; try discriminate.
  inversion Hst; subst u' f' d. clear Hst.
  unfold stage_request, transfer_request, transfer_fields, commit_request, remaining in *.
  split.
  - intros S2 id r3 j Hd H3 S3 B3.
    assert (C3 : check_exn ext r3 [200%Z] = None).
    { apply check_exn_none. unfold status_allowed. cbn [existsb]. rewrite S3. reflexivity. }
    assert (E2 : (status_code r2 =? 201)%Z = true) by (apply Z.eqb_eq; exact S2).
    match goal with
    | |- ?G =>
        let P := eval pattern (upload ext net a w) in G in
        lazymatch P with ?p _ => set (Pr := p); change (Pr (upload ext net a w)) end
    end.
    unfold upload, send, res_json, subscript, setitem, json_startswith, ET_fromstring,
      local, compute_hash, fd_tell, fd_seek, fd_seek_end, fd_read_all, logger_info, emit,
      json_as_fields, json_as_url, py_str.
    destruct (up_attrs a) as [[| | | | |d0]|] eqn:Ea; try discriminate;
      destruct (up_sha256 a) as [sha|] eqn:Es; destruct (up_size a) as [sz|] eqn:Ez.
    all: repeat directed_step.
    all: exec_cbn.
    all: unfold Pr, result_in, events_of; cbn [fst snd]; split; [reflexivity|].
    all: read_sends; reflexivity.
  - intros S2.
    assert (E2 : (status_code r2 =? 201)%Z = false) by (apply Z.eqb_neq; exact S2).
    match goal with
    | |- ?G =>
        let P := eval pattern (upload ext net a w) in G in
        lazymatch P with ?p _ => set (Pr := p); change (Pr (upload ext net a w)) end
    end.
    unfold upload, send, res_json, subscript, setitem, json_startswith, ET_fromstring,
      local, compute_hash, fd_tell, fd_seek, fd_seek_end, fd_read_all, logger_info, emit,
      json_as_fields, json_as_url, py_str.
    destruct (up_attrs a) as [[| | | | |d0]|] eqn:Ea; try discriminate;
      destruct (up_sha256 a) as [sha|] eqn:Es; destruct (up_size a) as [sz|] eqn:Ez.
    all: repeat directed_step.
    all: exec_cbn.
    all: unfold Pr, result_in, events_of; cbn [fst snd]; split; [reflexivity|].
    all: read_sends; reflexivity.
Qed.

(** C2: the claim holds of the code except where the defect of C4 shows
    through.  On a network where the stage request succeeds and names a
    storage URL, a form-field map and a distribution id, where the storage
    answers the transfer with 201 and the server the commit with 200, an
    upload without an MD5 returns the commit's body; the same upload given an
    MD5 is answered alike and ends in [UnboundLocalError] after the stage
    request: the transfer and the commit are never sent. *)
Theorem upload_md5_given_stops_after_stage :
  let net := Sample.scripted [Sample.staged Sample.s3;
                              Sample.respond 201 [] Undecodable;
                              Sample.respond 200 [] (AsJson Sample.committed)] in
  let run := upload Sample.ext net (Sample.args (Some "kAFQmDzST7DWlj99KOF/cg==")) Sample.w0 in
  staged_fields (Sample.staged Sample.s3)
  = Some (Sample.s3, [("key", JStr "alice/pkg/1.0/pkg-1.0.tar.bz2")], Some (JStr "5f3c"))
  /\ result_in (upload Sample.ext net (Sample.args None) Sample.w0) = Ok Sample.committed
  /\ result_in run = Raise (UnboundLocalError "b64md5")
  /\ map snd (sends (events_of run)) = [Response (Sample.staged Sample.s3)].
Proof. cbv zeta. repeat split; reflexivity. Qed.

(** C3, as claimed, fails: the storage URL of a look-alike host begins with
    the base endpoint without being on its origin, and the transfer goes to
    it through the session, the token on the wire. *)
Lemma upload_lookalike_authenticated :
  let run := upload Sample.ext
               (Sample.scripted [Sample.staged Sample.lookalike;
                                 Sample.respond 201 [] Undecodable;
                                 Sample.respond 200 [] (AsJson Sample.committed)])
               (Sample.args None) Sample.w0 in
  same_origin Sample.lookalike (domain Sample.session) = false
  /\ exists q h o,
      nth_error (sends (events_of run)) 1 = Some (q, h, o)
      /\ is_transfer q = true
      /\ url q = Sample.lookalike
      /\ via_session q = true
      /\ header_get h "Authorization" = Some "token s3cr3t".
Proof.
  cbv zeta. split; [reflexivity|].
  eexists. eexists. eexists. split; [reflexivity|]. repeat split; reflexivity.
Qed.

(** C3, amended: the storage transfer of an upload goes through the
    session, carrying the session's headers, exactly when the storage URL, as
    a string, starts with the base endpoint; otherwise it goes through the
    [requests] module and carries none of the session's headers. *)
Theorem upload_transfer_routing (ext : externals) (net : network) (a : upload_args)
        (w : world) (q : request) (h : headers) (o : outcome) :
  In (q, h, o) (sends (events_of (upload ext net a w))) ->
  is_transfer q = true ->
  via_session q = startswith (url q) (domain (self w))
  /\ h = if startswith (url q) (domain (self w)) then session_headers (self w) else [].
Proof.
  intros Hin Ht. pose proof (upload_run ext net a w) as P. unfold shape_of in P.
  assert (Stage : is_transfer (stage_request ext a w) = false) by reflexivity.
  assert (Commit : forall d, is_transfer (commit_request a w d) = false) by reflexivity.
  assert (Transfer : forall u f,
             q = transfer_request ext a w u f ->
             h = wire_headers (self w) q ->
             via_session q = startswith (url q) (domain (self w))
             /\ h = if startswith (url q) (domain (self w))
                    then session_headers (self w) else []).
  { intros u f -> ->. rewrite wire_headers_transfer.
    destruct (transfer_request_fields ext a w u f) as (_ & -> & -> & _).
    split; reflexivity. }
  set (ss := sends (events_of (upload ext net a w))) in *. clearbody ss.
  destruct ss as [|[[q1 h1] o1] [|[[q2 h2] o2] [|[[q3 h3] o3] [|x rest]]]];
    cbn [upload_shape] in P; try contradiction.
  - destruct P as (Hq1 & _). destruct Hin as [E|[]]. inversion E; subst. congruence.
  - destruct P as (Hq1 & _ & _ & P). destruct o1 as [what|r1]; [contradiction|].
    destruct (staged_fields r1) as [[[u f] d]|]; [|contradiction].
    destruct P as (Hq2 & Hh2 & _).
    destruct Hin as [E|[E|[]]]; inversion E; subst q h o; [congruence|].
    apply (Transfer u f); assumption.
  - destruct P as (Hq1 & _ & _ & P). destruct o1 as [what|r1]; [contradiction|].
    destruct o2 as [what|r2]; [contradiction|].
    destruct (staged_fields r1) as [[[u f] [d|]]|]; try contradiction.
    destruct P as (Hq2 & Hh2 & _ & Hq3 & _).
    destruct Hin as [E|[E|[E|[]]]]; inversion E; subst q h o.
    + congruence.
    + apply (Transfer u f); assumption.
    + rewrite Hq3, Commit in Ht. discriminate.
Qed.

Lemma upload_transfer_routing_witness :
  exists q h o,
    In (q, h, o)
       (sends (events_of (upload Sample.ext
                            (Sample.scripted [Sample.staged Sample.s3;
                                              Sample.respond 201 [] Undecodable;
                                              Sample.respond 200 [] (AsJson Sample.committed)])
                            (Sample.args None) Sample.w0)))
    /\ is_transfer q = true
    /\ via_session q = false /\ h = [].
Proof.
  eexists. eexists. eexists.
  assert (Hin : In (transfer_request Sample.ext (Sample.args None) Sample.w0 Sample.s3
                      [("key", JStr "alice/pkg/1.0/pkg-1.0.tar.bz2")],
                    @nil (string * string),
                    Response (Sample.respond 201 [] Undecodable))
                   (sends (events_of (upload Sample.ext
                            (Sample.scripted [Sample.staged Sample.s3;
                                              Sample.respond 201 [] Undecodable;
                                              Sample.respond 200 [] (AsJson Sample.committed)])
                            (Sample.args None) Sample.w0)))).
  { right. left. reflexivity. }
  split; [exact Hin|]. split; [reflexivity|].
  exact (upload_transfer_routing Sample.ext _ (Sample.args None) Sample.w0 _ _ _ Hin eq_refl).
Defined.

(** C4: the claim is right and the code is not.  With an MD5 supplied by
    the caller, [b64md5] is never bound: the upload stages the file, derives
    the size by seeking to the end and back, and then ends in
    [UnboundLocalError] before any storage request is made. *)
Theorem upload_with_md5_unbound :
  let run := upload Sample.ext
               (Sample.scripted [Sample.staged Sample.s3;
                                 Sample.respond 201 [] Undecodable;
                                 Sample.respond 200 [] (AsJson Sample.committed)])
               (Sample.args (Some "kAFQmDzST7DWlj99KOF/cg==")) Sample.w0 in
  result_in run = Raise (UnboundLocalError "b64md5")
  /\ map (fun x => url (fst (fst x))) (sends (events_of run))
     = ["https://api.anaconda.org/stage/alice/pkg/1.0/pkg-1.0.tar.bz2"]
  /\ pos (fd (world_of run)) = pos (fd Sample.w0).
Proof. cbv zeta. repeat split; reflexivity. Qed.

(** The same for every upload that is given an MD5: at most the stage
    request is sent, and the upload fails. *)
Lemma upload_md5_supplied (ext : externals) (net : network) (a : upload_args) (w : world)
      (m : string) :
  up_md5 a = Some m ->
  List.length (sends (events_of (upload ext net a w))) <= 1
  /\ is_ok (result_in (upload ext net a w)) = false.
Proof.
  intros Hm. pose proof (upload_run ext net a w) as P. unfold shape_of in P.
  set (ss := sends (events_of (upload ext net a w))) in *. clearbody ss.
  destruct ss as [|[[q1 h1] o1] [|[[q2 h2] o2] [|[[q3 h3] o3] [|x rest]]]];
    cbn [upload_shape] in P; try contradiction.
  - split; [cbn; lia | exact P].
  - split; [cbn; lia | apply P].
  - destruct P as (_ & _ & N & _). congruence.
  - destruct P as (_ & _ & N & _). congruence.
Qed.

(** Without an MD5 from the caller, the form fields of the transfer are
    those of the stage answer with ['Content-Length'] set to the byte count
    and ['Content-MD5'] to the base64 MD5 of the bytes from the read offset
    on. *)
Lemma upload_md5_computed (ext : externals) (net : network) (a : upload_args) (w : world)
      (q : request) (h : headers) (o : outcome) :
  In (q, h, o) (sends (events_of (upload ext net a w))) ->
  is_transfer q = true ->
  up_md5 a = None
  /\ exists f, data q = Some (Fields f)
               /\ dict_get f "Content-MD5" = Some (JStr (b64digest ext md5_alg (remaining w)))
               /\ dict_get f "Content-Length"
                  = Some (JNum (match up_size a with
                                | Some n => n
                                | None => Z.of_nat (List.length (remaining w))
                                end)).
Proof.
  intros Hin Ht. pose proof (upload_run ext net a w) as P. unfold shape_of in P.
  assert (Stage : is_transfer (stage_request ext a w) = false) by reflexivity.
  assert (Commit : forall d, is_transfer (commit_request a w d) = false) by reflexivity.
  assert (Transfer : forall u f0,
             q = transfer_request ext a w u f0 ->
             exists f, data q = Some (Fields f)
               /\ dict_get f "Content-MD5" = Some (JStr (b64digest ext md5_alg (remaining w)))
               /\ dict_get f "Content-Length"
                  = Some (JNum (match up_size a with
                                | Some n => n
                                | None => Z.of_nat (List.length (remaining w))
                                end))).
  { intros u f0 ->. exists (transfer_fields ext a w f0).
    split; [apply transfer_request_fields|]. unfold transfer_fields. split.
    - apply dict_get_set_same.
    - rewrite dict_get_set_other by reflexivity. apply dict_get_set_same. }
  set (ss := sends (events_of (upload ext net a w))) in *. clearbody ss.
  destruct ss as [|[[q1 h1] o1] [|[[q2 h2] o2] [|[[q3 h3] o3] [|x rest]]]];
    cbn [upload_shape] in P; try contradiction.
  - destruct P as (Hq1 & _). destruct Hin as [E|[]]. inversion E; subst. congruence.
  - destruct P as (Hq1 & _ & Hm & P). destruct o1 as [what|r1]; [contradiction|].
    destruct (staged_fields r1) as [[[u f] d]|]; [|contradiction].
    destruct P as (Hq2 & _).
    destruct Hin as [E|[E|[]]]; inversion E; subst q h o; [congruence|].
    split; [exact Hm | apply (Transfer u f); assumption].
  - destruct P as (Hq1 & _ & Hm & P). destruct o1 as [what|r1]; [contradiction|].
    destruct o2 as [what|r2]; [contradiction|].
    destruct (staged_fields r1) as [[[u f] [d|]]|]; try contradiction.
    destruct P as (Hq2 & _ & _ & Hq3 & _).
    destruct Hin as [E|[E|[E|[]]]]; inversion E; subst q h o.
    + congruence.
    + split; [exact Hm | apply (Transfer u f); assumption].
    + rewrite Hq3, Commit in Ht. discriminate.
Qed.

(** C7: the claim is right and the code is not.  A storage answer other
    than 201 whose body is not XML (here a 500 with a plain-text body) ends
    the upload in the XML parser's [ParseError], not in a typed API error
    carrying the 500. *)
Theorem upload_storage_error_not_xml :
  let run := upload Sample.ext
               (Sample.scripted [Sample.staged Sample.s3;
                                 mkResponse 500 [] "Internal Server Error" Undecodable
                                            "POST" Sample.s3;
                                 Sample.respond 200 [] (AsJson Sample.committed)])
               (Sample.args None) Sample.w0 in
  result_in run = Raise ParseError
  /\ api_status ParseError = None
  /\ List.length (sends (events_of run)) = 2.
Proof. cbv zeta. repeat split; reflexivity. Qed.

(** How an upload ends on every storage answer other than 201: in the typed
    error carrying the storage status when the body is XML with a [Code]
    child, its message ending with the note on the checksum exactly when the
    code is [InvalidDigest]; in [AttributeError] when the XML has no [Code];
    in [ParseError] when the body is not XML. *)
Lemma upload_transfer_failure (ext : externals) (net : network) (a : upload_args) (w : world)
      (q1 q2 : request) (h1 h2 : headers) (o1 : outcome) (r2 : response)
      (rest : list (request * headers * outcome)) :
  sends (events_of (upload ext net a w)) = (q1, h1, o1) :: (q2, h2, Response r2) :: rest ->
  status_code r2 <> 201%Z ->
  result_in (upload ext net a w) = Raise (transfer_error r2)
  /\ (forall x code,
         body r2 = AsXml x -> element_find x "Code" = Some code ->
         transfer_error r2
         = ApiError BinstarError
                    (JStr ("Error uploading package!"
                           ++ match element_text code with
                              | Some "InvalidDigest" =>
                                  " The Content-MD5 or checksum value is not valid."
                              | _ => ""
                              end))
                    (Some (status_code r2)))
  /\ (forall x, body r2 = AsXml x -> element_find x "Code" = None ->
                transfer_error r2 = AttributeError "text")
  /\ ((forall x, body r2 <> AsXml x) -> transfer_error r2 = ParseError).
Proof.
  intros Hs Hne. split; [|split; [|split]].
  - pose proof (upload_run ext net a w) as P. unfold shape_of in P. rewrite Hs in P.
    destruct rest as [|[[q3 h3] o3] [|x rest]]; cbn [upload_shape] in P; [| |contradiction].
    + destruct P as (_ & _ & _ & P).
      destruct o1 as [what|r1]; [contradiction|].
      destruct (staged_fields r1) as [[[u f] d]|]; [|contradiction].
      destruct P as (_ & _ & P).
      destruct (status_code r2 =? 201)%Z eqn:E; [|exact P].
      apply Z.eqb_eq in E. contradiction.
    + destruct P as (_ & _ & _ & P).
      destruct o1 as [what|r1]; [contradiction|].
      destruct (staged_fields r1) as [[[u f] [d|]]|]; try contradiction.
      destruct P as (_ & _ & H201 & _). contradiction.
  - intros x code Hx Hc. unfold transfer_error, msg_tail_of. rewrite Hx, Hc. reflexivity.
  - intros x Hx Hc. unfold transfer_error. rewrite Hx, Hc. reflexivity.
  - intros Hx. unfold transfer_error. destruct (body r2) as [j|x|]; try reflexivity.
    exfalso. apply (Hx x). reflexivity.
Qed.

(** ** C5: the download *)

(** C5: the claim holds of the code except where the defect of C1 shows
    through.  A 404 answer to the download whose body is the JSON array [[]]
    ends in [AttributeError], not in the typed [NotFound]. *)
Theorem download_404_json_array :
  let run := download Sample.ext
               (Sample.always (Sample.respond 404 [] (AsJson (JList []))))
               "alice" "pkg" "1.0" "pkg-1.0.tar.bz2" None Sample.w0 in
  result_in run = Raise (AttributeError "get")
  /\ List.length (sends (events_of run)) = 1.
Proof. cbv zeta. split; reflexivity. Qed.

(** What the download does on every answer: the first request goes through
    the session with redirects off; a 200 returns the answer itself, a 304
    returns [None], each without a second request; a 302 with a location is
    followed by exactly one streaming GET to that location, made outside the
    session with none of its headers on the wire, whose answer is returned;
    and a status outside 200, 302, 304 whose body is not JSON or is a JSON
    object raises the typed error of the status. *)
Lemma download_resolves (ext : externals) (net : network) (l p r b : string)
      (m : option string) (w : world)
      (q1 : request) (h1 : headers) (r1 : response)
      (rest : list (request * headers * outcome)) :
  sends (events_of (download ext net l p r b m w)) = (q1, h1, Response r1) :: rest ->
  (via_session q1 = true /\ allow_redirects q1 = false
   /\ url q1 = download_url (self w) l p r b)
  /\ (status_code r1 = 200%Z ->
      rest = [] /\ result_in (download ext net l p r b m w) = Ok (Some r1))
  /\ (status_code r1 = 304%Z ->
      rest = [] /\ result_in (download ext net l p r b m w) = Ok None)
  /\ (status_code r1 = 302%Z ->
      forall location, header_get (res_headers r1) "location" = Some location ->
        exists o2, rest = [(redirect_request location, [], o2)]
                   /\ via_session (redirect_request location) = false
                   /\ stream (redirect_request location) = true
                   /\ result_in (download ext net l p r b m w)
                      = match o2 with
                        | Failed what => Raise (TransportError what)
                        | Response r2 => Ok (Some r2)
                        end)
  /\ (status_allowed r1 download_set = false -> body_has_get r1 = true ->
      rest = [] /\
      exists msg, result_in (download ext net l p r b m w)
                  = Raise (ApiError (select_ErrCls (status_code r1)) msg
                                    (Some (status_code r1)))).
Proof.
  intros Hs. pose proof (download_run ext net l p r b m w) as P.
  unfold download_shape_of in P. rewrite Hs in P.
  assert (Q1 : forall q, q = download_request (self w) l p r b m ->
                         via_session q = true /\ allow_redirects q = false
                         /\ url q = download_url (self w) l p r b).
  { intros q ->. repeat split; reflexivity. }
  assert (Allowed : forall st, status_code r1 = st ->
                               existsb (Z.eqb st) download_set = true ->
                               check_exn ext r1 download_set = None).
  { intros st <- H. apply check_exn_none. exact H. }
  destruct rest as [|[[q2 h2] o2] [|x rest]]; cbn [download_shape] in P; [| |contradiction].
  - destruct P as (Hq1 & _ & P). split; [apply Q1; exact Hq1|].
    split; [|split; [|split]].
    + intros H200. rewrite (Allowed 200%Z H200 eq_refl), H200 in P. split; [reflexivity|exact P].
    + intros H304. rewrite (Allowed 304%Z H304 eq_refl), H304 in P. split; [reflexivity|exact P].
    + intros H302 location Hloc. rewrite (Allowed 302%Z H302 eq_refl), H302 in P.
      cbn in P. destruct P as (_ & N & _). congruence.
    + intros Ha Hb. split; [reflexivity|].
      pose proof (check_response_typed ext r1 download_set w Ha Hb) as [msg Hm].
      rewrite check_response_result in Hm. exists msg.
      destruct (check_exn ext r1 download_set) as [e|]; [|discriminate].
      cbn in Hm. rewrite P. inversion Hm. reflexivity.
  - destruct P as (Hq1 & _ & Hc & H302 & P). split; [apply Q1; exact Hq1|].
    split; [|split; [|split]].
    + intros H200. rewrite H302 in H200. discriminate.
    + intros H304. rewrite H302 in H304. discriminate.
    + intros _ location Hloc. rewrite Hloc in P. destruct P as (-> & -> & ->).
      exists o2. repeat split; reflexivity.
    + intros Ha. apply check_exn_none in Hc. congruence.
Qed.

(** * Further properties *)

Lemma startswith_refl (s : string) : startswith s s = true.
Proof.
  unfold startswith. induction s as [|c s IH]; [reflexivity|]. cbn.
  destruct (ascii_dec c c) as [_|N]; [exact IH | exfalso; apply N; reflexivity].
Qed.

Lemma mark_warned_headers (s : Binstar) (res : response) :
  session_headers (mark_warned s res) = session_headers s.
Proof. apply mark_warned_fields. Qed.

Lemma mark_warned_verify (s : Binstar) (res : response) :
  session_verify (mark_warned s res) = session_verify s.
Proof. apply mark_warned_fields. Qed.

Lemma mark_warned_token (s : Binstar) (res : response) :
  token (mark_warned s res) = token s.
Proof. unfold mark_warned. destruct (_ && _); reflexivity. Qed.

Ltac confine :=
  repeat match goal with
         | |- Forall _ [] => constructor
         | |- Forall _ (_ :: _) => constructor
         | |- confined _ _ => cbn
         | |- startswith (?d ++ _) ?d = true => apply startswith_append
         | |- startswith ?d ?d = true => apply startswith_refl
         | |- prefix ?d (?d ++ _) = true => apply startswith_append
         | |- prefix ?d ?d = true => apply startswith_refl
         | |- context [if ?b then _ else _] => destruct b
         | |- _ = _ => reflexivity
         end.

Ltac profile_leaf :=
  unfold call_profile, session_after, world_of;
  read_sends;
  cbn [self fst snd Datatypes.length max_requests is_authenticate];
  rewrite ?mark_warned_headers, ?mark_warned_verify, ?mark_warned_token;
  split; [lia|]; split; [confine | repeat split; reflexivity].

Ltac exec_call :=
  cbn [run_call]; rewrite returning_run;
  unfold check_server, authentication_type, krb_authenticate, authenticate, _authenticate,
    list_scopes, authentication, authentications, remove_authentication, user,
    user_packages, package, package_add_collaborator, package_remove_collaborator,
    package_collaborators, all_packages, add_package, update_package, update_release,
    remove_package, release, remove_release, add_release, distribution, remove_dist,
    search, user_licenses,
    try_except, session_headers_update, send, res_json, subscript, setitem;
  repeat exec_step; exec_cbn.

Lemma run_call_profile_simple (ext : externals) (net : network) (c : call) (w : world) :
  match c with
  | Call_upload _ | Call_download _ _ _ _ _ => True
  | _ => call_profile c w (run_call ext net c w)
  end.
Proof.
  destruct c; try exact I.
  all: exec_call.
  all: profile_leaf.
Qed.

Lemma returning_parts {A : Type} (f : A -> retval) (m : M A) (w : world) :
  events_of (returning f m w) = events_of (m w)
  /\ world_of (returning f m w) = world_of (m w)
  /\ result_in (returning f m w)
     = match result_in (m w) with Ok a => Ok (f a) | Raise e => Raise e end.
Proof.
  rewrite returning_run. destruct (m w) as [[[a|e] w'] evs]; repeat split; reflexivity.
Qed.

Lemma send_keeps_session (net : network) (q : request) : sat keeps_session (send net q).
Proof.
  intros w. destruct (send_run net q w) as (r & evs & -> & _). repeat split; reflexivity.
Qed.

Lemma check_response_keeps_session (ext : externals) (res : response) (allowed : list Z) :
  sat keeps_session (_check_response ext res allowed).
Proof.
  intros w. rewrite check_response_run. unfold keeps_session. cbn [self].
  rewrite mark_warned_headers, mark_warned_verify, mark_warned_token. repeat split; reflexivity.
Qed.

Lemma keeps_session_seq (x y : option pyexn) (w w1 w2 : world) (e1 e2 : list event) :
  keeps_session x w w1 e1 -> keeps_session y w1 w2 e2 -> keeps_session y w w2 (e1 ++ e2).
Proof.
  unfold keeps_session. intros (A1 & A2 & A3) (B1 & B2 & B3).
  repeat split; congruence.
Qed.

Lemma upload_keeps_session (ext : externals) (net : network) (a : upload_args) :
  sat keeps_session (upload ext net a).
Proof.
  apply sat_upload.
  - intros w. repeat split; reflexivity.
  - intros x w w1 w2 e1 e2. apply keeps_session_seq.
  - intros e w. repeat split; reflexivity.
  - apply send_keeps_session.
  - intros msg w. repeat split; reflexivity.
  - intros w f. repeat split; reflexivity.
  - apply check_response_keeps_session.
Qed.

Lemma download_keeps_session (ext : externals) (net : network) (l p r b : string)
      (m : option string) :
  sat keeps_session (download ext net l p r b m).
Proof.
  apply sat_download.
  - intros w. repeat split; reflexivity.
  - intros x w w1 w2 e1 e2. apply keeps_session_seq.
  - intros e w. repeat split; reflexivity.
  - apply send_keeps_session.
  - apply check_response_keeps_session.
Qed.

Lemma session_after_kept {A : Type} (c : call) (f : A -> retval) (m : M A) (w : world) :
  is_authenticate c = false ->
  sat keeps_session m ->
  session_after c (self w) (returning f m w).
Proof.
  intros Hc Hm. specialize (Hm w). unfold session_after.
  destruct (returning_parts f m w) as (_ & -> & ->).
  destruct (m w) as [[r w'] evs]. unfold keeps_session in Hm.
  unfold world_of, result_in. cbn [fst snd]. destruct Hm as (H1 & H2 & H3).
  rewrite Hc. repeat split; try assumption.
  destruct r as [a|e]; [destruct (f a)|]; assumption.
Qed.

Lemma upload_confined (ext : externals) (net : network) (a : upload_args) (w : world) :
  List.length (sends (events_of (upload ext net a w))) <= 3
  /\ Forall (confined w) (sends (events_of (upload ext net a w))).
Proof.
  pose proof (upload_run ext net a w) as P. unfold shape_of in P.
  assert (Stage : confined w (stage_request ext a w, wire_headers (self w) (stage_request ext a w),
                              Failed "") ) by (cbn; apply startswith_append).
  assert (Q1 : forall q h o, q = stage_request ext a w -> confined w (q, h, o)).
  { intros q h o ->. cbn. apply startswith_append. }
  assert (Q3 : forall q h o d, q = commit_request a w d -> confined w (q, h, o)).
  { intros q h o d ->. cbn. apply startswith_append. }
  assert (Q2 : forall q h o u f, q = transfer_request ext a w u f ->
                                 h = wire_headers (self w) q -> confined w (q, h, o)).
  { intros q h o u f -> ->. unfold confined. rewrite wire_headers_transfer.
    destruct (transfer_request_fields ext a w u f) as (_ & -> & -> & _).
    destruct (startswith u (domain (self w))); reflexivity. }
  clear Stage.
  set (ss := sends (events_of (upload ext net a w))) in *. clearbody ss.
  destruct ss as [|[[q1 h1] o1] [|[[q2 h2] o2] [|[[q3 h3] o3] [|x rest]]]];
    cbn [upload_shape] in P; try contradiction.
  - split; [cbn; lia | constructor].
  - destruct P as (Hq1 & _). split; [cbn; lia|].
    apply Forall_cons; [apply Q1; exact Hq1 | apply Forall_nil].
  - destruct P as (Hq1 & _ & _ & P). destruct o1 as [what|r1]; [contradiction|].
    destruct (staged_fields r1) as [[[u f] d]|]; [|contradiction].
    destruct P as (Hq2 & Hh2 & _). split; [cbn; lia|].
    apply Forall_cons; [apply Q1; exact Hq1|].
    apply Forall_cons; [apply (Q2 _ _ _ u f); assumption | apply Forall_nil].
  - destruct P as (Hq1 & _ & _ & P). destruct o1 as [what|r1]; [contradiction|].
    destruct o2 as [what|r2]; [contradiction|].
    destruct (staged_fields r1) as [[[u f] [d|]]|]; try contradiction.
    destruct P as (Hq2 & Hh2 & _ & Hq3 & _). split; [cbn; lia|].
    apply Forall_cons; [apply Q1; exact Hq1|].
    apply Forall_cons; [apply (Q2 _ _ _ u f); assumption|].
    apply Forall_cons; [apply (Q3 _ _ _ d); exact Hq3 | apply Forall_nil].
Qed.

Lemma download_confined (ext : externals) (net : network) (l p r b : string)
      (m : option string) (w : world) :
  List.length (sends (events_of (download ext net l p r b m w))) <= 2
  /\ Forall (confined w) (sends (events_of (download ext net l p r b m w))).
Proof.
  pose proof (download_run ext net l p r b m w) as P. unfold download_shape_of in P.
  assert (Q1 : forall q h o, q = download_request (self w) l p r b m -> confined w (q, h, o)).
  { intros q h o ->. cbn. apply startswith_append. }
  set (ss := sends (events_of (download ext net l p r b m w))) in *. clearbody ss.
  destruct ss as [|[[q1 h1] o1] [|[[q2 h2] o2] [|x rest]]];
    cbn [download_shape] in P; try contradiction.
  - destruct P as (Hq1 & _). split; [cbn; lia|].
    apply Forall_cons; [apply Q1; exact Hq1 | apply Forall_nil].
  - destruct P as (Hq1 & _ & P). destruct o1 as [what|r1]; [contradiction|].
    destruct P as (_ & _ & P).
    destruct (header_get (res_headers r1) "location") as [loc|]; [|contradiction].
    destruct P as (-> & -> & _). split; [cbn; lia|].
    apply Forall_cons; [apply Q1; exact Hq1|].
    apply Forall_cons; [reflexivity | apply Forall_nil].
Qed.

Lemma run_call_profile (ext : externals) (net : network) (c : call) (w : world) :
  call_profile c w (run_call ext net c w).
Proof.
  pose proof (run_call_profile_simple ext net c w) as H.
  destruct c; try exact H; cbn [run_call]; unfold call_profile.
  - match goal with
    | |- context [download ext net ?l ?p ?r ?b ?m] =>
        destruct (returning_parts r_stream (download ext net l p r b m) w) as (E & _);
        rewrite E; destruct (download_confined ext net l p r b m w);
        repeat split; try assumption;
        (apply (session_after_kept (Call_download l p r b m));
         [reflexivity | apply download_keeps_session])
    end.
  - destruct (returning_parts RJson (upload ext net a) w) as (E & _).
    rewrite E. destruct (upload_confined ext net a w).
    repeat split; try assumption.
    all: apply (session_after_kept (Call_upload a));
      [reflexivity | apply upload_keeps_session].
Qed.

(** ** Headers *)

Lemma header_get_set_same (h : headers) (k v : string) :
  header_get (header_set h k v) k = Some v.
Proof.
  induction h as [|[k0 v0] h IH]; cbn.
  - rewrite String.eqb_refl. reflexivity.
  - destruct (lower k0 =? lower k) eqn:E; cbn.
    + rewrite String.eqb_refl. reflexivity.
    + rewrite E. exact IH.
Qed.

Lemma header_get_set_other (h : headers) (k k' v : string) :
  (lower k =? lower k') = false ->
  header_get (header_set h k v) k' = header_get h k'.
Proof.
  intros N. induction h as [|[k0 v0] h IH]; cbn.
  - rewrite N. reflexivity.
  - destruct (lower k0 =? lower k) eqn:E; cbn.
    + apply String.eqb_eq in E. rewrite E, N. reflexivity.
    + destruct (lower k0 =? lower k'); [reflexivity | exact IH].
Qed.

Lemma header_get_app (h1 h2 : headers) (k : string) :
  header_get (h1 ++ h2)%list k
  = match header_get h1 k with Some v => Some v | None => header_get h2 k end.
Proof.
  induction h1 as [|[k0 v0] h1 IH]; cbn; [reflexivity|].
  destruct (lower k0 =? lower k); [reflexivity | exact IH].
Qed.

(** [h.update(upd)]: a name set by [upd] gets its last value there, every
    other name keeps the value it had. *)
Lemma header_get_update (h upd : headers) (k : string) :
  header_get (headers_update h upd) k
  = match header_get (rev upd) k with Some v => Some v | None => header_get h k end.
Proof.
  unfold headers_update. revert h. induction upd as [|[k0 v0] upd IH]; intros h.
  - reflexivity.
  - cbn [fold_left fst snd rev]. rewrite IH, header_get_app.
    destruct (header_get (rev upd) k) as [v|]; [reflexivity|].
    cbn [header_get]. destruct (lower k0 =? lower k) eqn:E.
    + apply String.eqb_eq in E.
      assert (H : header_get (header_set h k0 v0) k0 = Some v0) by apply header_get_set_same.
      clear IH. revert H. generalize (header_set h k0 v0). intros h'.
      induction h' as [|[k1 v1] h' IH']; cbn; [discriminate|].
      rewrite <- E. destruct (lower k1 =? lower k0); [intros H; exact H | exact IH'].
    + apply header_get_set_other. exact E.
Qed.

(** ** X1: where the session goes *)

Lemma confined_domain (w w1 : world) (x : request * headers * outcome) :
  domain (self w1) = domain (self w) -> confined w1 x -> confined w x.
Proof. intros E. destruct x as [[q h] o]. unfold confined. rewrite E. intros H; exact H. Qed.

(** X1: over any sequence of calls, a request made through the session goes
    to a URL that begins with the base endpoint, and a request made outside
    the session carries no header at all. *)
Theorem session_confined_to_endpoint (ext : externals) (net : network) (cs : list call)
        (w : world) :
  Forall (confined w) (sends (events_of (perform ext net cs w))).
Proof.
  revert w. induction cs as [|c cs IH]; intros w; [constructor|].
  cbn [perform].
  destruct (run_call_profile ext net c w) as (_ & Hc & _).
  pose proof (run_call_keeps_domain ext net c w) as Hd.
  destruct (run_call ext net c w) as [[r w1] e1]. specialize (IH w1).
  destruct (perform ext net cs w1) as [[rs w2] e2].
  unfold events_of, keeps_domain in *. cbn [fst snd] in *.
  rewrite sends_app. apply Forall_app. split; [exact Hc|].
  eapply Forall_impl; [|exact IH]. intros x. apply confined_domain. exact Hd.
Qed.

(** ** X2: how many requests a call makes *)

Lemma run_call_ticks (ext : externals) (net : network) (c : call) :
  sat ticks (run_call ext net c).
Proof.
  apply sat_run_call; unfold ticks.
  - intros w. cbn. lia.
  - intros x w w1 w2 e1 e2 H1 H2. rewrite sends_app, length_app. lia.
  - intros e w. cbn. lia.
  - intros q w. unfold send. destruct (net (clock w) q); cbn; lia.
  - intros msg w. cbn. lia.
  - intros w f. cbn. lia.
  - intros upd w. cbn. lia.
  - intros res allowed w. rewrite check_response_run. cbn [clock].
    rewrite !sends_app, sends_check_warnings, sends_check_swallowed, sends_raised_of_exn.
    cbn. lia.
  - intros e x w w1 w2 e1 e2 H1 H2. rewrite sends_app, length_app. lia.
Qed.

(** X2: a call makes at most one round trip, [download] at most two and
    [upload] at most three, and the session's round-trip counter advances by
    exactly the requests sent: no request is repeated. *)
Theorem requests_bounded (ext : externals) (net : network) (c : call) (w : world) :
  List.length (sends (events_of (run_call ext net c w)))
  <= match c with
     | Call_upload _ => 3
     | Call_download _ _ _ _ _ => 2
     | _ => 1
     end
  /\ clock (world_of (run_call ext net c w))
     = clock w + List.length (sends (events_of (run_call ext net c w))).
Proof.
  split.
  - destruct (run_call_profile ext net c w) as (H & _). exact H.
  - pose proof (run_call_ticks ext net c w) as H.
    destruct (run_call ext net c w) as [[r w'] evs]. exact H.
Qed.

(** ** X3: what a sequence of calls leaves of the session *)

Lemma session_after_fields (c : call) (s : Binstar)
      (run : result retval * world * list event) :
  session_after c s run ->
  session_verify (self (world_of run)) = session_verify s
  /\ token (self (world_of run)) = token s
  /\ forall k, (lower k =? "authorization") = false ->
               header_get (session_headers (self (world_of run))) k
               = header_get (session_headers s) k.
Proof.
  intros (H1 & H2 & H3). split; [exact H1|]. split; [exact H2|].
  intros k Hk. rewrite H3.
  destruct (result_in run) as [[|tok|]|]; try reflexivity.
  destruct (is_authenticate c); [|reflexivity].
  rewrite header_get_update. cbn [rev app header_get].
  change (lower "Authorization") with "authorization".
  rewrite String.eqb_sym, Hk. reflexivity.
Qed.

(** X3: over any sequence of calls the TLS flag and the token field of the
    client keep the values the constructor gave them, and so does every
    session header other than [Authorization]. *)
Theorem session_fields_kept (ext : externals) (net : network) (cs : list call) (w : world) :
  session_verify (self (world_of (perform ext net cs w))) = session_verify (self w)
  /\ token (self (world_of (perform ext net cs w))) = token (self w)
  /\ forall k, (lower k =? "authorization") = false ->
               header_get (session_headers (self (world_of (perform ext net cs w)))) k
               = header_get (session_headers (self w)) k.
Proof.
  revert w. induction cs as [|c cs IH]; intros w; [repeat split; reflexivity|].
  cbn [perform].
  destruct (run_call_profile ext net c w) as (_ & _ & Hs).
  apply session_after_fields in Hs.
  destruct (run_call ext net c w) as [[r w1] e1]. specialize (IH w1).
  destruct (perform ext net cs w1) as [[rs w2] e2].
  unfold world_of in *. cbn [fst snd] in *.
  destruct Hs as (A1 & A2 & A3). destruct IH as (B1 & B2 & B3).
  split; [congruence|]. split; [congruence|].
  intros k Hk. rewrite B3, A3 by exact Hk. reflexivity.
Qed.

Lemma session_fields_kept_witness :
  header_get
    (session_headers
       (self (world_of (perform Sample.ext
                          (Sample.always (Sample.respond 200 []
                                            (AsJson (JDict [("token", JStr "n3w")]))))
                          [Call_authenticate "alice" "pw"
                             (mkAuthArgs JNull JNull JNull JNull JNull JNull (JStr "strong")
                                         false None);
                           Call_authentication]
                          Sample.w0))))
    "User-Agent"
  = header_get (session_headers (self Sample.w0)) "User-Agent".
Proof.
  apply (session_fields_kept Sample.ext). reflexivity.
Defined.

(** ** X4: authenticating *)



(** ** One request, one answer *)

Lemma bind_get_self {A : Type} (f : Binstar -> M A) (w : world) :
  events_of (bind get_self f w) = events_of (f (self w) w)
  /\ world_of (bind get_self f w) = world_of (f (self w) w)
  /\ result_in (bind get_self f w) = result_in (f (self w) w).
Proof.
  unfold bind, get_self. destruct (f (self w) w) as [[r w'] evs]. repeat split; reflexivity.
Qed.

(** Sending a request, classifying the answer and decoding it. *)
Lemma json_tail_run (ext : externals) (net : network) (q : request) (allowed : list Z)
      (w : world) :
  let m := (res <- send net q ;; _check_response ext res allowed ;; res_json res) in
  sends (events_of (m w)) = [(q, wire_headers (self w) q, net (clock w) q)]
  /\ result_in (m w) = json_reply ext allowed (net (clock w) q).
Proof.
  cbv zeta. unfold bind, send, json_reply.
  destruct (net (clock w) q) as [what|res]; [split; reflexivity|].
  rewrite check_response_run.
  destruct (check_exn ext res allowed) as [e|]; cbn [result_of_exn raised_of_exn].
  - unfold events_of, result_in. cbn [fst snd app sends].
    rewrite !sends_app, sends_check_warnings, sends_check_swallowed. split; reflexivity.
  - unfold res_json, raise, ret.
    destruct (body res); unfold events_of, result_in; cbn [fst snd app sends];
      rewrite ?sends_app, ?sends_check_warnings, ?sends_check_swallowed; split; reflexivity.
Qed.

Lemma plain_method (ext : externals) (net : network) (q : Binstar -> request) (w : world) :
  let m := returning RJson
             (s <- get_self ;; res <- send net (q s) ;;
              _check_response ext res [200%Z] ;; res_json res) in
  sends (events_of (m w)) = [(q (self w), wire_headers (self w) (q (self w)),
                              net (clock w) (q (self w)))]
  /\ result_in (m w)
     = match json_reply ext [200%Z] (net (clock w) (q (self w))) with
       | Ok j => Ok (RJson j)
       | Raise e => Raise e
       end.
Proof.
  cbv zeta.
  match goal with |- context [returning RJson ?m w] =>
    destruct (returning_parts RJson m w) as (-> & _ & ->) end.
  match goal with |- context [bind get_self ?f w] =>
    destruct (bind_get_self f w) as (-> & _ & ->) end.
  destruct (json_tail_run ext net (q (self w)) [200%Z] w) as (-> & ->).
  split; reflexivity.
Qed.

(** ** X5: the methods that return the decoded answer *)

(** X5: each of the methods that make one request and return [res.json()]
    asks the network once and returns the decoded body exactly when the
    answer has status 200 and a JSON body; a transport failure and a
    classification error reach the caller as they are, and a 200 whose body
    is not JSON raises [ValueError]. *)
Theorem json_methods_reply (ext : externals) (net : network) (c : call) (w : world) :
  returns_json c = true ->
  exists q,
    sends (events_of (run_call ext net c w))
    = [(q, wire_headers (self w) q, net (clock w) q)]
    /\ result_in (run_call ext net c w)
       = match net (clock w) q with
         | Failed what => Raise (TransportError what)
         | Response res =>
             match check_exn ext res [200%Z] with
             | Some e => Raise e
             | None =>
                 match body res with
                 | AsJson j => Ok (RJson j)
                 | _ => Raise (ValueError "No JSON object could be decoded")
                 end
             end
         end.
Proof.
  assert (G : forall (q : Binstar -> request) run,
             (sends (events_of run) = [(q (self w), wire_headers (self w) (q (self w)),
                                        net (clock w) (q (self w)))]
              /\ result_in run
                 = match json_reply ext [200%Z] (net (clock w) (q (self w))) with
                   | Ok j => Ok (RJson j)
                   | Raise e => Raise e
                   end) ->
             exists q0,
               sends (events_of run) = [(q0, wire_headers (self w) q0, net (clock w) q0)]
               /\ result_in run
                  = match net (clock w) q0 with
                    | Failed what => Raise (TransportError what)
                    | Response res =>
                        match check_exn ext res [200%Z] with
                        | Some e => Raise e
                        | None =>
                            match body res with
                            | AsJson j => Ok (RJson j)
                            | _ => Raise (ValueError "No JSON object could be decoded")
                            end
                        end
                    end).
  { intros q run [Hs Hr]. exists (q (self w)). split; [exact Hs|]. rewrite Hr.
    unfold json_reply. destruct (net (clock w) (q (self w))) as [what|res]; [reflexivity|].
    destruct (check_exn ext res [200%Z]); [reflexivity|]. destruct (body res); reflexivity. }
  intros Hc.
  unfold run_call, list_scopes, authentication, authentications, user, user_packages, package,
    package_collaborators, all_packages, update_package, update_release, release,
    add_release, distribution, search, user_licenses.
  destruct c; try discriminate; cbn [jencode]; eapply G; apply plain_method.
Qed.

Lemma json_methods_reply_witness :
  exists q,
    sends (events_of (run_call Sample.ext (Sample.always (Sample.respond 200 [] Undecodable))
                               Call_authentications Sample.w0))
    = [(q, wire_headers (self Sample.w0) q, Response (Sample.respond 200 [] Undecodable))]
    /\ result_in (run_call Sample.ext (Sample.always (Sample.respond 200 [] Undecodable))
                           Call_authentications Sample.w0)
       = Raise (ValueError "No JSON object could be decoded").
Proof.
  exact (json_methods_reply Sample.ext (Sample.always (Sample.respond 200 [] Undecodable))
                            Call_authentications Sample.w0 eq_refl).
Defined.

(** ** X6: reaching the server *)

(** X6: [check_server] makes one HEAD request to the base endpoint through
    the session and returns normally exactly when it is answered with status
    200. *)
Theorem check_server_reachable (ext : externals) (net : network) (w : world) :
  exists q,
    method q = "HEAD" /\ url q = domain (self w) /\ via_session q = true
    /\ sends (events_of (check_server ext net w))
       = [(q, wire_headers (self w) q, net (clock w) q)]
    /\ is_ok (result_in (check_server ext net w))
       = match net (clock w) q with
         | Failed _ => false
         | Response res => (status_code res =? 200)%Z
         end.
Proof.
  exists (with_allow_redirects false (session_ "HEAD" (domain (self w)))).
  split; [reflexivity|]. split; [reflexivity|]. split; [reflexivity|].
  unfold check_server, bind, try_except, get_self, send, raise.
  destruct (net (clock w) _) as [what|res]; [split; reflexivity|].
  rewrite check_response_run.
  pose proof (check_exn_none ext res [200%Z]) as Hn.
  unfold status_allowed in Hn. cbn [existsb] in Hn. rewrite orb_false_r in Hn.
  destruct (check_exn ext res [200%Z]) as [e|]; cbn [result_of_exn raised_of_exn].
  - assert (Hs : (status_code res =? 200)%Z = false).
    { destruct (status_code res =? 200)%Z; [|reflexivity].
      destruct Hn as [_ Hn]. specialize (Hn eq_refl). discriminate. }
    rewrite Hs. destruct (is_NotFound e); unfold events_of, result_in; cbn [fst snd app sends];
      rewrite ?sends_app, ?sends_check_warnings, ?sends_check_swallowed; split; reflexivity.
  - destruct Hn as [Hn _]. rewrite (Hn eq_refl).
    unfold events_of, result_in; cbn [fst snd app sends];
      rewrite ?sends_app, ?sends_check_warnings, ?sends_check_swallowed; split; reflexivity.
Qed.

Lemma bind_ret_parts {A B : Type} (a : A) (f : A -> M B) (w : world) :
  events_of (bind (ret a) f w) = events_of (f a w)
  /\ world_of (bind (ret a) f w) = world_of (f a w)
  /\ result_in (bind (ret a) f w) = result_in (f a w).
Proof.
  unfold bind, ret. destruct (f a w) as [[r w'] evs]. repeat split; reflexivity.
Qed.

(** ** X7: removing a distribution *)

(** X7: [remove_dist] without a basename and without an id raises
    [TypeError] before anything is sent and leaves the world as it was; with a
    basename it deletes [.../dist/owner/package/release/basename] and ignores
    the id; with an id alone it deletes [.../dist/owner/package/release/-/id]. *)
Theorem remove_dist_target (ext : externals) (net : network) (l p r : string)
        (b i : option string) (w : world) :
  if truthy b then
    exists h o,
      sends (events_of (remove_dist ext net l p r b i w))
      = [(session_ "DELETE" (domain (self w) ++ "/dist/" ++ l ++ "/" ++ p ++ "/" ++ r
                                    ++ "/" ++ pct_s b), h, o)]
  else if truthy i then
    exists h o,
      sends (events_of (remove_dist ext net l p r b i w))
      = [(session_ "DELETE" (domain (self w) ++ "/dist/" ++ l ++ "/" ++ p ++ "/" ++ r
                                    ++ "/-/" ++ pct_s i), h, o)]
  else
    remove_dist ext net l p r b i w
    = (Raise (TypeError "method remove_dist expects either 'basename' or '_id' arguments"),
       w,
       [Raised (TypeError "method remove_dist expects either 'basename' or '_id' arguments")]).
Proof.
  unfold remove_dist.
  destruct (truthy b); [|destruct (truthy i)].
  - match goal with |- context [bind get_self ?f w] =>
      destruct (bind_get_self f w) as (-> & _) end.
    match goal with |- context [bind (ret ?u) ?f w] =>
      destruct (bind_ret_parts u f w) as (-> & _) end.
    match goal with |- context [send net ?q] =>
      destruct (json_tail_run ext net q [200%Z] w) as [Hs _] end.
    cbv zeta in Hs. rewrite Hs. eexists. eexists. reflexivity.
  - match goal with |- context [bind get_self ?f w] =>
      destruct (bind_get_self f w) as (-> & _) end.
    match goal with |- context [bind (ret ?u) ?f w] =>
      destruct (bind_ret_parts u f w) as (-> & _) end.
    match goal with |- context [send net ?q] =>
      destruct (json_tail_run ext net q [200%Z] w) as [Hs _] end.
    cbv zeta in Hs. rewrite Hs. eexists. eexists. reflexivity.
  - destruct w. reflexivity.
Qed.

(** ** X8: listing a user's packages *)

(** X8: [user_packages] sends as query parameters exactly the filters that
    were given and are not empty, in the order platform, package_type, type,
    access, and asks [/packages/login] when a login is given and [/packages]
    otherwise. *)
Theorem user_packages_filters (ext : externals) (net : network)
        (login platform package_type type_ access : option string) (w : world) :
  exists q,
    sends (events_of (user_packages ext net login platform package_type type_ access w))
    = [(q, wire_headers (self w) q, net (clock w) q)]
    /\ url q = (if truthy login then domain (self w) ++ "/packages/" ++ pct_s login
                else domain (self w) ++ "/packages")
    /\ params q = (given "platform" platform ++ given "package_type" package_type
                   ++ given "type" type_ ++ given "access" access)%list.
Proof.
  unfold user_packages.
  match goal with |- context [bind get_self ?f w] =>
    destruct (bind_get_self f w) as (-> & _) end.
  cbv zeta.
  match goal with |- context [send net ?q] =>
    destruct (json_tail_run ext net q [200%Z] w) as [Hs _]; exists q end.
  cbv zeta in Hs. split; [exact Hs|]. split; [reflexivity|].
  unfold given. cbn [params with_params].
  destruct (truthy platform), (truthy package_type), (truthy type_), (truthy access);
    reflexivity.
Qed.

(** ** X9: the conditional download *)

(** X9: [download] sends the [ETag] header, with the md5 as its value,
    exactly when an md5 is given and is not the empty string. *)
Theorem download_etag (ext : externals) (net : network) (l p r b : string)
        (m : option string) (w : world) (q1 : request) (h1 : headers) (o1 : outcome)
        (rest : list (request * headers * outcome)) :
  sends (events_of (download ext net l p r b m w)) = (q1, h1, o1) :: rest ->
  header_get (req_headers q1) "ETag" = (if truthy m then m else None)
  /\ (truthy m = true -> header_get h1 "ETag" = m).
Proof.
  intros Hs. pose proof (download_run ext net l p r b m w) as P.
  unfold download_shape_of in P. rewrite Hs in P.
  assert (Hq : q1 = download_request (self w) l p r b m /\ h1 = wire_headers (self w) q1).
  { destruct rest as [|[[q2 h2] o2] [|x rest]]; cbn [download_shape] in P;
      [| |contradiction]; destruct P as (A & B & _); split; assumption. }
  destruct Hq as [-> ->]. unfold download_request.
  cbn [req_headers with_allow_redirects with_headers].
  destruct m as [s|]; cbn [truthy]; [|split; [reflexivity | discriminate]].
  destruct (negb (s =? "")) eqn:E; cbn [pct_s header_get].
  - split; [reflexivity|]. intros _. unfold wire_headers.
    cbn [via_session with_allow_redirects with_headers session_ new_request req_headers].
    rewrite ?E. rewrite header_get_update. reflexivity.
  - split; [reflexivity | discriminate].
Qed.

Lemma download_etag_witness :
  exists q1 h1 o1,
    sends (events_of (download Sample.ext (Sample.always (Sample.respond 304 [] Undecodable))
                               "alice" "pkg" "1.0" "pkg-1.0.tar.bz2"
                               (Some "900150983cd24fb0d6963f7d28e17f72") Sample.w0))
    = [(q1, h1, o1)]
    /\ header_get h1 "ETag" = Some "900150983cd24fb0d6963f7d28e17f72".
Proof.
  eexists. eexists. eexists. split; [reflexivity|].
  exact (proj2 (download_etag Sample.ext (Sample.always (Sample.respond 304 [] Undecodable))
                              "alice" "pkg" "1.0" "pkg-1.0.tar.bz2"
                              (Some "900150983cd24fb0d6963f7d28e17f72") Sample.w0
                              _ _ _ _ eq_refl) eq_refl).
Defined.

(** ** X10, X11, X12: more on the upload *)

(** X10: an upload whose [attrs] is given and is not a dict raises
    [TypeError] at once: the file is not read, nothing is sent, and the world
    is as it was. *)
Theorem upload_attrs_not_dict (ext : externals) (net : network) (a : upload_args)
        (w : world) (v : json) :
  up_attrs a = Some v ->
  (forall d, v <> JDict d) ->
  upload ext net a w
  = (Raise (TypeError "argument attrs must be a dictionary"), w,
     [Raised (TypeError "argument attrs must be a dictionary")]).
Proof.
  intros Ha Hv. unfold upload. cbn [bind get_self]. rewrite Ha.
  destruct v as [| | | | |d]; try (destruct w; reflexivity).
  exfalso. apply (Hv d). reflexivity.
Qed.

Lemma upload_attrs_not_dict_witness :
  upload Sample.ext Sample.unreachable
         (mkUploadArgs "alice" "pkg" "1.0" "pkg-1.0.tar.bz2" "conda" "" None None None
                       (JList []) (Some (JList [JStr "build=1"])) (JList [JStr "main"]))
         Sample.w0
  = (Raise (TypeError "argument attrs must be a dictionary"), Sample.w0,
     [Raised (TypeError "argument attrs must be a dictionary")]).
Proof.
  apply (upload_attrs_not_dict
           Sample.ext Sample.unreachable
           (mkUploadArgs "alice" "pkg" "1.0" "pkg-1.0.tar.bz2" "conda" "" None None None
                         (JList []) (Some (JList [JStr "build=1"])) (JList [JStr "main"]))
           Sample.w0 (JList [JStr "build=1"]) eq_refl).
  intros d H. discriminate H.
Defined.

(** X11: the stage request of an upload is a POST through the session whose
    JSON payload carries the caller's [sha256] when one is given and
    otherwise the hex SHA-256 of the file from its read offset on, and [{}]
    for [attrs] when none are given. *)
Theorem upload_stage_payload (ext : externals) (net : network) (a : upload_args)
        (w : world) (q1 : request) (h1 : headers) (o1 : outcome)
        (rest : list (request * headers * outcome)) :
  sends (events_of (upload ext net a w)) = (q1, h1, o1) :: rest ->
  method q1 = "POST" /\ via_session q1 = true /\ url q1 = stage_url (self w) a
  /\ exists payload,
      data q1 = Some (Encoded (JDict payload))
      /\ dict_get payload "sha256"
         = Some (JStr (match up_sha256 a with
                       | Some h => h
                       | None => hexdigest ext sha256_alg (remaining w)
                       end))
      /\ dict_get payload "attrs"
         = Some (match up_attrs a with Some v => v | None => JDict [] end)
      /\ dict_get payload "distribution_type" = Some (JStr (up_distribution_type a))
      /\ dict_get payload "channels" = Some (up_channels a).
Proof.
  intros Hs. pose proof (upload_run ext net a w) as P. unfold shape_of in P.
  rewrite Hs in P.
  assert (Hq : q1 = stage_request ext a w).
  { destruct rest as [|[[q2 h2] o2] [|[[q3 h3] o3] [|x rest]]]; cbn [upload_shape] in P;
      try contradiction; apply P. }
  subst q1. repeat split. eexists. split; [reflexivity|]. repeat split; reflexivity.
Qed.

Lemma upload_stage_payload_witness :
  exists q1 h1 o1 rest payload,
    sends (events_of (upload Sample.ext Sample.unreachable (Sample.args None) Sample.w0))
    = (q1, h1, o1) :: rest
    /\ data q1 = Some (Encoded (JDict payload))
    /\ dict_get payload "sha256"
       = Some (JStr "ba7816bf8f01cfea414140de5dae2223b00361a396177a9cb410ff61f20015ad").
Proof.
  destruct (upload_stage_payload Sample.ext Sample.unreachable (Sample.args None) Sample.w0
                                 _ _ _ _ eq_refl)
    as (_ & _ & _ & payload & Hd & Hsha & _).
  eexists. eexists. eexists. eexists. exists payload.
  split; [reflexivity|]. split; [exact Hd | exact Hsha].
Defined.

(** X12: the distribution id is looked up only after the transfer.  When
    the storage answered 201, either the stage answer had no [dist_id], and
    the upload ends in [KeyError] with no commit although the file is already
    stored; or the next request is the commit, a POST through the session
    that echoes the [dist_id] of the stage answer. *)
Theorem upload_dist_id (ext : externals) (net : network) (a : upload_args) (w : world)
        (q1 q2 : request) (h1 h2 : headers) (r1 r2 : response)
        (rest : list (request * headers * outcome)) :
  sends (events_of (upload ext net a w))
  = (q1, h1, Response r1) :: (q2, h2, Response r2) :: rest ->
  status_code r2 = 201%Z ->
  exists u f d,
    staged_fields r1 = Some (u, f, d)
    /\ match d with
       | None => rest = [] /\ result_in (upload ext net a w) = Raise (KeyError "dist_id")
       | Some id =>
           exists h3 o3,
             rest = [(commit_request a w id, h3, o3)]
             /\ data (commit_request a w id) = Some (Encoded (JDict [("dist_id", id)]))
             /\ via_session (commit_request a w id) = true
       end.
Proof.
  intros Hs H201. pose proof (upload_run ext net a w) as P. unfold shape_of in P.
  rewrite Hs in P.
  destruct rest as [|[[q3 h3] o3] [|x rest]]; cbn [upload_shape] in P; [| |contradiction].
  - destruct P as (_ & _ & _ & P).
    destruct (staged_fields r1) as [[[u f] d]|]; [|contradiction].
    destruct P as (_ & _ & P). rewrite H201 in P. cbn in P. destruct P as [-> Hr].
    exists u, f, None. split; [reflexivity|]. split; [reflexivity | exact Hr].
  - destruct P as (_ & _ & _ & P).
    destruct (staged_fields r1) as [[[u f] [d|]]|]; try contradiction.
    destruct P as (_ & _ & _ & -> & _).
    exists u, f, (Some d). split; [reflexivity|]. exists h3, o3. repeat split; reflexivity.
Qed.

Lemma upload_dist_id_witness :
  result_in (upload Sample.ext
               (Sample.scripted
                  [Sample.respond 200 []
                     (AsJson (JDict [("post_url", JStr Sample.s3); ("form_data", JDict [])]));
                   Sample.respond 201 [] Undecodable])
               (Sample.args None) Sample.w0)
  = Raise (KeyError "dist_id").
Proof.
  destruct (upload_dist_id
              Sample.ext
              (Sample.scripted
                 [Sample.respond 200 []
                    (AsJson (JDict [("post_url", JStr Sample.s3); ("form_data", JDict [])]));
                  Sample.respond 201 [] Undecodable])
              (Sample.args None) Sample.w0 _ _ _ _ _ _ _ eq_refl eq_refl)
    as (u & f & d & Hst & Hd).
  cbv in Hst. inversion Hst; subst d. exact (proj2 Hd).
Defined.

(** ** X13: the server-mode warnings *)

Lemma warnings_app (text : string) (e1 e2 : list event) :
  warnings text (e1 ++ e2)%list = warnings text e1 + warnings text e2.
Proof. unfold warnings. rewrite filter_app, length_app. reflexivity. Qed.

Lemma warnings_when (text msg : string) (b : bool) :
  warnings text (if b then [Warning msg] else []) = if b && (msg =? text) then 1 else 0.
Proof. destruct b; [|reflexivity]. unfold warnings. cbn. destruct (msg =? text); reflexivity. Qed.

Lemma warnings_check_warnings (ext : externals) (s : Binstar) (res : response) :
  warnings lockdown_text (check_warnings ext s res)
  = b2n (header_in "X-Anaconda-Lockdown" (res_headers res))
  /\ warnings read_only_text (check_warnings ext s res)
     = b2n (header_in "X-Anaconda-Read-Only" (res_headers res)).
Proof.
  unfold check_warnings. rewrite !warnings_app, !warnings_when.
  assert (T : forall text (b : bool), (text = lockdown_text \/ text = read_only_text) ->
              warnings text
                (if b
                 then match header_get (res_headers res) "Conda-Token-Warning" with
                      | Some v => [Warning ("Token warning: " ++ v)]
                      | None => []
                      end
                 else []) = 0).
  { intros text b Ht. destruct b; [|reflexivity].
    destruct (header_get (res_headers res) "Conda-Token-Warning"); [|reflexivity].
    destruct Ht as [-> | ->]; reflexivity. }
  rewrite !T by (left + right; reflexivity).
  split.
  - destruct (pv_gt ext _ _), (header_in "X-Anaconda-Lockdown" (res_headers res)),
      (header_in "X-Anaconda-Read-Only" (res_headers res)); reflexivity.
  - destruct (pv_gt ext _ _), (header_in "X-Anaconda-Lockdown" (res_headers res)),
      (header_in "X-Anaconda-Read-Only" (res_headers res)); reflexivity.
Qed.

(** X13: the lockdown and read-only warnings are logged once for every
    classified response that carries the header, whatever its status and
    however often it was logged before: over a series of responses each
    warning is logged as many times as responses carry its header. *)
Theorem server_mode_warnings (ext : externals) (rs : list (response * list Z)) (w : world) :
  warnings lockdown_text (snd (classify_all ext rs w))
  = List.length (filter (fun x => header_in "X-Anaconda-Lockdown" (res_headers (fst x))) rs)
  /\ warnings read_only_text (snd (classify_all ext rs w))
     = List.length (filter (fun x => header_in "X-Anaconda-Read-Only" (res_headers (fst x))) rs).
Proof.
  revert w. induction rs as [|[res al] rs IH]; intros w; [split; reflexivity|].
  cbn [classify_all filter fst]. rewrite check_response_run.
  destruct (IH (mkWorld (mark_warned (self w) res) (fd w) (clock w))) as [IH1 IH2].
  destruct (classify_all ext rs _) as [w2 e2]. cbn [snd] in *.
  destruct (warnings_check_warnings ext (self w) res) as [L R].
  assert (Z0 : forall text, warnings text (raised_of_exn (check_exn ext res al)) = 0).
  { intros text. destruct (check_exn ext res al); reflexivity. }
  assert (Z1 : forall text, warnings text (check_swallowed res al) = 0).
  { intros text. unfold check_swallowed. destruct (status_allowed res al); [reflexivity|].
    destruct (body res); reflexivity. }
  rewrite !warnings_app, L, R, !Z0, !Z1, IH1, IH2. split.
  - destruct (header_in "X-Anaconda-Lockdown" (res_headers res)); cbn; lia.
  - destruct (header_in "X-Anaconda-Read-Only" (res_headers res)); cbn; lia.
Qed.

(** ** X14: the message of a classification error *)

(** X14: on a disallowed status the error's message is the [error] field of
    the answer when the answer is a JSON object that has one, whatever its
    type; it is the default text, built from the status table, the request's
    method and URL and the status, when the answer is not JSON or has no
    such field; and a status the table does not know is described as
    ['?: Undefined error']. *)
Theorem error_message_source (ext : externals) (res : response) (allowed : list Z)
        (w : world) :
  status_allowed res allowed = false ->
  (forall d v, body res = AsJson (JDict d) -> dict_get d "error" = Some v ->
               result_in (_check_response ext res allowed w)
               = Raise (ApiError (select_ErrCls (status_code res)) v (Some (status_code res))))
  /\ ((forall j, body res <> AsJson j)
      \/ (exists d, body res = AsJson (JDict d) /\ dict_get d "error" = None) ->
      result_in (_check_response ext res allowed w)
      = Raise (ApiError (select_ErrCls (status_code res)) (JStr (default_message ext res))
                        (Some (status_code res))))
  /\ (STATUS_CODES ext (status_code res) = None ->
      default_message ext res
      = "?: Undefined error ([" ++ request_method res ++ "] " ++ request_url res
        ++ " -> " ++ str_of_Z (status_code res) ++ ")").
Proof.
  intros Ha. rewrite check_response_result. unfold check_exn. rewrite Ha.
  split; [|split].
  - intros d v Hb Hv. rewrite Hb, Hv. reflexivity.
  - intros [Hn | (d & Hb & Hv)].
    + destruct (body res) as [j| |]; try reflexivity. exfalso. apply (Hn j). reflexivity.
    + rewrite Hb, Hv. reflexivity.
  - intros Hs. unfold default_message. rewrite Hs. reflexivity.
Qed.

Lemma error_message_source_witness :
  result_in (_check_response Sample.ext
               (Sample.respond 409 []
                  (AsJson (JDict [("error", JStr "Distribution already exists")])))
               [200%Z] Sample.w0)
  = Raise (ApiError Conflict (JStr "Distribution already exists") (Some 409%Z)).
Proof.
  exact (proj1 (error_message_source
                  Sample.ext
                  (Sample.respond 409 []
                     (AsJson (JDict [("error", JStr "Distribution already exists")])))
                  [200%Z] Sample.w0 eq_refl)
               _ _ eq_refl eq_refl).
Defined.

(** ** X15: the payload of a new release *)

Lemma dict_get_app {V : Type} (d1 d2 : list (string * V)) (k : string) :
  dict_get (d1 ++ d2)%list k
  = match dict_get d1 k with Some v => Some v | None => dict_get d2 k end.
Proof.
  induction d1 as [|[k0 v0] d1 IH]; cbn; [reflexivity|].
  destruct (k0 =? k); [reflexivity | exact IH].
Qed.

(** [d.update(upd)]: a key of [upd] gets its last value there, every other
    key keeps the value it had. *)
Lemma dict_get_update {V : Type} (d upd : list (string * V)) (k : string) :
  dict_get (dict_update d upd) k
  = match dict_get (rev upd) k with Some v => Some v | None => dict_get d k end.
Proof.
  unfold dict_update. revert d. induction upd as [|[k0 v0] upd IH]; intros d.
  - reflexivity.
  - cbn [fold_left fst snd rev]. rewrite IH, dict_get_app.
    destruct (dict_get (rev upd) k) as [v|]; [reflexivity|].
    cbn [dict_get]. destruct (k0 =? k) eqn:E.
    + apply String.eqb_eq in E. subst k0. apply dict_get_set_same.
    + apply dict_get_set_other. exact E.
Qed.

(** X15: [add_release] posts a payload in which every key of
    [release_attrs] has the value given there, overriding [requirements],
    [announce] and the [description] that is [None] by default, and every
    other key keeps its default. *)
Theorem add_release_payload (ext : externals) (net : network) (l p v : string)
        (rq an : json) (ra : list (string * json)) (w : world) :
  exists q payload,
    sends (events_of (add_release ext net l p v rq an ra w))
    = [(q, wire_headers (self w) q, net (clock w) q)]
    /\ method q = "POST"
    /\ url q = domain (self w) ++ "/release/" ++ l ++ "/" ++ p ++ "/" ++ v
    /\ data q = Some (Encoded (JDict payload))
    /\ forall k,
        dict_get payload k
        = match dict_get (rev ra) k with
          | Some x => Some x
          | None => dict_get [("requirements", rq); ("announce", an); ("description", JNull)] k
          end.
Proof.
  unfold add_release.
  match goal with |- context [bind get_self ?f w] =>
    destruct (bind_get_self f w) as (-> & _) end.
  cbv zeta. cbn [jencode].
  match goal with |- context [send net ?q] =>
    destruct (json_tail_run ext net q [200%Z] w) as [Hs _]; exists q end.
  cbv zeta in Hs. eexists. split; [exact Hs|]. repeat split.
  intros k. apply dict_get_update.
Qed.

(** ** X16: the argument that is not used *)

(** X16: the [created_with] argument of [_authenticate] has no effect: the
    payload always carries [created_with: None], so two calls that differ in
    that argument only run alike. *)
Theorem authenticate_ignores_created_with (ext : externals) (net : network) (k : auth_kind)
        (app app_url user_ scopes_ cw cw' age strength_ : json) (fail : bool)
        (host : option json) :
  _authenticate ext net k (mkAuthArgs app app_url user_ scopes_ cw age strength_ fail host)
  = _authenticate ext net k (mkAuthArgs app app_url user_ scopes_ cw' age strength_ fail host).
Proof. reflexivity. Qed.

(** ** X17: the attributes of a new package *)

Lemma dict_set_truthy (d : list (string * json)) (k : string) (v : json) :
  json_truthy (JDict (dict_set d k v)) = true.
Proof. destruct d as [|[k0 v0] d]; cbn; [reflexivity|]. destruct (k0 =? k); reflexivity. Qed.

(** X17: [add_package] takes the caller's [attrs] when they are a non-empty
    dict and [{}] when they are empty or [None]; it stores the summary, the
    package type and the license under [summary], [package_types] and
    [license] whatever the caller had there, keeps every other key, and posts
    the result as [public_attrs] with [publish] false.  Attributes that are
    neither empty nor a dict raise [TypeError] before anything is sent. *)
Theorem add_package_payload (ext : externals) (net : network) (l p : string)
        (su li : json) (pu : bool) (lu lf at' : json) (pt : option string) (w : world) :
  match (if json_truthy at' then at' else JDict []) with
  | JDict d =>
      exists q pa,
        sends (events_of (add_package ext net l p su li pu lu lf at' pt w))
        = [(q, wire_headers (self w) q, net (clock w) q)]
        /\ data q = Some (Encoded (JDict [("public", JBool pu); ("publish", JBool false);
                                          ("public_attrs", JDict pa)]))
        /\ dict_get pa "summary" = Some su
        /\ dict_get pa "package_types" = Some (JList [json_of_option pt])
        /\ dict_get pa "license" = Some (JDict [("name", li); ("url", lu); ("family", lf)])
        /\ forall k, (k =? "summary") = false -> (k =? "package_types") = false ->
                     (k =? "license") = false -> dict_get pa k = dict_get d k
  | _ =>
      exists what,
        add_package ext net l p su li pu lu lf at' pt w
        = (Raise (TypeError what), w, [Raised (TypeError what)])
  end.
Proof.
  unfold add_package.
  destruct (if json_truthy at' then at' else JDict []) as [| | | | |d];
    try (eexists; destruct w; reflexivity).
  match goal with |- context [bind get_self ?f w] =>
    destruct (bind_get_self f w) as (-> & _) end.
  cbv zeta.
  repeat (cbn [setitem];
          match goal with |- context [bind (ret ?u) ?f w] =>
            destruct (bind_ret_parts u f w) as (-> & _) end).
  cbv beta. rewrite dict_set_truthy. cbn [jencode].
  match goal with |- context [send net ?q] =>
    destruct (json_tail_run ext net q [200%Z] w) as [Hs _]; exists q end.
  cbv zeta in Hs. eexists. split; [exact Hs|]. split; [reflexivity|].
  split; [|split; [|split]].
  - rewrite !dict_get_set_other by reflexivity. apply dict_get_set_same.
  - rewrite dict_get_set_other by reflexivity. apply dict_get_set_same.
  - apply dict_get_set_same.
  - intros k H1 H2 H3.
    rewrite !dict_get_set_other by (rewrite String.eqb_sym; assumption). reflexivity.
Qed.

Lemma add_package_payload_witness :
  exists q pa,
    sends (events_of (add_package Sample.ext Sample.unreachable "alice" "pkg"
                                  (JStr "a package") JNull true JNull JNull
                                  (JDict [("summary", JStr "old"); ("home", JStr "h")])
                                  (Some "conda") Sample.w0))
    = [(q, wire_headers (self Sample.w0) q, Failed "connection refused")]
    /\ dict_get pa "summary" = Some (JStr "a package")
    /\ dict_get pa "home" = Some (JStr "h").
Proof.
  destruct (add_package_payload Sample.ext Sample.unreachable "alice" "pkg"
                                (JStr "a package") JNull true JNull JNull
                                (JDict [("summary", JStr "old"); ("home", JStr "h")])
                                (Some "conda") Sample.w0)
    as (q & pa & Hs & _ & Hsum & _ & _ & Hk).
  exists q, pa. split; [exact Hs|]. split; [exact Hsum|].
  exact (Hk "home" eq_refl eq_refl eq_refl).
Defined.

(** ** X18: the kind of authentication *)

(** X18: [authentication_type] asks [/authentication-type] once through the
    session.  A 200 answer that is a JSON object gives its
    [authentication_type] field, and raises [KeyError] when the field is
    missing; a typed API error from the classifier gives ['password']; a
    transport failure and a 200 answer that is not JSON are raised. *)
Theorem authentication_type_reply (ext : externals) (net : network) (w : world) :
  exists q,
    method q = "GET" /\ url q = domain (self w) ++ "/authentication-type"
    /\ sends (events_of (authentication_type ext net w))
       = [(q, wire_headers (self w) q, net (clock w) q)]
    /\ match net (clock w) q with
       | Failed what =>
           result_in (authentication_type ext net w) = Raise (TransportError what)
       | Response res =>
           match check_exn ext res [200%Z] with
           | Some e =>
               result_in (authentication_type ext net w)
               = if is_BinstarError e then Ok (JStr "password") else Raise e
           | None =>
               match body res with
               | AsJson (JDict d) =>
                   result_in (authentication_type ext net w)
                   = match dict_get d "authentication_type" with
                     | Some v => Ok v
                     | None => Raise (KeyError "authentication_type")
                     end
               | AsJson _ =>
                   exists what, result_in (authentication_type ext net w)
                                = Raise (TypeError what)
               | _ =>
                   exists what, result_in (authentication_type ext net w)
                                = Raise (ValueError what)
               end
           end
       end.
Proof.
  exists (session_ "GET" (domain (self w) ++ "/authentication-type")).
  split; [reflexivity|]. split; [reflexivity|].
  unfold authentication_type, bind, try_except, get_self, send, raise, ret.
  destruct (net (clock w) _) as [what|res]; [split; reflexivity|].
  rewrite check_response_run.
  destruct (check_exn ext res [200%Z]) as [e|]; cbn [result_of_exn raised_of_exn].
  - destruct (is_BinstarError e); unfold events_of, result_in; cbn [fst snd app sends];
      rewrite ?sends_app, ?sends_check_warnings, ?sends_check_swallowed; split; reflexivity.
  - unfold res_json, subscript, raise, ret.
    destruct (body res) as [[| | | | |d]| |];
      try destruct (dict_get d "authentication_type");
      unfold events_of, result_in; cbn;
      rewrite ?sends_app, ?sends_check_warnings, ?sends_check_swallowed; split;
      try reflexivity; eexists; reflexivity.
Qed.

(** ** X19: the session the constructor sets up *)

(** X19: the constructor puts the [Authorization] header on the session
    exactly when a token is given and is not the empty string, with the value
    ['token <token>']; the API version, the user agent and the JSON content
    and accept types are always there; and the warning flag starts unset. *)
Theorem init_session (ext : externals) (tok : option string) (d : string) (v : bool) :
  let s := __init__ ext tok d v in
  header_get (session_headers s) "Authorization"
  = (if truthy tok then Some ("token " ++ pct_s tok) else None)
  /\ header_get (session_headers s) "x-binstar-api-version" = Some (__version__ ext)
  /\ header_get (session_headers s) "User-Agent"
     = Some ("Anaconda-Client/" ++ __version__ ext ++ " (+https://anaconda.org)")
  /\ header_get (session_headers s) "Content-Type" = Some "application/json"
  /\ header_get (session_headers s) "Accept" = Some "application/json"
  /\ token s = tok /\ session_verify s = v /\ _token_warning_sent s = false.
Proof.
  cbv zeta. unfold __init__.
  cbn [session_headers token session_verify _token_warning_sent].
  destruct (truthy tok); repeat split; reflexivity.
Qed.

(** ** X20: a redirect without a location *)

(** X20: when the download is answered with a 302 that has no [location]
    header, [download] raises [KeyError] and makes no second request. *)
Theorem download_redirect_without_location (ext : externals) (net : network)
        (l p r b : string) (m : option string) (w : world)
        (q1 : request) (h1 : headers) (r1 : response)
        (rest : list (request * headers * outcome)) :
  sends (events_of (download ext net l p r b m w)) = (q1, h1, Response r1) :: rest ->
  status_code r1 = 302%Z ->
  header_get (res_headers r1) "location" = None ->
  rest = [] /\ result_in (download ext net l p r b m w) = Raise (KeyError "location").
Proof.
  intros Hs H302 Hloc. pose proof (download_run ext net l p r b m w) as P.
  unfold download_shape_of in P. rewrite Hs in P.
  destruct rest as [|[[q2 h2] o2] [|x rest]]; cbn [download_shape] in P; [| |contradiction].
  - destruct P as (_ & _ & P).
    assert (Hc : check_exn ext r1 download_set = None).
    { apply check_exn_none. unfold status_allowed, download_set. cbn [existsb].
      rewrite H302. reflexivity. }
    rewrite Hc, H302 in P. cbn in P. split; [reflexivity | apply P].
  - destruct P as (_ & _ & _ & _ & P). rewrite Hloc in P. contradiction.
Qed.

Lemma download_redirect_without_location_witness :
  result_in (download Sample.ext (Sample.always (Sample.respond 302 [] Undecodable))
                      "alice" "pkg" "1.0" "pkg-1.0.tar.bz2" None Sample.w0)
  = Raise (KeyError "location").
Proof.
  exact (proj2 (download_redirect_without_location
                  Sample.ext (Sample.always (Sample.respond 302 [] Undecodable))
                  "alice" "pkg" "1.0" "pkg-1.0.tar.bz2" None Sample.w0
                  _ _ _ _ eq_refl eq_refl eq_refl)).
Defined.
